(** * Tax engine: law registry, tax calculator and deduction advisor

    A shallow embedding of
    - [TaxLawService] and [TaxCalculationService]
      (packages/tax-engine/src/services/TaxCalculationService.ts),
    - [DeductionOptimizationService] (the deduction advisor), and
    - the shared types they exchange ([TaxReturn], [TaxCalculation], ...).

    Conventions of the embedding.
    - A JavaScript [number] is taken for the rational it denotes ([Q]); [==]
      is equality of rationals.  [Math.max], [Math.min], [Math.ceil] and
      [Math.round] are written out in module [Math].
    - The program computes with IEEE 754 doubles.  Where the rounding of
      double arithmetic decides a branch or a returned digit (the sum that is
      compared with 400, the effective rate, division by zero, the thresholds
      of the advisor's gap rules) the code is embedded a second time in module
      [Binary64], over the primitive floats, and the results in question are
      stated there.
    - A TypeScript interface is a module holding a record [t], so that fields
      keep their source names ([TaxBracket.min], [TaxCalculation.amountOwed]).
      Fields that no modelled function reads (names, document ids, dates) are
      left out.
    - The services are [async] methods over a cache and a database pool; they
      run in the state monad [M] over a [World].  An exception inside a [try]
      block is a [None] that the enclosing [catch] turns into its response.
    - Objects that the advisor copies and assigns to live in a [Heap] of
      references, so that sharing between a return and its copy is visible. *)

From Stdlib Require Import ZArith QArith Qround Lqa Lia List String Permutation Sorted.
From Stdlib Require PrimFloat FloatOps SpecFloat FloatAxioms.
From stdpp Require Import base option gmap.
Import ListNotations.
Local Open Scope Q_scope.

(** ** Numbers *)

Module Math.
Definition max (a b : Q) : Q := if Qlt_le_dec a b then b else a.
Definition min (a b : Q) : Q := if Qlt_le_dec b a then b else a.
  (** [Math.ceil]: least integer not below [x]. *)
Definition ceil (x : Q) : Q := inject_Z (Qceiling x).
  (** [Math.round]: nearest integer, halves towards plus infinity. *)
Definition round (x : Q) : Q := inject_Z (Qfloor (x + 0.5)).
End Math.

(** [arr.reduce((sum, x) => sum + f(x), 0)] *)
Definition reduce_sum {A : Type} (f : A -> Q) (arr : list A) : Q :=
  fold_left (fun sum x => sum + f x) arr 0.

(** ** Shared types *)

Inductive FilingStatus :=
| SINGLE
| MARRIED_FILING_JOINTLY
| MARRIED_FILING_SEPARATELY
| HEAD_OF_HOUSEHOLD
| QUALIFYING_WIDOW.

Inductive ItemizedDeductionCategory :=
| MEDICAL_DENTAL
| STATE_LOCAL_TAXES
| MORTGAGE_INTEREST
| CHARITABLE_CONTRIBUTIONS
| MISCELLANEOUS.

Inductive BusinessDeductionCategory :=
| OFFICE_EXPENSES | TRAVEL | MEALS | VEHICLE | EQUIPMENT
| PROFESSIONAL_SERVICES | INSURANCE | UTILITIES | RENT | SUPPLIES.

Definition ItemizedDeductionCategory_eqb (a b : ItemizedDeductionCategory) : bool :=
  match a, b with
  | MEDICAL_DENTAL, MEDICAL_DENTAL
  | STATE_LOCAL_TAXES, STATE_LOCAL_TAXES
  | MORTGAGE_INTEREST, MORTGAGE_INTEREST
  | CHARITABLE_CONTRIBUTIONS, CHARITABLE_CONTRIBUTIONS
  | MISCELLANEOUS, MISCELLANEOUS => true
  | _, _ => false
  end.

Inductive ErrorCodes :=
| INVALID_CREDENTIALS | MFA_REQUIRED | INVALID_MFA_CODE | ACCOUNT_LOCKED | TOKEN_EXPIRED
| VALIDATION_ERROR | DUPLICATE_EMAIL | WEAK_PASSWORD
| INTERNAL_ERROR | SERVICE_UNAVAILABLE | RATE_LIMIT_EXCEEDED.

(** The message templates the two services put in a response. *)
Inductive Message :=
| TaxLawConfigurationNotFoundForYear (taxYear : Z)
| TaxCalculationFailedInternalError
| TaxCalculationCompleted
| DeductionOptimizationFailedInternalError
| DeductionOptimizationCompleted.

(** [ApiResponse<T>]: [success: true] with [data], or [success: false] with
    [error: {code, message}]. *)
Inductive ApiResponse (T : Type) :=
| Success (data : T) (message : Message)
| Failure (code : ErrorCodes) (message : Message).
Arguments Success {T} data message.
Arguments Failure {T} code message.

Module TaxBracket.
Record t := mk { min : Q; max : Q; rate : Q }.
End TaxBracket.

Module TaxLawConfiguration.
Record t := mk {
    taxYear : Z;
    standardDeductions : FilingStatus -> Q;
    taxBrackets : FilingStatus -> list TaxBracket.t;
    socialSecurityWageBase : Q;
    socialSecurityRate : Q;
    medicareRate : Q;
    additionalMedicareRate : Q;
    additionalMedicareThreshold : FilingStatus -> Q;
    personalExemption : Q;
    childTaxCreditAmount : Q;
    childTaxCreditPhaseoutThreshold : FilingStatus -> Q
  }.
End TaxLawConfiguration.

Module WageIncome.
Record t := mk { wages : Q; federalTaxWithheld : Q }.
End WageIncome.

Module SelfEmploymentIncome.
Record t := mk { grossReceipts : Q; businessExpenses : Q; netProfit : Q }.
End SelfEmploymentIncome.

Module InvestmentIncome.
Record t := mk { amount : Q; taxableAmount : Q }.
End InvestmentIncome.

Module RetirementIncome.
Record t := mk { grossDistribution : Q; taxableAmount : Q; federalTaxWithheld : Q }.
End RetirementIncome.

Module OtherIncome.
Record t := mk { amount : Q; taxable : bool }.
End OtherIncome.

Module IncomeData.
Record t := mk {
    wages : list WageIncome.t;
    selfEmployment : list SelfEmploymentIncome.t;
    investment : list InvestmentIncome.t;
    retirement : list RetirementIncome.t;
    other : list OtherIncome.t;
    totalIncome : Q;
    adjustedGrossIncome : Q
  }.
End IncomeData.

Module ItemizedDeduction.
Record t := mk { category : ItemizedDeductionCategory; amount : Q }.
End ItemizedDeduction.

Module IncomeAdjustment.
Record t := mk { amount : Q }.
End IncomeAdjustment.

Module DeductionData.
Record t := mk {
    standardDeduction : Q;
    itemizedDeductions : list ItemizedDeduction.t;
    totalItemizedDeductions : Q;
    adjustments : list IncomeAdjustment.t
  }.
End DeductionData.

Module OtherCredit.
Record t := mk { amount : Q }.
End OtherCredit.

Module CreditData.
Record t := mk {
    childTaxCredit : Q;
    earnedIncomeCredit : Q;
    educationCredits : Q;
    retirementSavingsCredit : Q;
    otherCredits : list OtherCredit.t;
    totalCredits : Q
  }.
End CreditData.

Module TaxCalculation.
Record t := mk {
    grossIncome : Q;
    adjustedGrossIncome : Q;
    taxableIncome : Q;
    federalTaxBeforeCredits : Q;
    totalCredits : Q;
    federalTaxAfterCredits : Q;
    selfEmploymentTax : Q;
    totalTaxLiability : Q;
    totalWithholding : Q;
    estimatedPayments : Q;
    refundAmount : Q;
    amountOwed : Q;
    effectiveTaxRate : Q;
    marginalTaxRate : Q
  }.
End TaxCalculation.

Module TaxReturn.
Record t := mk {
    id : string;
    taxYear : Z;
    filingStatus : FilingStatus;
    income : IncomeData.t;
    deductions : DeductionData.t;
    credits : CreditData.t;
    calculations : TaxCalculation.t
  }.
End TaxReturn.

(** ** The world the services run in *)

Inductive LogLevel := INFO | WARN | ERROR.

(** Lines written by the logger of the tax-law service. *)
Inductive LogLine :=
| Tax_law_configuration_not_found (taxYear : Z)
| Failed_to_get_tax_law_configuration (taxYear : Z)
| Tax_law_configuration_updated (taxYear : Z)
| Failed_to_update_tax_law_configuration (taxYear : Z)
| Tax_law_configuration_cache_cleared.

(** The [pg] pool behind [this.db]: table [tax_law_configurations] keyed by
    [tax_year]; a query on an unreachable store rejects. *)
Record Pool := mkPool {
  reachable : bool;
  tax_law_configurations : gmap Z TaxLawConfiguration.t
}.

Record World := mkWorld {
  configCache : gmap Z TaxLawConfiguration.t;
  db : Pool;
  logged : list (LogLevel * LogLine)
}.

Definition M (A : Type) : Type := World -> A * World.
Definition ret {A : Type} (a : A) : M A := fun w => (a, w).
Definition bind {A B : Type} (m : M A) (k : A -> M B) : M B :=
  fun w => let (a, w') := m w in k a w'.
Notation "'const' x ':=' 'await' m ;; k" := (bind m (fun x => k))
  (at level 10, x name, m at level 99, k at level 200).
Notation "'await' m ;; k" := (bind m (fun _ => k))
  (at level 10, m at level 99, k at level 200).

Definition log (level : LogLevel) (line : LogLine) : M unit :=
  fun w => (tt, mkWorld (configCache w) (db w) (logged w ++ [(level, line)])).
Definition cache_set (taxYear : Z) (config : TaxLawConfiguration.t) : M unit :=
  fun w => (tt, mkWorld (<[taxYear := config]> (configCache w)) (db w) (logged w)).
Definition cache_get (taxYear : Z) : M (option TaxLawConfiguration.t) :=
  fun w => (configCache w !! taxYear, w).

(** [SELECT * FROM tax_law_configurations WHERE tax_year = $1]:
    [None] when the query rejects, otherwise the rows. *)
Definition query_select (taxYear : Z) : M (option (list TaxLawConfiguration.t)) :=
  fun w =>
    if reachable (db w)
    then (Some (match tax_law_configurations (db w) !! taxYear with
                | Some row => [row]
                | None => []
                end), w)
    else (None, w).

(** [INSERT ... ON CONFLICT (tax_year) DO UPDATE ...]: [false] when the query
    rejects. *)
Definition query_upsert (config : TaxLawConfiguration.t) : M bool :=
  fun w =>
    if reachable (db w)
    then (true, mkWorld (configCache w)
                  (mkPool true (<[TaxLawConfiguration.taxYear config := config]>
                                  (tax_law_configurations (db w))))
                  (logged w))
    else (false, w).

(** ** TaxLawService *)

Definition getTaxLawConfiguration (taxYear : Z) : M (option TaxLawConfiguration.t) :=
  const cached := await cache_get taxYear ;;
  match cached with
  | Some config => ret (Some config)
  | None =>
      const result := await query_select taxYear ;;
      match result with
      | Some [] =>
          await log WARN (Tax_law_configuration_not_found taxYear) ;;
          ret None
      | Some (row :: _) =>
          await cache_set taxYear row ;;
          ret (Some row)
      | None => (* catch (error) *)
          await log ERROR (Failed_to_get_tax_law_configuration taxYear) ;;
          ret None
      end
  end.

Definition updateTaxLawConfiguration (config : TaxLawConfiguration.t) : M bool :=
  const stored := await query_upsert config ;;
  if stored
  then await cache_set (TaxLawConfiguration.taxYear config) config ;;
       await log INFO (Tax_law_configuration_updated (TaxLawConfiguration.taxYear config)) ;;
       ret true
  else await log ERROR
         (Failed_to_update_tax_law_configuration (TaxLawConfiguration.taxYear config)) ;;
       ret false.

Definition clearCache : M unit :=
  fun w => log INFO Tax_law_configuration_cache_cleared (mkWorld ∅ (db w) (logged w)).

Definition getTaxYear2024Configuration : TaxLawConfiguration.t :=
  {| TaxLawConfiguration.taxYear := 2024;
     TaxLawConfiguration.standardDeductions := fun filingStatus =>
       match filingStatus with
       | SINGLE => 14600
       | MARRIED_FILING_JOINTLY => 29200
       | MARRIED_FILING_SEPARATELY => 14600
       | HEAD_OF_HOUSEHOLD => 21900
       | QUALIFYING_WIDOW => 29200
       end;
     TaxLawConfiguration.taxBrackets := fun filingStatus =>
       match filingStatus with
       | SINGLE =>
           [ TaxBracket.mk 0 11000 0.10;
             TaxBracket.mk 11000 44725 0.12;
             TaxBracket.mk 44725 95375 0.22;
             TaxBracket.mk 95375 197050 0.24;
             TaxBracket.mk 197050 250525 0.32;
             TaxBracket.mk 250525 626350 0.35;
             TaxBracket.mk 626350 999999999 0.37 ]
       | MARRIED_FILING_JOINTLY =>
           [ TaxBracket.mk 0 22000 0.10;
             TaxBracket.mk 22000 89450 0.12;
             TaxBracket.mk 89450 190750 0.22;
             TaxBracket.mk 190750 364200 0.24;
             TaxBracket.mk 364200 462500 0.32;
             TaxBracket.mk 462500 693750 0.35;
             TaxBracket.mk 693750 999999999 0.37 ]
       | MARRIED_FILING_SEPARATELY =>
           [ TaxBracket.mk 0 11000 0.10;
             TaxBracket.mk 11000 44725 0.12;
             TaxBracket.mk 44725 95375 0.22;
             TaxBracket.mk 95375 182050 0.24;
             TaxBracket.mk 182050 231250 0.32;
             TaxBracket.mk 231250 346875 0.35;
             TaxBracket.mk 346875 999999999 0.37 ]
       | HEAD_OF_HOUSEHOLD =>
           [ TaxBracket.mk 0 15700 0.10;
             TaxBracket.mk 15700 59850 0.12;
             TaxBracket.mk 59850 95350 0.22;
             TaxBracket.mk 95350 182050 0.24;
             TaxBracket.mk 182050 231250 0.32;
             TaxBracket.mk 231250 609350 0.35;
             TaxBracket.mk 609350 999999999 0.37 ]
       | QUALIFYING_WIDOW =>
           [ TaxBracket.mk 0 22000 0.10;
             TaxBracket.mk 22000 89450 0.12;
             TaxBracket.mk 89450 190750 0.22;
             TaxBracket.mk 190750 364200 0.24;
             TaxBracket.mk 364200 462500 0.32;
             TaxBracket.mk 462500 693750 0.35;
             TaxBracket.mk 693750 999999999 0.37 ]
       end;
     TaxLawConfiguration.socialSecurityWageBase := 168600;
     TaxLawConfiguration.socialSecurityRate := 0.062;
     TaxLawConfiguration.medicareRate := 0.0145;
     TaxLawConfiguration.additionalMedicareRate := 0.009;
     TaxLawConfiguration.additionalMedicareThreshold := fun filingStatus =>
       match filingStatus with
       | SINGLE => 200000
       | MARRIED_FILING_JOINTLY => 250000
       | MARRIED_FILING_SEPARATELY => 125000
       | HEAD_OF_HOUSEHOLD => 200000
       | QUALIFYING_WIDOW => 250000
       end;
     TaxLawConfiguration.personalExemption := 0;
     TaxLawConfiguration.childTaxCreditAmount := 2000;
     TaxLawConfiguration.childTaxCreditPhaseoutThreshold := fun filingStatus =>
       match filingStatus with
       | SINGLE => 200000
       | MARRIED_FILING_JOINTLY => 400000
       | MARRIED_FILING_SEPARATELY => 200000
       | HEAD_OF_HOUSEHOLD => 200000
       | QUALIFYING_WIDOW => 400000
       end |}.

Definition getTaxYear2023Configuration : TaxLawConfiguration.t :=
  {| TaxLawConfiguration.taxYear := 2023;
     TaxLawConfiguration.standardDeductions := fun filingStatus =>
       match filingStatus with
       | SINGLE => 13850
       | MARRIED_FILING_JOINTLY => 27700
       | MARRIED_FILING_SEPARATELY => 13850
       | HEAD_OF_HOUSEHOLD => 20800
       | QUALIFYING_WIDOW => 27700
       end;
     TaxLawConfiguration.taxBrackets := fun filingStatus =>
       match filingStatus with
       | SINGLE =>
           [ TaxBracket.mk 0 11000 0.10;
             TaxBracket.mk 11000 44725 0.12;
             TaxBracket.mk 44725 95375 0.22;
             TaxBracket.mk 95375 182050 0.24;
             TaxBracket.mk 182050 231250 0.32;
             TaxBracket.mk 231250 578125 0.35;
             TaxBracket.mk 578125 999999999 0.37 ]
       | MARRIED_FILING_JOINTLY =>
           [ TaxBracket.mk 0 22000 0.10;
             TaxBracket.mk 22000 89450 0.12;
             TaxBracket.mk 89450 190750 0.22;
             TaxBracket.mk 190750 364200 0.24;
             TaxBracket.mk 364200 462500 0.32;
             TaxBracket.mk 462500 693750 0.35;
             TaxBracket.mk 693750 999999999 0.37 ]
       | MARRIED_FILING_SEPARATELY =>
           [ TaxBracket.mk 0 11000 0.10;
             TaxBracket.mk 11000 44725 0.12;
             TaxBracket.mk 44725 95375 0.22;
             TaxBracket.mk 95375 182100 0.24;
             TaxBracket.mk 182100 231250 0.32;
             TaxBracket.mk 231250 346875 0.35;
             TaxBracket.mk 346875 999999999 0.37 ]
       | HEAD_OF_HOUSEHOLD =>
           [ TaxBracket.mk 0 15700 0.10;
             TaxBracket.mk 15700 59850 0.12;
             TaxBracket.mk 59850 95350 0.22;
             TaxBracket.mk 95350 182050 0.24;
             TaxBracket.mk 182050 231250 0.32;
             TaxBracket.mk 231250 578100 0.35;
             TaxBracket.mk 578100 999999999 0.37 ]
       | QUALIFYING_WIDOW =>
           [ TaxBracket.mk 0 22000 0.10;
             TaxBracket.mk 22000 89450 0.12;
             TaxBracket.mk 89450 190750 0.22;
             TaxBracket.mk 190750 364200 0.24;
             TaxBracket.mk 364200 462500 0.32;
             TaxBracket.mk 462500 693750 0.35;
             TaxBracket.mk 693750 999999999 0.37 ]
       end;
     TaxLawConfiguration.socialSecurityWageBase := 160200;
     TaxLawConfiguration.socialSecurityRate := 0.062;
     TaxLawConfiguration.medicareRate := 0.0145;
     TaxLawConfiguration.additionalMedicareRate := 0.009;
     TaxLawConfiguration.additionalMedicareThreshold := fun filingStatus =>
       match filingStatus with
       | SINGLE => 200000
       | MARRIED_FILING_JOINTLY => 250000
       | MARRIED_FILING_SEPARATELY => 125000
       | HEAD_OF_HOUSEHOLD => 200000
       | QUALIFYING_WIDOW => 250000
       end;
     TaxLawConfiguration.personalExemption := 0;
     TaxLawConfiguration.childTaxCreditAmount := 2000;
     TaxLawConfiguration.childTaxCreditPhaseoutThreshold := fun filingStatus =>
       match filingStatus with
       | SINGLE => 200000
       | MARRIED_FILING_JOINTLY => 400000
       | MARRIED_FILING_SEPARATELY => 200000
       | HEAD_OF_HOUSEHOLD => 200000
       | QUALIFYING_WIDOW => 400000
       end |}.

Definition initializeDefaultConfigurations : M unit :=
  await updateTaxLawConfiguration getTaxYear2024Configuration ;;
  await updateTaxLawConfiguration getTaxYear2023Configuration ;;
  ret tt.

(** ** TaxCalculationService *)

(** JavaScript comparisons of numbers: [a <= b], [a < b], [a > b], [a >= b]
    and [a === b]. *)
Definition num_le (a b : Q) : bool := Qle_bool a b.
Definition num_lt (a b : Q) : bool := negb (Qle_bool b a).
Definition num_gt (a b : Q) : bool := num_lt b a.
Definition num_ge (a b : Q) : bool := num_le b a.
Definition num_eq (a b : Q) : bool := Qeq_bool a b.

Definition calculateGrossIncome (income : IncomeData.t) : Q :=
  let total := 0 in
  (* Wage income *)
  let total := total + reduce_sum WageIncome.wages (IncomeData.wages income) in
  (* Self-employment income *)
  let total := total + reduce_sum SelfEmploymentIncome.netProfit
                         (IncomeData.selfEmployment income) in
  (* Investment income *)
  let total := total + reduce_sum InvestmentIncome.taxableAmount
                         (IncomeData.investment income) in
  (* Retirement income *)
  let total := total + reduce_sum RetirementIncome.taxableAmount
                         (IncomeData.retirement income) in
  (* Other taxable income *)
  let total := total + reduce_sum OtherIncome.amount
                         (List.filter OtherIncome.taxable (IncomeData.other income)) in
  total.

Definition calculateAdjustedGrossIncome (grossIncome : Q) (deductions : DeductionData.t) : Q :=
  let adjustments := reduce_sum IncomeAdjustment.amount (DeductionData.adjustments deductions) in
  Math.max 0 (grossIncome - adjustments).

Definition calculateTaxableIncome (adjustedGrossIncome : Q) (deductions : DeductionData.t)
    (taxLawConfig : TaxLawConfiguration.t) (filingStatus : FilingStatus) : Q :=
  let standardDeduction := TaxLawConfiguration.standardDeductions taxLawConfig filingStatus in
  let itemizedDeductions := DeductionData.totalItemizedDeductions deductions in
  let deductionAmount := Math.max standardDeduction itemizedDeductions in
  Math.max 0 (adjustedGrossIncome - deductionAmount).

(** The [for (const bracket of brackets)] loop of [calculateFederalTax], with
    its two [break]s. *)
Fixpoint calculateFederalTax_for (brackets : list TaxBracket.t) (tax remainingIncome : Q) : Q :=
  match brackets with
  | [] => tax
  | bracket :: brackets' =>
      if num_le remainingIncome 0 then tax
      else
        let taxableAtThisBracket :=
          Math.min remainingIncome (TaxBracket.max bracket - TaxBracket.min bracket) in
        let tax := tax + taxableAtThisBracket * TaxBracket.rate bracket in
        let remainingIncome := remainingIncome - taxableAtThisBracket in
        if num_le remainingIncome 0 then tax
        else calculateFederalTax_for brackets' tax remainingIncome
  end.

Definition calculateFederalTax (taxableIncome : Q) (taxLawConfig : TaxLawConfiguration.t)
    (filingStatus : FilingStatus) : Q :=
  let brackets := TaxLawConfiguration.taxBrackets taxLawConfig filingStatus in
  calculateFederalTax_for brackets 0 taxableIncome.

(** The loop of [calculateMarginalTaxRate]: [Some rate] when it returns from
    inside the loop, [None] when the loop runs to its end. *)
Fixpoint calculateMarginalTaxRate_for (brackets : list TaxBracket.t) (taxableIncome : Q)
    : option Q :=
  match brackets with
  | [] => None
  | bracket :: brackets' =>
      if num_ge taxableIncome (TaxBracket.min bracket)
         && num_lt taxableIncome (TaxBracket.max bracket)
      then Some (TaxBracket.rate bracket)
      else calculateMarginalTaxRate_for brackets' taxableIncome
  end.

(** [None] is the [TypeError] of [brackets[brackets.length - 1].rate] on an
    empty bracket list. *)
Definition calculateMarginalTaxRate (taxableIncome : Q) (taxLawConfig : TaxLawConfiguration.t)
    (filingStatus : FilingStatus) : option Q :=
  let brackets := TaxLawConfiguration.taxBrackets taxLawConfig filingStatus in
  match calculateMarginalTaxRate_for brackets taxableIncome with
  | Some rate => Some rate
  | None =>
      (* If income exceeds all brackets, return the highest rate *)
      match last brackets with
      | Some bracket => Some (TaxBracket.rate bracket)
      | None => None
      end
  end.

Definition calculateChildTaxCredit (baseCredit adjustedGrossIncome : Q)
    (taxLawConfig : TaxLawConfiguration.t) (filingStatus : FilingStatus) : Q :=
  if num_eq baseCredit 0 then 0
  else
    let phaseoutThreshold :=
      TaxLawConfiguration.childTaxCreditPhaseoutThreshold taxLawConfig filingStatus in
    if num_le adjustedGrossIncome phaseoutThreshold then baseCredit
    else
      (* Phase out $50 for every $1,000 over threshold *)
      let excessIncome := adjustedGrossIncome - phaseoutThreshold in
      let phaseoutAmount := Math.ceil (excessIncome / 1000) * 50 in
      Math.max 0 (baseCredit - phaseoutAmount).

Definition calculateTotalCredits (credits : CreditData.t) (adjustedGrossIncome : Q)
    (taxLawConfig : TaxLawConfiguration.t) (filingStatus : FilingStatus) : Q :=
  let totalCredits := 0 in
  let childTaxCredit :=
    calculateChildTaxCredit (CreditData.childTaxCredit credits) adjustedGrossIncome
      taxLawConfig filingStatus in
  let totalCredits := totalCredits + childTaxCredit in
  let totalCredits := totalCredits + CreditData.earnedIncomeCredit credits in
  let totalCredits := totalCredits + CreditData.educationCredits credits in
  let totalCredits := totalCredits + CreditData.retirementSavingsCredit credits in
  let totalCredits := totalCredits + reduce_sum OtherCredit.amount
                                       (CreditData.otherCredits credits) in
  totalCredits.

Definition calculateSelfEmploymentTax (income : IncomeData.t)
    (taxLawConfig : TaxLawConfiguration.t) : Q :=
  let selfEmploymentIncome :=
    reduce_sum SelfEmploymentIncome.netProfit (IncomeData.selfEmployment income) in
  if num_le selfEmploymentIncome 400 then 0
  else
    (* Calculate SE tax on 92.35% of net earnings *)
    let seIncomeForTax := selfEmploymentIncome * 0.9235 in
    (* Social Security tax (up to wage base) *)
    let socialSecurityTax :=
      Math.min seIncomeForTax (TaxLawConfiguration.socialSecurityWageBase taxLawConfig)
      * TaxLawConfiguration.socialSecurityRate taxLawConfig * 2 in
    (* Medicare tax (no limit) *)
    let medicareTax := seIncomeForTax * TaxLawConfiguration.medicareRate taxLawConfig * 2 in
    let additionalMedicareTax := 0 in
    socialSecurityTax + medicareTax + additionalMedicareTax.

Definition calculateTotalWithholding (income : IncomeData.t) : Q :=
  let totalWithholding := 0 in
  let totalWithholding :=
    totalWithholding + reduce_sum WageIncome.federalTaxWithheld (IncomeData.wages income) in
  let totalWithholding :=
    totalWithholding + reduce_sum RetirementIncome.federalTaxWithheld
                         (IncomeData.retirement income) in
  totalWithholding.

Definition roundToTwoDec (value : Q) : Q := Math.round (value * 100) / 100.
Definition roundToFourDec (value : Q) : Q := Math.round (value * 10000) / 10000.

(** The values [calculateTax] computes between fetching the configuration and
    rounding. *)
Definition adjustedGrossIncome_of (taxReturn : TaxReturn.t) : Q :=
  calculateAdjustedGrossIncome (calculateGrossIncome (TaxReturn.income taxReturn))
    (TaxReturn.deductions taxReturn).

Definition taxableIncome_of (taxReturn : TaxReturn.t) (taxLawConfig : TaxLawConfiguration.t) : Q :=
  calculateTaxableIncome (adjustedGrossIncome_of taxReturn) (TaxReturn.deductions taxReturn)
    taxLawConfig (TaxReturn.filingStatus taxReturn).

Definition totalTaxLiability_of (taxReturn : TaxReturn.t) (taxLawConfig : TaxLawConfiguration.t)
    : Q :=
  let federalTaxBeforeCredits :=
    calculateFederalTax (taxableIncome_of taxReturn taxLawConfig) taxLawConfig
      (TaxReturn.filingStatus taxReturn) in
  let totalCredits :=
    calculateTotalCredits (TaxReturn.credits taxReturn) (adjustedGrossIncome_of taxReturn)
      taxLawConfig (TaxReturn.filingStatus taxReturn) in
  let federalTaxAfterCredits := Math.max 0 (federalTaxBeforeCredits - totalCredits) in
  let selfEmploymentTax :=
    calculateSelfEmploymentTax (TaxReturn.income taxReturn) taxLawConfig in
  federalTaxAfterCredits + selfEmploymentTax.

(** The body of the [try] block of [calculateTax] after the configuration was
    found; [None] when a step throws. *)
Definition calculateTax_steps (taxReturn : TaxReturn.t) (taxLawConfig : TaxLawConfiguration.t)
    : option TaxCalculation.t :=
  let grossIncome := calculateGrossIncome (TaxReturn.income taxReturn) in
  let adjustedGrossIncome :=
    calculateAdjustedGrossIncome grossIncome (TaxReturn.deductions taxReturn) in
  let taxableIncome :=
    calculateTaxableIncome adjustedGrossIncome (TaxReturn.deductions taxReturn) taxLawConfig
      (TaxReturn.filingStatus taxReturn) in
  let federalTaxBeforeCredits :=
    calculateFederalTax taxableIncome taxLawConfig (TaxReturn.filingStatus taxReturn) in
  let totalCredits :=
    calculateTotalCredits (TaxReturn.credits taxReturn) adjustedGrossIncome taxLawConfig
      (TaxReturn.filingStatus taxReturn) in
  let federalTaxAfterCredits := Math.max 0 (federalTaxBeforeCredits - totalCredits) in
  let selfEmploymentTax :=
    calculateSelfEmploymentTax (TaxReturn.income taxReturn) taxLawConfig in
  let totalTaxLiability := federalTaxAfterCredits + selfEmploymentTax in
  let totalWithholding := calculateTotalWithholding (TaxReturn.income taxReturn) in
  let estimatedPayments := 0 in
  let '(refundAmount, amountOwed) :=
    if num_gt (totalWithholding + estimatedPayments) totalTaxLiability
    then (totalWithholding + estimatedPayments - totalTaxLiability, 0)
    else (0, totalTaxLiability - totalWithholding - estimatedPayments) in
  let effectiveTaxRate :=
    if num_gt adjustedGrossIncome 0 then totalTaxLiability / adjustedGrossIncome else 0 in
  match calculateMarginalTaxRate taxableIncome taxLawConfig
          (TaxReturn.filingStatus taxReturn) with
  | None => None
  | Some marginalTaxRate =>
      Some {| TaxCalculation.grossIncome := roundToTwoDec grossIncome;
              TaxCalculation.adjustedGrossIncome := roundToTwoDec adjustedGrossIncome;
              TaxCalculation.taxableIncome := roundToTwoDec taxableIncome;
              TaxCalculation.federalTaxBeforeCredits := roundToTwoDec federalTaxBeforeCredits;
              TaxCalculation.totalCredits := roundToTwoDec totalCredits;
              TaxCalculation.federalTaxAfterCredits := roundToTwoDec federalTaxAfterCredits;
              TaxCalculation.selfEmploymentTax := roundToTwoDec selfEmploymentTax;
              TaxCalculation.totalTaxLiability := roundToTwoDec totalTaxLiability;
              TaxCalculation.totalWithholding := roundToTwoDec totalWithholding;
              TaxCalculation.estimatedPayments := roundToTwoDec estimatedPayments;
              TaxCalculation.refundAmount := roundToTwoDec refundAmount;
              TaxCalculation.amountOwed := roundToTwoDec amountOwed;
              TaxCalculation.effectiveTaxRate := roundToFourDec effectiveTaxRate;
              TaxCalculation.marginalTaxRate := roundToFourDec marginalTaxRate |}
  end.

Definition calculateTax (taxReturn : TaxReturn.t) : M (ApiResponse TaxCalculation.t) :=
  const taxLawConfig := await getTaxLawConfiguration (TaxReturn.taxYear taxReturn) ;;
  match taxLawConfig with
  | None =>
      ret (Failure INTERNAL_ERROR
             (TaxLawConfigurationNotFoundForYear (TaxReturn.taxYear taxReturn)))
  | Some taxLawConfig =>
      match calculateTax_steps taxReturn taxLawConfig with
      | Some calculation => ret (Success calculation TaxCalculationCompleted)
      | None => (* catch (error) *)
          ret (Failure INTERNAL_ERROR TaxCalculationFailedInternalError)
      end
  end.

(** [taxLawConfig?.standardDeductions[filingStatus] || 0] *)
Definition calculateStandardDeduction (taxYear : Z) (filingStatus : FilingStatus) : M Q :=
  const taxLawConfig := await getTaxLawConfiguration taxYear ;;
  ret (match taxLawConfig with
       | Some taxLawConfig => TaxLawConfiguration.standardDeductions taxLawConfig filingStatus
       | None => 0
       end).

Module ItemizedVsStandard.
Record t := mk { useItemized : bool; deductionAmount : Q; savings : Q }.
End ItemizedVsStandard.

Definition calculateItemizedVsStandard (taxYear : Z) (filingStatus : FilingStatus)
    (itemizedDeductions : Q) : M ItemizedVsStandard.t :=
  const standardDeduction := await calculateStandardDeduction taxYear filingStatus ;;
  let useItemized := num_gt itemizedDeductions standardDeduction in
  let deductionAmount := if useItemized then itemizedDeductions else standardDeduction in
  let savings := if useItemized then itemizedDeductions - standardDeduction else 0 in
  ret (ItemizedVsStandard.mk useItemized deductionAmount savings).

(** ** DeductionOptimizationService *)

(** [ItemizedDeductionCategory | BusinessDeductionCategory] *)
Inductive RecommendationCategory :=
| Itemized (category : ItemizedDeductionCategory)
| Business (category : BusinessDeductionCategory).

(** The description templates of the advisor with the amounts they print. *)
Inductive Description :=
| You_need_more_in_medical_expenses (neededAmount medicalThreshold : Q)
| Consider_deducting_health_insurance_premiums
| You_can_deduct_more_in_state_and_local_taxes (remainingCapacity : Q)
| You_may_be_able_to_deduct_mortgage_interest
| Consider_charitable_contributions (additionalAmount : Q)
| Home_office_expenses
| Business_use_of_vehicle
| Professional_development
| Student_loan_interest_payments
| Tuition_and_fees
| Traditional_IRA_contribution (iraContributionLimit : Q)
| Health_Savings_Account_contribution.

Module DeductionRecommendation.
Record t := mk {
    category : RecommendationCategory;
    description : Description;
    estimatedAmount : Q;
    confidence : Q;
    requiredDocuments : list string;
    potentialSavings : Q
  }.
End DeductionRecommendation.

Definition calculateTaxSavings (deductionAmount marginalTaxRate : Q) : Q :=
  deductionAmount * marginalTaxRate.

Definition has_category (category : ItemizedDeductionCategory) (d : ItemizedDeduction.t) : bool :=
  ItemizedDeductionCategory_eqb (ItemizedDeduction.category d) category.

Definition analyzeMedicalDeductions (taxReturn : TaxReturn.t) : list DeductionRecommendation.t :=
  let recommendations := [] in
  let adjustedGrossIncome :=
    TaxCalculation.adjustedGrossIncome (TaxReturn.calculations taxReturn) in
  let marginalTaxRate := TaxCalculation.marginalTaxRate (TaxReturn.calculations taxReturn) in
  let medicalThreshold := adjustedGrossIncome * 0.075 in
  let currentMedicalDeductions :=
    reduce_sum ItemizedDeduction.amount
      (List.filter (has_category MEDICAL_DENTAL)
         (DeductionData.itemizedDeductions (TaxReturn.deductions taxReturn))) in
  let recommendations :=
    if num_lt currentMedicalDeductions medicalThreshold
    then
      let neededAmount := medicalThreshold - currentMedicalDeductions + 1 in
      recommendations ++
      [ {| DeductionRecommendation.category := Itemized MEDICAL_DENTAL;
           DeductionRecommendation.description :=
             You_need_more_in_medical_expenses neededAmount medicalThreshold;
           DeductionRecommendation.estimatedAmount := neededAmount;
           DeductionRecommendation.confidence := 0.8;
           DeductionRecommendation.requiredDocuments :=
             ["Medical bills"; "Insurance statements"; "Prescription receipts"]%string;
           DeductionRecommendation.potentialSavings :=
             calculateTaxSavings neededAmount marginalTaxRate |} ]
    else recommendations in
  (* Suggest common overlooked medical deductions *)
  let recommendations :=
    if num_gt adjustedGrossIncome 50000
    then
      recommendations ++
      [ {| DeductionRecommendation.category := Itemized MEDICAL_DENTAL;
           DeductionRecommendation.description :=
             Consider_deducting_health_insurance_premiums;
           DeductionRecommendation.estimatedAmount := 6000;
           DeductionRecommendation.confidence := 0.6;
           DeductionRecommendation.requiredDocuments :=
             ["Health insurance premium statements"]%string;
           DeductionRecommendation.potentialSavings :=
             calculateTaxSavings 6000 marginalTaxRate |} ]
    else recommendations in
  recommendations.

Definition analyzeStateLocalTaxDeductions (taxReturn : TaxReturn.t)
    : list DeductionRecommendation.t :=
  let recommendations := [] in
  let marginalTaxRate := TaxCalculation.marginalTaxRate (TaxReturn.calculations taxReturn) in
  let saltCap := 10000 in
  let currentSALT :=
    reduce_sum ItemizedDeduction.amount
      (List.filter (has_category STATE_LOCAL_TAXES)
         (DeductionData.itemizedDeductions (TaxReturn.deductions taxReturn))) in
  if num_lt currentSALT saltCap
  then
    let remainingCapacity := saltCap - currentSALT in
    recommendations ++
    [ {| DeductionRecommendation.category := Itemized STATE_LOCAL_TAXES;
         DeductionRecommendation.description :=
           You_can_deduct_more_in_state_and_local_taxes remainingCapacity;
         DeductionRecommendation.estimatedAmount := Math.min remainingCapacity 3000;
         DeductionRecommendation.confidence := 0.7;
         DeductionRecommendation.requiredDocuments :=
           ["Property tax statements"; "State tax returns";
            "Vehicle registration fees"]%string;
         DeductionRecommendation.potentialSavings :=
           calculateTaxSavings (Math.min remainingCapacity 3000) marginalTaxRate |} ]
  else recommendations.

Definition analyzeMortgageInterestDeductions (taxReturn : TaxReturn.t)
    : list DeductionRecommendation.t :=
  let recommendations := [] in
  let marginalTaxRate := TaxCalculation.marginalTaxRate (TaxReturn.calculations taxReturn) in
  let hasMortgageInterest :=
    existsb (has_category MORTGAGE_INTEREST)
      (DeductionData.itemizedDeductions (TaxReturn.deductions taxReturn)) in
  if negb hasMortgageInterest
     && num_gt (TaxCalculation.adjustedGrossIncome (TaxReturn.calculations taxReturn)) 40000
  then
    recommendations ++
    [ {| DeductionRecommendation.category := Itemized MORTGAGE_INTEREST;
         DeductionRecommendation.description := You_may_be_able_to_deduct_mortgage_interest;
         DeductionRecommendation.estimatedAmount := 8000;
         DeductionRecommendation.confidence := 0.5;
         DeductionRecommendation.requiredDocuments :=
           ["Form 1098 from mortgage lender"; "Mortgage statements"]%string;
         DeductionRecommendation.potentialSavings :=
           calculateTaxSavings 8000 marginalTaxRate |} ]
  else recommendations.

Definition analyzeCharitableDeductions (taxReturn : TaxReturn.t)
    : list DeductionRecommendation.t :=
  let recommendations := [] in
  let adjustedGrossIncome :=
    TaxCalculation.adjustedGrossIncome (TaxReturn.calculations taxReturn) in
  let marginalTaxRate := TaxCalculation.marginalTaxRate (TaxReturn.calculations taxReturn) in
  let currentCharitable :=
    reduce_sum ItemizedDeduction.amount
      (List.filter (has_category CHARITABLE_CONTRIBUTIONS)
         (DeductionData.itemizedDeductions (TaxReturn.deductions taxReturn))) in
  (* 2% of AGI or $2000, whichever is less *)
  let suggestedCharitableAmount := Math.min (adjustedGrossIncome * 0.02) 2000 in
  if num_lt currentCharitable suggestedCharitableAmount
  then
    let additionalAmount := suggestedCharitableAmount - currentCharitable in
    recommendations ++
    [ {| DeductionRecommendation.category := Itemized CHARITABLE_CONTRIBUTIONS;
         DeductionRecommendation.description :=
           Consider_charitable_contributions additionalAmount;
         DeductionRecommendation.estimatedAmount := additionalAmount;
         DeductionRecommendation.confidence := 0.4;
         DeductionRecommendation.requiredDocuments :=
           ["Donation receipts"; "Acknowledgment letters from charities"]%string;
         DeductionRecommendation.potentialSavings :=
           calculateTaxSavings additionalAmount marginalTaxRate |} ]
  else recommendations.

Definition analyzeBusinessDeductions (taxReturn : TaxReturn.t)
    : list DeductionRecommendation.t :=
  let recommendations := [] in
  let marginalTaxRate := TaxCalculation.marginalTaxRate (TaxReturn.calculations taxReturn) in
  (* Check if they have self-employment income *)
  let hasSelfEmployment :=
    Nat.ltb 0 (length (IncomeData.selfEmployment (TaxReturn.income taxReturn))) in
  if hasSelfEmployment
  then
    let businessRecommendations :=
      [ {| DeductionRecommendation.category := Business OFFICE_EXPENSES;
           DeductionRecommendation.description := Home_office_expenses;
           DeductionRecommendation.estimatedAmount := 1200;
           DeductionRecommendation.confidence := 0.6;
           DeductionRecommendation.requiredDocuments :=
             ["Home office measurements"; "Utility bills";
              "Rent/mortgage statements"]%string;
           DeductionRecommendation.potentialSavings :=
             calculateTaxSavings 1200 marginalTaxRate |};
        {| DeductionRecommendation.category := Business VEHICLE;
           DeductionRecommendation.description := Business_use_of_vehicle;
           DeductionRecommendation.estimatedAmount := 2000;
           DeductionRecommendation.confidence := 0.7;
           DeductionRecommendation.requiredDocuments :=
             ["Mileage log"; "Vehicle expense receipts"]%string;
           DeductionRecommendation.potentialSavings :=
             calculateTaxSavings 2000 marginalTaxRate |};
        {| DeductionRecommendation.category := Business PROFESSIONAL_SERVICES;
           DeductionRecommendation.description := Professional_development;
           DeductionRecommendation.estimatedAmount := 800;
           DeductionRecommendation.confidence := 0.5;
           DeductionRecommendation.requiredDocuments :=
             ["Training receipts"; "Professional membership fees"]%string;
           DeductionRecommendation.potentialSavings :=
             calculateTaxSavings 800 marginalTaxRate |} ] in
    recommendations ++ businessRecommendations
  else recommendations.

Definition analyzeEducationDeductions (taxReturn : TaxReturn.t)
    : list DeductionRecommendation.t :=
  let recommendations := [] in
  let adjustedGrossIncome :=
    TaxCalculation.adjustedGrossIncome (TaxReturn.calculations taxReturn) in
  let marginalTaxRate := TaxCalculation.marginalTaxRate (TaxReturn.calculations taxReturn) in
  (* Student loan interest deduction (up to $2,500) *)
  let recommendations :=
    if num_lt adjustedGrossIncome 85000
    then
      recommendations ++
      [ {| DeductionRecommendation.category := Itemized MISCELLANEOUS;
           DeductionRecommendation.description := Student_loan_interest_payments;
           DeductionRecommendation.estimatedAmount := 1500;
           DeductionRecommendation.confidence := 0.4;
           DeductionRecommendation.requiredDocuments :=
             ["Form 1098-E from loan servicer"]%string;
           DeductionRecommendation.potentialSavings :=
             calculateTaxSavings 1500 marginalTaxRate |} ]
    else recommendations in
  (* Tuition and fees deduction *)
  let recommendations :=
    if num_lt adjustedGrossIncome 80000
    then
      recommendations ++
      [ {| DeductionRecommendation.category := Itemized MISCELLANEOUS;
           DeductionRecommendation.description := Tuition_and_fees;
           DeductionRecommendation.estimatedAmount := 4000;
           DeductionRecommendation.confidence := 0.3;
           DeductionRecommendation.requiredDocuments :=
             ["Form 1098-T from educational institution"; "Tuition receipts"]%string;
           DeductionRecommendation.potentialSavings :=
             calculateTaxSavings 4000 marginalTaxRate |} ]
    else recommendations in
  recommendations.

Definition analyzeRetirementDeductions (taxReturn : TaxReturn.t)
    : list DeductionRecommendation.t :=
  let recommendations := [] in
  let adjustedGrossIncome :=
    TaxCalculation.adjustedGrossIncome (TaxReturn.calculations taxReturn) in
  let marginalTaxRate := TaxCalculation.marginalTaxRate (TaxReturn.calculations taxReturn) in
  (* Traditional IRA contribution *)
  let iraContributionLimit := 6500 in
  let recommendations :=
    recommendations ++
    [ {| DeductionRecommendation.category := Itemized MISCELLANEOUS;
         DeductionRecommendation.description :=
           Traditional_IRA_contribution iraContributionLimit;
         DeductionRecommendation.estimatedAmount := iraContributionLimit;
         DeductionRecommendation.confidence := 0.8;
         DeductionRecommendation.requiredDocuments := ["IRA contribution statements"]%string;
         DeductionRecommendation.potentialSavings :=
           calculateTaxSavings iraContributionLimit marginalTaxRate |} ] in
  (* HSA contribution if eligible *)
  let recommendations :=
    if num_lt adjustedGrossIncome 100000
    then
      recommendations ++
      [ {| DeductionRecommendation.category := Itemized MISCELLANEOUS;
           DeductionRecommendation.description := Health_Savings_Account_contribution;
           DeductionRecommendation.estimatedAmount := 4150;
           DeductionRecommendation.confidence := 0.5;
           DeductionRecommendation.requiredDocuments :=
             ["HSA contribution statements";
              "High-deductible health plan documentation"]%string;
           DeductionRecommendation.potentialSavings :=
             calculateTaxSavings 4150 marginalTaxRate |} ]
    else recommendations in
  recommendations.

(** [Array.prototype.sort(compareFn)] of the language runtime, which is a
    stable sort: an element ends up behind one that followed it only where
    [compareFn] of the two is positive.  Written as an insertion sort. *)
Fixpoint Array_sort_insert {A : Type} (compareFn : A -> A -> Q) (a : A) (sorted : list A)
    : list A :=
  match sorted with
  | [] => [a]
  | b :: sorted' =>
      if num_gt (compareFn a b) 0
      then b :: Array_sort_insert compareFn a sorted'
      else a :: b :: sorted'
  end.

Fixpoint Array_sort {A : Type} (compareFn : A -> A -> Q) (arr : list A) : list A :=
  match arr with
  | [] => []
  | a :: arr' => Array_sort_insert compareFn a (Array_sort compareFn arr')
  end.

(** The recommendations in rule-evaluation order, as [push]ed before the
    final sort of [generateDeductionRecommendations]. *)
Definition pushedRecommendations (taxReturn : TaxReturn.t) : list DeductionRecommendation.t :=
  let recommendations := [] in
  (* Medical and dental deductions *)
  let recommendations := recommendations ++ analyzeMedicalDeductions taxReturn in
  (* State and local tax deductions *)
  let recommendations := recommendations ++ analyzeStateLocalTaxDeductions taxReturn in
  (* Mortgage interest deductions *)
  let recommendations := recommendations ++ analyzeMortgageInterestDeductions taxReturn in
  (* Charitable contribution deductions *)
  let recommendations := recommendations ++ analyzeCharitableDeductions taxReturn in
  (* Business deductions for self-employed *)
  let recommendations := recommendations ++ analyzeBusinessDeductions taxReturn in
  (* Education-related deductions *)
  let recommendations := recommendations ++ analyzeEducationDeductions taxReturn in
  (* Retirement contribution deductions *)
  let recommendations := recommendations ++ analyzeRetirementDeductions taxReturn in
  recommendations.

Definition generateDeductionRecommendations (taxReturn : TaxReturn.t)
    : list DeductionRecommendation.t :=
  (* Sort by potential savings (highest first) *)
  Array_sort
    (fun a b => DeductionRecommendation.potentialSavings b
                - DeductionRecommendation.potentialSavings a)
    (pushedRecommendations taxReturn).

Module StandardVsItemized.
Record t := mk {
    useItemized : bool;
    standardAmount : Q;
    itemizedAmount : Q;
    savings : Q
  }.
End StandardVsItemized.

Module DeductionOptimization.
Record t := mk {
    recommendations : list DeductionRecommendation.t;
    standardVsItemized : StandardVsItemized.t;
    potentialSavings : Q
  }.
End DeductionOptimization.

Definition optimizeDeductions (taxReturn : TaxReturn.t)
    : M (ApiResponse DeductionOptimization.t) :=
  (* Get all deduction recommendations *)
  let recommendations := generateDeductionRecommendations taxReturn in
  (* Calculate standard vs itemized comparison *)
  const standardVsItemized :=
    await calculateItemizedVsStandard (TaxReturn.taxYear taxReturn)
            (TaxReturn.filingStatus taxReturn)
            (DeductionData.totalItemizedDeductions (TaxReturn.deductions taxReturn)) ;;
  (* Calculate total potential savings *)
  let potentialSavings :=
    reduce_sum DeductionRecommendation.potentialSavings recommendations in
  const standardAmount :=
    await calculateStandardDeduction (TaxReturn.taxYear taxReturn)
            (TaxReturn.filingStatus taxReturn) ;;
  ret (Success
         {| DeductionOptimization.recommendations := recommendations;
            DeductionOptimization.standardVsItemized :=
              {| StandardVsItemized.useItemized :=
                   ItemizedVsStandard.useItemized standardVsItemized;
                 StandardVsItemized.standardAmount := standardAmount;
                 StandardVsItemized.itemizedAmount :=
                   DeductionData.totalItemizedDeductions (TaxReturn.deductions taxReturn);
                 StandardVsItemized.savings :=
                   ItemizedVsStandard.savings standardVsItemized |};
            DeductionOptimization.potentialSavings := potentialSavings |}
         DeductionOptimizationCompleted).

(** *** Objects and references

    [analyzeDeductionStrategy] copies its argument with object spread and then
    assigns to the copy.  A tax return is therefore an object in a heap whose
    [deductions] field is a reference to a [DeductionData] object; the other
    parts of a return are never assigned to and are kept as values. *)

Definition ref := positive.

Module TaxReturnObject.
Record t := mk {
    id : string;
    taxYear : Z;
    filingStatus : FilingStatus;
    income : IncomeData.t;
    deductions : ref;
    credits : CreditData.t;
    calculations : TaxCalculation.t
  }.
End TaxReturnObject.

Inductive Object :=
| TaxReturn_object (o : TaxReturnObject.t)
| DeductionData_object (o : DeductionData.t).

(** [{ ...source }]: a new object with the same fields. *)
Definition spread (heap : gmap ref Object) (source : ref) : option (ref * gmap ref Object) :=
  match heap !! source with
  | Some object =>
      let copy := fresh (dom heap) in
      Some (copy, <[copy := object]> heap)
  | None => None
  end.

(** [taxReturn.deductions = deductions] *)
Definition set_deductions (heap : gmap ref Object) (taxReturn deductions : ref)
    : option (gmap ref Object) :=
  match heap !! taxReturn with
  | Some (TaxReturn_object o) =>
      Some (<[taxReturn :=
                TaxReturn_object
                  (TaxReturnObject.mk (TaxReturnObject.id o) (TaxReturnObject.taxYear o)
                     (TaxReturnObject.filingStatus o) (TaxReturnObject.income o)
                     deductions
                     (TaxReturnObject.credits o) (TaxReturnObject.calculations o))]> heap)
  | _ => None
  end.

(** [taxReturn.deductions.totalItemizedDeductions += amount] *)
Definition add_totalItemizedDeductions (heap : gmap ref Object) (taxReturn : ref) (amount : Q)
    : option (gmap ref Object) :=
  match heap !! taxReturn with
  | Some (TaxReturn_object o) =>
      match heap !! TaxReturnObject.deductions o with
      | Some (DeductionData_object d) =>
          Some (<[TaxReturnObject.deductions o :=
                    DeductionData_object
                      (DeductionData.mk (DeductionData.standardDeduction d)
                         (DeductionData.itemizedDeductions d)
                         (DeductionData.totalItemizedDeductions d + amount)
                         (DeductionData.adjustments d))]> heap)
      | _ => None
      end
  | _ => None
  end.

(** The tax return a reference denotes: what the calculator reads through it. *)
Definition read_TaxReturn (heap : gmap ref Object) (taxReturn : ref) : option TaxReturn.t :=
  match heap !! taxReturn with
  | Some (TaxReturn_object o) =>
      match heap !! TaxReturnObject.deductions o with
      | Some (DeductionData_object d) =>
          Some (TaxReturn.mk (TaxReturnObject.id o) (TaxReturnObject.taxYear o)
                  (TaxReturnObject.filingStatus o) (TaxReturnObject.income o) d
                  (TaxReturnObject.credits o) (TaxReturnObject.calculations o))
      | _ => None
      end
  | _ => None
  end.

Module ProposedDeduction.
Record t := mk { category : string; amount : Q }.
End ProposedDeduction.

Inductive Recommendation := itemize | standard.

Module DeductionStrategy.
Record t := mk {
    currentTax : Q;
    newTax : Q;
    savings : Q;
    recommendation : Recommendation
  }.
End DeductionStrategy.

(** [calculation.data?.totalTaxLiability || 0] *)
Definition totalTaxLiability_or_0 (calculation : ApiResponse TaxCalculation.t) : Q :=
  match calculation with
  | Success data _ => TaxCalculation.totalTaxLiability data
  | Failure _ _ => 0
  end.

(** Lines 349-355: the copy of the return that carries the proposed
    deductions. *)
Definition modifiedTaxReturn_of (heap : gmap ref Object) (taxReturn : ref)
    (proposedDeductions : list ProposedDeduction.t) : option (ref * gmap ref Object) :=
  (* const modifiedTaxReturn = { ...taxReturn }; *)
  match spread heap taxReturn with
  | Some (modifiedTaxReturn, heap) =>
      (* modifiedTaxReturn.deductions = { ...taxReturn.deductions }; *)
      match heap !! taxReturn with
      | Some (TaxReturn_object o) =>
          match spread heap (TaxReturnObject.deductions o) with
          | Some (deductions, heap) =>
              match set_deductions heap modifiedTaxReturn deductions with
              | Some heap =>
                  (* Add proposed deductions *)
                  let additionalItemizedAmount :=
                    reduce_sum ProposedDeduction.amount proposedDeductions in
                  match add_totalItemizedDeductions heap modifiedTaxReturn
                          additionalItemizedAmount with
                  | Some heap => Some (modifiedTaxReturn, heap)
                  | None => None
                  end
              | None => None
              end
          | None => None
          end
      | _ => None
      end
  | None => None
  end.

(** [None] only for a reference that denotes no tax return, which a caller
    cannot pass. *)
Definition analyzeDeductionStrategy (taxReturn : ref)
    (proposedDeductions : list ProposedDeduction.t) (heap : gmap ref Object)
    : M (option (DeductionStrategy.t * gmap ref Object)) :=
  match read_TaxReturn heap taxReturn with
  | None => ret None
  | Some taxReturn_value =>
      (* Calculate current tax *)
      const currentCalculation := await calculateTax taxReturn_value ;;
      let currentTax := totalTaxLiability_or_0 currentCalculation in
      (* Create a modified tax return with proposed deductions *)
      match modifiedTaxReturn_of heap taxReturn proposedDeductions with
      | None => ret None
      | Some (modifiedTaxReturn, heap) =>
          match read_TaxReturn heap modifiedTaxReturn with
          | None => ret None
          | Some modifiedTaxReturn_value =>
              (* Recalculate tax *)
              const newCalculation := await calculateTax modifiedTaxReturn_value ;;
              let newTax := totalTaxLiability_or_0 newCalculation in
              let savings := currentTax - newTax in
              (* Determine recommendation *)
              match read_TaxReturn heap taxReturn, read_TaxReturn heap modifiedTaxReturn with
              | Some taxReturn_now, Some modifiedTaxReturn_now =>
                  const standardDeduction :=
                    await calculateStandardDeduction (TaxReturn.taxYear taxReturn_now)
                            (TaxReturn.filingStatus taxReturn_now) ;;
                  let recommendation :=
                    if num_gt (DeductionData.totalItemizedDeductions
                                 (TaxReturn.deductions modifiedTaxReturn_now))
                              standardDeduction
                    then itemize else standard in
                  ret (Some (DeductionStrategy.mk currentTax newTax savings recommendation,
                             heap))
              | _, _ => ret None
              end
          end
      end
  end.

(** ** Example inputs *)

Definition empty_world (up : bool) : World := mkWorld ∅ (mkPool up ∅) [].
Definition seeded_world : World := snd (initializeDefaultConfigurations (empty_world true)).

Definition no_calculation : TaxCalculation.t :=
  TaxCalculation.mk 0 0 0 0 0 0 0 0 0 0 0 0 0 0.

Definition single_filer_wages_60000 : TaxReturn.t :=
  {| TaxReturn.id := "return-1";
     TaxReturn.taxYear := 2024;
     TaxReturn.filingStatus := SINGLE;
     TaxReturn.income :=
       IncomeData.mk [WageIncome.mk 60000 5000] [] [] [] [] 0 0;
     TaxReturn.deductions := DeductionData.mk 0 [] 0 [];
     TaxReturn.credits := CreditData.mk 0 0 0 0 [] 0;
     TaxReturn.calculations := no_calculation |}.

(** ** The configuration invariant of a bracket list *)

(** Brackets are contiguous from [start] and ascending: each begins where the
    previous one ended and ends above its beginning. *)
Fixpoint contiguous_from (start : Q) (brackets : list TaxBracket.t) : Prop :=
  match brackets with
  | [] => True
  | bracket :: brackets' =>
      TaxBracket.min bracket == start
      /\ TaxBracket.min bracket < TaxBracket.max bracket
      /\ contiguous_from (TaxBracket.max bracket) brackets'
  end.

Fixpoint rates_non_decreasing (brackets : list TaxBracket.t) : Prop :=
  match brackets with
  | [] => True
  | bracket :: brackets' =>
      match brackets' with
      | [] => True
      | next :: _ => TaxBracket.rate bracket <= TaxBracket.rate next
      end
      /\ rates_non_decreasing brackets'
  end.

Definition rates_non_negative (brackets : list TaxBracket.t) : Prop :=
  Forall (fun bracket => 0 <= TaxBracket.rate bracket) brackets.

(** The top bracket reaches above [taxableIncome]: for that income it is
    unbounded. *)
Definition top_bracket_above (brackets : list TaxBracket.t) (taxableIncome : Q) : Prop :=
  match last brackets with
  | Some top => taxableIncome < TaxBracket.max top
  | None => False
  end.

Definition bracket_invariant (brackets : list TaxBracket.t) : Prop :=
  contiguous_from 0 brackets /\ rates_non_decreasing brackets.

(** [taxableIncome] lies in [[min, max)] of [bracket]. *)
Definition in_bracket (taxableIncome : Q) (bracket : TaxBracket.t) : Prop :=
  TaxBracket.min bracket <= taxableIncome /\ taxableIncome < TaxBracket.max bracket.

(** A configuration that differs from [taxLawConfig] in the brackets only. *)
Definition with_taxBrackets (taxLawConfig : TaxLawConfiguration.t)
    (brackets : FilingStatus -> list TaxBracket.t) : TaxLawConfiguration.t :=
  TaxLawConfiguration.mk
    (TaxLawConfiguration.taxYear taxLawConfig)
    (TaxLawConfiguration.standardDeductions taxLawConfig)
    brackets
    (TaxLawConfiguration.socialSecurityWageBase taxLawConfig)
    (TaxLawConfiguration.socialSecurityRate taxLawConfig)
    (TaxLawConfiguration.medicareRate taxLawConfig)
    (TaxLawConfiguration.additionalMedicareRate taxLawConfig)
    (TaxLawConfiguration.additionalMedicareThreshold taxLawConfig)
    (TaxLawConfiguration.personalExemption taxLawConfig)
    (TaxLawConfiguration.childTaxCreditAmount taxLawConfig)
    (TaxLawConfiguration.childTaxCreditPhaseoutThreshold taxLawConfig).

(** One bracket from 0 with a negative rate. *)
Definition negative_rate_configuration : TaxLawConfiguration.t :=
  with_taxBrackets getTaxYear2024Configuration
    (fun _ => [TaxBracket.mk 0 999999999 (-0.10)]).

(** A configuration that differs from [taxLawConfig] in the two payroll rates
    only. *)
Definition with_payroll_rates (taxLawConfig : TaxLawConfiguration.t)
    (socialSecurityRate medicareRate : Q) : TaxLawConfiguration.t :=
  TaxLawConfiguration.mk
    (TaxLawConfiguration.taxYear taxLawConfig)
    (TaxLawConfiguration.standardDeductions taxLawConfig)
    (TaxLawConfiguration.taxBrackets taxLawConfig)
    (TaxLawConfiguration.socialSecurityWageBase taxLawConfig)
    socialSecurityRate
    medicareRate
    (TaxLawConfiguration.additionalMedicareRate taxLawConfig)
    (TaxLawConfiguration.additionalMedicareThreshold taxLawConfig)
    (TaxLawConfiguration.personalExemption taxLawConfig)
    (TaxLawConfiguration.childTaxCreditAmount taxLawConfig)
    (TaxLawConfiguration.childTaxCreditPhaseoutThreshold taxLawConfig).

(** Both payroll rates at 0. *)
Definition zero_payroll_rate_configuration : TaxLawConfiguration.t :=
  with_payroll_rates getTaxYear2024Configuration 0 0.

(** An income record whose only entry is a business with the given net
    profit. *)
Definition self_employed (netProfit : Q) : IncomeData.t :=
  IncomeData.mk [] [SelfEmploymentIncome.mk netProfit 0 netProfit] [] [] [] 0 0.

(** A return with one business and no stored calculation. *)
Definition self_employed_return : TaxReturn.t :=
  {| TaxReturn.id := "return-2";
     TaxReturn.taxYear := 2024;
     TaxReturn.filingStatus := SINGLE;
     TaxReturn.income := self_employed 10000;
     TaxReturn.deductions := DeductionData.mk 0 [] 0 [];
     TaxReturn.credits := CreditData.mk 0 0 0 0 [] 0;
     TaxReturn.calculations := no_calculation |}.

(** The order the advisor sorts into: not lower savings first. *)
Definition savings_not_below (a b : DeductionRecommendation.t) : Prop :=
  DeductionRecommendation.potentialSavings b <= DeductionRecommendation.potentialSavings a.

(** The recommendations of [recommendations] whose savings are [savings], in
    their order. *)
Definition with_savings (savings : Q) (recommendations : list DeductionRecommendation.t)
    : list DeductionRecommendation.t :=
  List.filter (fun r => num_eq (DeductionRecommendation.potentialSavings r) savings)
    recommendations.

(** Sum of a list of numbers, from the right. *)
Definition total (amounts : list Q) : Q := fold_right Qplus 0 amounts.

(** A heap that holds [single_filer_wages_60000]: the return at reference 1,
    its deductions at reference 2. *)
Definition single_filer_heap : gmap ref Object :=
  <[1%positive :=
      TaxReturn_object
        (TaxReturnObject.mk "return-1" 2024 SINGLE
           (TaxReturn.income single_filer_wages_60000) 2%positive
           (TaxReturn.credits single_filer_wages_60000) no_calculation)]>
    (<[2%positive :=
         DeductionData_object (TaxReturn.deductions single_filer_wages_60000)]> ∅).

(** ** TaxLawService: the getters that read the cache only *)

(** [config?.standardDeductions[filingStatus] || 0] *)
Definition getStandardDeduction (taxYear : Z) (filingStatus : FilingStatus) (w : World) : Q :=
  match configCache w !! taxYear with
  | Some config => TaxLawConfiguration.standardDeductions config filingStatus
  | None => 0
  end.

(** [config?.taxBrackets[filingStatus] || []] *)
Definition getTaxBrackets (taxYear : Z) (filingStatus : FilingStatus) (w : World)
    : list TaxBracket.t :=
  match configCache w !! taxYear with
  | Some config => TaxLawConfiguration.taxBrackets config filingStatus
  | None => []
  end.

Definition getSocialSecurityWageBase (taxYear : Z) (w : World) : Q :=
  match configCache w !! taxYear with
  | Some config => TaxLawConfiguration.socialSecurityWageBase config
  | None => 0
  end.

Definition getSocialSecurityRate (taxYear : Z) (w : World) : Q :=
  match configCache w !! taxYear with
  | Some config => TaxLawConfiguration.socialSecurityRate config
  | None => 0
  end.

Definition getMedicareRate (taxYear : Z) (w : World) : Q :=
  match configCache w !! taxYear with
  | Some config => TaxLawConfiguration.medicareRate config
  | None => 0
  end.

Definition getChildTaxCreditAmount (taxYear : Z) (w : World) : Q :=
  match configCache w !! taxYear with
  | Some config => TaxLawConfiguration.childTaxCreditAmount config
  | None => 0
  end.

(** A world whose store holds the 2024 configuration while the cache is
    empty. *)
Definition stored_only_world : World :=
  mkWorld ∅ (mkPool true (<[2024%Z := getTaxYear2024Configuration]> ∅)) [].

(** What every recommendation of the advisor satisfies, given the marginal
    rate stored with the return. *)
Definition well_formed_recommendation (marginalTaxRate : Q)
    (r : DeductionRecommendation.t) : Prop :=
  DeductionRecommendation.potentialSavings r
  = DeductionRecommendation.estimatedAmount r * marginalTaxRate
  /\ 0 < DeductionRecommendation.estimatedAmount r
  /\ 0 <= DeductionRecommendation.confidence r
  /\ DeductionRecommendation.confidence r <= 1
  /\ DeductionRecommendation.requiredDocuments r <> [].

(** A return like [single_filer_wages_60000] that stores the calculation
    [calculateTax] makes for it and lists 4000 of state and local taxes. *)
Definition calculated_return : TaxReturn.t :=
  {| TaxReturn.id := "return-3";
     TaxReturn.taxYear := 2024;
     TaxReturn.filingStatus := SINGLE;
     TaxReturn.income := TaxReturn.income single_filer_wages_60000;
     TaxReturn.deductions :=
       DeductionData.mk 0 [ItemizedDeduction.mk STATE_LOCAL_TAXES 4000] 4000 [];
     TaxReturn.credits := TaxReturn.credits single_filer_wages_60000;
     TaxReturn.calculations :=
       TaxCalculation.mk 60000 60000 45400 5295.50 0 5295.50 0 5295.50 5000 0 0 295.50
         0.0883 0.22 |}.

(** The tax return that the copy of [analyzeDeductionStrategy] denotes: the
    given return with the proposed amounts added to its itemized total. *)
Definition with_proposedDeductions (taxReturn : TaxReturn.t)
    (proposedDeductions : list ProposedDeduction.t) : TaxReturn.t :=
  let d := TaxReturn.deductions taxReturn in
  TaxReturn.mk (TaxReturn.id taxReturn) (TaxReturn.taxYear taxReturn)
    (TaxReturn.filingStatus taxReturn) (TaxReturn.income taxReturn)
    (DeductionData.mk (DeductionData.standardDeduction d)
       (DeductionData.itemizedDeductions d)
       (DeductionData.totalItemizedDeductions d
        + reduce_sum ProposedDeduction.amount proposedDeductions)
       (DeductionData.adjustments d))
    (TaxReturn.credits taxReturn) (TaxReturn.calculations taxReturn).

(** The return with one more entry of other income. *)
Definition with_otherIncome (taxReturn : TaxReturn.t) (entry : OtherIncome.t) : TaxReturn.t :=
  let income := TaxReturn.income taxReturn in
  TaxReturn.mk (TaxReturn.id taxReturn) (TaxReturn.taxYear taxReturn)
    (TaxReturn.filingStatus taxReturn)
    (IncomeData.mk (IncomeData.wages income) (IncomeData.selfEmployment income)
       (IncomeData.investment income) (IncomeData.retirement income)
       (IncomeData.other income ++ [entry])
       (IncomeData.totalIncome income) (IncomeData.adjustedGrossIncome income))
    (TaxReturn.deductions taxReturn) (TaxReturn.credits taxReturn)
    (TaxReturn.calculations taxReturn).

(** ** The calculator over binary64

    The definitions above take a [number] for the rational it denotes.  The
    program computes with IEEE 754 binary64 values: every [+], [-], [*] and
    [/] rounds to the nearest double, [x / 0] is [Infinity] or [NaN] and a
    comparison with [NaN] is false.  Where a branch or a returned digit
    depends on that, the calculator and the advisor's gap rules are embedded
    a second time, over the kernel's primitive floats, with the same names
    inside module [Binary64]. *)

Module Binary64.
Import PrimFloat FloatOps SpecFloat.
#[local] Set Warnings "-inexact-float".
Local Open Scope float_scope.

(** [a <= b], [a < b], [a > b], [a >= b] and [a === b] on numbers. *)
Definition num_le (a b : float) : bool := a <=? b.
Definition num_lt (a b : float) : bool := a <? b.
Definition num_gt (a b : float) : bool := b <? a.
Definition num_ge (a b : float) : bool := b <=? a.
Definition num_eq (a b : float) : bool := a =? b.

(** The double of an integer [n] below [2^53] in magnitude; [negative] is the
    sign given to a zero. *)
Definition of_Z (negative : bool) (n : Z) : float :=
  SF2Prim (binary_normalize prec emax n 0 negative).

Module Math.
(** [Math.max(a, b)]: [NaN] when an argument is [NaN]; [+0] is above [-0]. *)
Definition max (a b : float) : float :=
  if is_nan a || is_nan b then nan
  else if a <? b then b
  else if is_zero a && is_zero b && get_sign a then b
  else a.
(** [Math.min(a, b)]: [NaN] when an argument is [NaN]; [-0] is below [+0]. *)
Definition min (a b : float) : float :=
  if is_nan a || is_nan b then nan
  else if b <? a then b
  else if is_zero a && is_zero b && get_sign b then b
  else a.
(** [Math.ceil(x)]: the least integral double not below [x]; [NaN], the
    infinities and the zeros are returned as they are, and a result of zero
    keeps the sign of [x].  A finite [x] is [±m * 2^e]. *)
Definition ceil (x : float) : float :=
  match Prim2SF x with
  | S754_finite negative m e =>
      if (0 <=? e)%Z then x
      else
        let n := if negative then Z.neg m else Z.pos m in
        of_Z negative (- ((- n) / 2 ^ (- e)))%Z
  | _ => x
  end.
(** [Math.round(x)]: the integral double nearest to [x], a half going up,
    that is [floor(x + 1/2)] taken exactly; a result of zero keeps the sign
    of [x]. *)
Definition round (x : float) : float :=
  match Prim2SF x with
  | S754_finite negative m e =>
      if (0 <=? e)%Z then x
      else
        let n := if negative then Z.neg m else Z.pos m in
        of_Z negative ((2 * n + 2 ^ (- e)) / 2 ^ (1 - e))%Z
  | _ => x
  end.
End Math.

(** [arr.reduce((sum, x) => sum + f(x), 0)] *)
Definition reduce_sum {A : Type} (f : A -> float) (arr : list A) : float :=
  fold_left (fun sum x => sum + f x) arr 0.

Module TaxBracket.
Record t := mk { min : float; max : float; rate : float }.
End TaxBracket.

Module TaxLawConfiguration.
Record t := mk {
    taxYear : Z;
    standardDeductions : FilingStatus -> float;
    taxBrackets : FilingStatus -> list TaxBracket.t;
    socialSecurityWageBase : float;
    socialSecurityRate : float;
    medicareRate : float;
    additionalMedicareRate : float;
    additionalMedicareThreshold : FilingStatus -> float;
    personalExemption : float;
    childTaxCreditAmount : float;
    childTaxCreditPhaseoutThreshold : FilingStatus -> float
  }.
End TaxLawConfiguration.

Module WageIncome.
Record t := mk { wages : float; federalTaxWithheld : float }.
End WageIncome.

Module SelfEmploymentIncome.
Record t := mk { grossReceipts : float; businessExpenses : float; netProfit : float }.
End SelfEmploymentIncome.

Module InvestmentIncome.
Record t := mk { amount : float; taxableAmount : float }.
End InvestmentIncome.

Module RetirementIncome.
Record t := mk { grossDistribution : float; taxableAmount : float; federalTaxWithheld : float }.
End RetirementIncome.

Module OtherIncome.
Record t := mk { amount : float; taxable : bool }.
End OtherIncome.

Module IncomeData.
Record t := mk {
    wages : list WageIncome.t;
    selfEmployment : list SelfEmploymentIncome.t;
    investment : list InvestmentIncome.t;
    retirement : list RetirementIncome.t;
    other : list OtherIncome.t
  }.
End IncomeData.

Module IncomeAdjustment.
Record t := mk { amount : float }.
End IncomeAdjustment.

Module ItemizedDeduction.
Record t := mk { category : ItemizedDeductionCategory; amount : float }.
End ItemizedDeduction.

Module DeductionData.
Record t := mk {
    itemizedDeductions : list ItemizedDeduction.t;
    totalItemizedDeductions : float;
    adjustments : list IncomeAdjustment.t
  }.
End DeductionData.

Module OtherCredit.
Record t := mk { amount : float }.
End OtherCredit.

Module CreditData.
Record t := mk {
    childTaxCredit : float;
    earnedIncomeCredit : float;
    educationCredits : float;
    retirementSavingsCredit : float;
    otherCredits : list OtherCredit.t
  }.
End CreditData.

Module TaxCalculation.
Record t := mk {
    grossIncome : float;
    adjustedGrossIncome : float;
    taxableIncome : float;
    federalTaxBeforeCredits : float;
    totalCredits : float;
    federalTaxAfterCredits : float;
    selfEmploymentTax : float;
    totalTaxLiability : float;
    totalWithholding : float;
    estimatedPayments : float;
    refundAmount : float;
    amountOwed : float;
    effectiveTaxRate : float;
    marginalTaxRate : float
  }.
End TaxCalculation.

Module TaxReturn.
Record t := mk {
    taxYear : Z;
    filingStatus : FilingStatus;
    income : IncomeData.t;
    deductions : DeductionData.t;
    credits : CreditData.t;
    calculations : TaxCalculation.t
  }.
End TaxReturn.

Definition calculateGrossIncome (income : IncomeData.t) : float :=
  let total := 0 in
  (* Wage income *)
  let total := total + reduce_sum WageIncome.wages (IncomeData.wages income) in
  (* Self-employment income *)
  let total := total + reduce_sum SelfEmploymentIncome.netProfit
                         (IncomeData.selfEmployment income) in
  (* Investment income *)
  let total := total + reduce_sum InvestmentIncome.taxableAmount
                         (IncomeData.investment income) in
  (* Retirement income *)
  let total := total + reduce_sum RetirementIncome.taxableAmount
                         (IncomeData.retirement income) in
  (* Other taxable income *)
  let total := total + reduce_sum OtherIncome.amount
                         (List.filter OtherIncome.taxable (IncomeData.other income)) in
  total.

Definition calculateAdjustedGrossIncome (grossIncome : float) (deductions : DeductionData.t)
    : float :=
  let adjustments := reduce_sum IncomeAdjustment.amount (DeductionData.adjustments deductions) in
  Math.max 0 (grossIncome - adjustments).

Definition calculateTaxableIncome (adjustedGrossIncome : float) (deductions : DeductionData.t)
    (taxLawConfig : TaxLawConfiguration.t) (filingStatus : FilingStatus) : float :=
  let standardDeduction := TaxLawConfiguration.standardDeductions taxLawConfig filingStatus in
  let itemizedDeductions := DeductionData.totalItemizedDeductions deductions in
  let deductionAmount := Math.max standardDeduction itemizedDeductions in
  Math.max 0 (adjustedGrossIncome - deductionAmount).

Fixpoint calculateFederalTax_for (brackets : list TaxBracket.t) (tax remainingIncome : float)
    : float :=
  match brackets with
  | [] => tax
  | bracket :: brackets' =>
      if num_le remainingIncome 0 then tax
      else
        let taxableAtThisBracket :=
          Math.min remainingIncome (TaxBracket.max bracket - TaxBracket.min bracket) in
        let tax := tax + taxableAtThisBracket * TaxBracket.rate bracket in
        let remainingIncome := remainingIncome - taxableAtThisBracket in
        if num_le remainingIncome 0 then tax
        else calculateFederalTax_for brackets' tax remainingIncome
  end.

Definition calculateFederalTax (taxableIncome : float) (taxLawConfig : TaxLawConfiguration.t)
    (filingStatus : FilingStatus) : float :=
  let brackets := TaxLawConfiguration.taxBrackets taxLawConfig filingStatus in
  calculateFederalTax_for brackets 0 taxableIncome.

Fixpoint calculateMarginalTaxRate_for (brackets : list TaxBracket.t) (taxableIncome : float)
    : option float :=
  match brackets with
  | [] => None
  | bracket :: brackets' =>
      if num_ge taxableIncome (TaxBracket.min bracket)
         && num_lt taxableIncome (TaxBracket.max bracket)
      then Some (TaxBracket.rate bracket)
      else calculateMarginalTaxRate_for brackets' taxableIncome
  end.

(** [None] is the [TypeError] of [brackets[brackets.length - 1].rate] on an
    empty bracket list. *)
Definition calculateMarginalTaxRate (taxableIncome : float)
    (taxLawConfig : TaxLawConfiguration.t) (filingStatus : FilingStatus) : option float :=
  let brackets := TaxLawConfiguration.taxBrackets taxLawConfig filingStatus in
  match calculateMarginalTaxRate_for brackets taxableIncome with
  | Some rate => Some rate
  | None =>
      (* If income exceeds all brackets, return the highest rate *)
      match last brackets with
      | Some bracket => Some (TaxBracket.rate bracket)
      | None => None
      end
  end.

Definition calculateChildTaxCredit (baseCredit adjustedGrossIncome : float)
    (taxLawConfig : TaxLawConfiguration.t) (filingStatus : FilingStatus) : float :=
  if num_eq baseCredit 0 then 0
  else
    let phaseoutThreshold :=
      TaxLawConfiguration.childTaxCreditPhaseoutThreshold taxLawConfig filingStatus in
    if num_le adjustedGrossIncome phaseoutThreshold then baseCredit
    else
      (* Phase out $50 for every $1,000 over threshold *)
      let excessIncome := adjustedGrossIncome - phaseoutThreshold in
      let phaseoutAmount := Math.ceil (excessIncome / 1000) * 50 in
      Math.max 0 (baseCredit - phaseoutAmount).

Definition calculateTotalCredits (credits : CreditData.t) (adjustedGrossIncome : float)
    (taxLawConfig : TaxLawConfiguration.t) (filingStatus : FilingStatus) : float :=
  let totalCredits := 0 in
  let childTaxCredit :=
    calculateChildTaxCredit (CreditData.childTaxCredit credits) adjustedGrossIncome
      taxLawConfig filingStatus in
  let totalCredits := totalCredits + childTaxCredit in
  let totalCredits := totalCredits + CreditData.earnedIncomeCredit credits in
  let totalCredits := totalCredits + CreditData.educationCredits credits in
  let totalCredits := totalCredits + CreditData.retirementSavingsCredit credits in
  let totalCredits := totalCredits + reduce_sum OtherCredit.amount
                                       (CreditData.otherCredits credits) in
  totalCredits.

Definition calculateSelfEmploymentTax (income : IncomeData.t)
    (taxLawConfig : TaxLawConfiguration.t) : float :=
  let selfEmploymentIncome :=
    reduce_sum SelfEmploymentIncome.netProfit (IncomeData.selfEmployment income) in
  if num_le selfEmploymentIncome 400 then 0
  else
    (* Calculate SE tax on 92.35% of net earnings *)
    let seIncomeForTax := selfEmploymentIncome * 0.9235 in
    (* Social Security tax (up to wage base) *)
    let socialSecurityTax :=
      Math.min seIncomeForTax (TaxLawConfiguration.socialSecurityWageBase taxLawConfig)
      * TaxLawConfiguration.socialSecurityRate taxLawConfig * 2 in
    (* Medicare tax (no limit) *)
    let medicareTax := seIncomeForTax * TaxLawConfiguration.medicareRate taxLawConfig * 2 in
    let additionalMedicareTax := 0 in
    socialSecurityTax + medicareTax + additionalMedicareTax.

Definition calculateTotalWithholding (income : IncomeData.t) : float :=
  let totalWithholding := 0 in
  let totalWithholding :=
    totalWithholding + reduce_sum WageIncome.federalTaxWithheld (IncomeData.wages income) in
  let totalWithholding :=
    totalWithholding + reduce_sum RetirementIncome.federalTaxWithheld
                         (IncomeData.retirement income) in
  totalWithholding.

Definition roundToTwoDec (value : float) : float := Math.round (value * 100) / 100.
Definition roundToFourDec (value : float) : float := Math.round (value * 10000) / 10000.

Definition adjustedGrossIncome_of (taxReturn : TaxReturn.t) : float :=
  calculateAdjustedGrossIncome (calculateGrossIncome (TaxReturn.income taxReturn))
    (TaxReturn.deductions taxReturn).

Definition taxableIncome_of (taxReturn : TaxReturn.t) (taxLawConfig : TaxLawConfiguration.t)
    : float :=
  calculateTaxableIncome (adjustedGrossIncome_of taxReturn) (TaxReturn.deductions taxReturn)
    taxLawConfig (TaxReturn.filingStatus taxReturn).

Definition totalTaxLiability_of (taxReturn : TaxReturn.t)
    (taxLawConfig : TaxLawConfiguration.t) : float :=
  let federalTaxBeforeCredits :=
    calculateFederalTax (taxableIncome_of taxReturn taxLawConfig) taxLawConfig
      (TaxReturn.filingStatus taxReturn) in
  let totalCredits :=
    calculateTotalCredits (TaxReturn.credits taxReturn) (adjustedGrossIncome_of taxReturn)
      taxLawConfig (TaxReturn.filingStatus taxReturn) in
  let federalTaxAfterCredits := Math.max 0 (federalTaxBeforeCredits - totalCredits) in
  let selfEmploymentTax :=
    calculateSelfEmploymentTax (TaxReturn.income taxReturn) taxLawConfig in
  federalTaxAfterCredits + selfEmploymentTax.

(** The body of the [try] block of [calculateTax] after the configuration was
    found; [None] when a step throws. *)
Definition calculateTax_steps (taxReturn : TaxReturn.t) (taxLawConfig : TaxLawConfiguration.t)
    : option TaxCalculation.t :=
  let grossIncome := calculateGrossIncome (TaxReturn.income taxReturn) in
  let adjustedGrossIncome :=
    calculateAdjustedGrossIncome grossIncome (TaxReturn.deductions taxReturn) in
  let taxableIncome :=
    calculateTaxableIncome adjustedGrossIncome (TaxReturn.deductions taxReturn) taxLawConfig
      (TaxReturn.filingStatus taxReturn) in
  let federalTaxBeforeCredits :=
    calculateFederalTax taxableIncome taxLawConfig (TaxReturn.filingStatus taxReturn) in
  let totalCredits :=
    calculateTotalCredits (TaxReturn.credits taxReturn) adjustedGrossIncome taxLawConfig
      (TaxReturn.filingStatus taxReturn) in
  let federalTaxAfterCredits := Math.max 0 (federalTaxBeforeCredits - totalCredits) in
  let selfEmploymentTax :=
    calculateSelfEmploymentTax (TaxReturn.income taxReturn) taxLawConfig in
  let totalTaxLiability := federalTaxAfterCredits + selfEmploymentTax in
  let totalWithholding := calculateTotalWithholding (TaxReturn.income taxReturn) in
  let estimatedPayments := 0 in
  let '(refundAmount, amountOwed) :=
    if num_gt (totalWithholding + estimatedPayments) totalTaxLiability
    then (totalWithholding + estimatedPayments - totalTaxLiability, 0)
    else (0, totalTaxLiability - totalWithholding - estimatedPayments) in
  let effectiveTaxRate :=
    if num_gt adjustedGrossIncome 0 then totalTaxLiability / adjustedGrossIncome else 0 in
  match calculateMarginalTaxRate taxableIncome taxLawConfig
          (TaxReturn.filingStatus taxReturn) with
  | None => None
  | Some marginalTaxRate =>
      Some {| TaxCalculation.grossIncome := roundToTwoDec grossIncome;
              TaxCalculation.adjustedGrossIncome := roundToTwoDec adjustedGrossIncome;
              TaxCalculation.taxableIncome := roundToTwoDec taxableIncome;
              TaxCalculation.federalTaxBeforeCredits := roundToTwoDec federalTaxBeforeCredits;
              TaxCalculation.totalCredits := roundToTwoDec totalCredits;
              TaxCalculation.federalTaxAfterCredits := roundToTwoDec federalTaxAfterCredits;
              TaxCalculation.selfEmploymentTax := roundToTwoDec selfEmploymentTax;
              TaxCalculation.totalTaxLiability := roundToTwoDec totalTaxLiability;
              TaxCalculation.totalWithholding := roundToTwoDec totalWithholding;
              TaxCalculation.estimatedPayments := roundToTwoDec estimatedPayments;
              TaxCalculation.refundAmount := roundToTwoDec refundAmount;
              TaxCalculation.amountOwed := roundToTwoDec amountOwed;
              TaxCalculation.effectiveTaxRate := roundToFourDec effectiveTaxRate;
              TaxCalculation.marginalTaxRate := roundToFourDec marginalTaxRate |}
  end.

(** [calculateTax] once the lookup of the registry has returned
    [taxLawConfig] ([None] for [null]). *)
Definition calculateTax (taxReturn : TaxReturn.t) (taxLawConfig : option TaxLawConfiguration.t)
    : ApiResponse TaxCalculation.t :=
  match taxLawConfig with
  | None =>
      Failure INTERNAL_ERROR
        (TaxLawConfigurationNotFoundForYear (TaxReturn.taxYear taxReturn))
  | Some taxLawConfig =>
      match calculateTax_steps taxReturn taxLawConfig with
      | Some calculation => Success calculation TaxCalculationCompleted
      | None => (* catch (error) *)
          Failure INTERNAL_ERROR TaxCalculationFailedInternalError
      end
  end.

Definition getTaxYear2024Configuration : TaxLawConfiguration.t :=
  {| TaxLawConfiguration.taxYear := 2024;
     TaxLawConfiguration.standardDeductions := fun filingStatus =>
       match filingStatus with
       | SINGLE => 14600
       | MARRIED_FILING_JOINTLY => 29200
       | MARRIED_FILING_SEPARATELY => 14600
       | HEAD_OF_HOUSEHOLD => 21900
       | QUALIFYING_WIDOW => 29200
       end;
     TaxLawConfiguration.taxBrackets := fun filingStatus =>
       match filingStatus with
       | SINGLE =>
           [ TaxBracket.mk 0 11000 0.10;
             TaxBracket.mk 11000 44725 0.12;
             TaxBracket.mk 44725 95375 0.22;
             TaxBracket.mk 95375 197050 0.24;
             TaxBracket.mk 197050 250525 0.32;
             TaxBracket.mk 250525 626350 0.35;
             TaxBracket.mk 626350 999999999 0.37 ]
       | MARRIED_FILING_JOINTLY =>
           [ TaxBracket.mk 0 22000 0.10;
             TaxBracket.mk 22000 89450 0.12;
             TaxBracket.mk 89450 190750 0.22;
             TaxBracket.mk 190750 364200 0.24;
             TaxBracket.mk 364200 462500 0.32;
             TaxBracket.mk 462500 693750 0.35;
             TaxBracket.mk 693750 999999999 0.37 ]
       | MARRIED_FILING_SEPARATELY =>
           [ TaxBracket.mk 0 11000 0.10;
             TaxBracket.mk 11000 44725 0.12;
             TaxBracket.mk 44725 95375 0.22;
             TaxBracket.mk 95375 182050 0.24;
             TaxBracket.mk 182050 231250 0.32;
             TaxBracket.mk 231250 346875 0.35;
             TaxBracket.mk 346875 999999999 0.37 ]
       | HEAD_OF_HOUSEHOLD =>
           [ TaxBracket.mk 0 15700 0.10;
             TaxBracket.mk 15700 59850 0.12;
             TaxBracket.mk 59850 95350 0.22;
             TaxBracket.mk 95350 182050 0.24;
             TaxBracket.mk 182050 231250 0.32;
             TaxBracket.mk 231250 609350 0.35;
             TaxBracket.mk 609350 999999999 0.37 ]
       | QUALIFYING_WIDOW =>
           [ TaxBracket.mk 0 22000 0.10;
             TaxBracket.mk 22000 89450 0.12;
             TaxBracket.mk 89450 190750 0.22;
             TaxBracket.mk 190750 364200 0.24;
             TaxBracket.mk 364200 462500 0.32;
             TaxBracket.mk 462500 693750 0.35;
             TaxBracket.mk 693750 999999999 0.37 ]
       end;
     TaxLawConfiguration.socialSecurityWageBase := 168600;
     TaxLawConfiguration.socialSecurityRate := 0.062;
     TaxLawConfiguration.medicareRate := 0.0145;
     TaxLawConfiguration.additionalMedicareRate := 0.009;
     TaxLawConfiguration.additionalMedicareThreshold := fun filingStatus =>
       match filingStatus with
       | SINGLE => 200000
       | MARRIED_FILING_JOINTLY => 250000
       | MARRIED_FILING_SEPARATELY => 125000
       | HEAD_OF_HOUSEHOLD => 200000
       | QUALIFYING_WIDOW => 250000
       end;
     TaxLawConfiguration.personalExemption := 0;
     TaxLawConfiguration.childTaxCreditAmount := 2000;
     TaxLawConfiguration.childTaxCreditPhaseoutThreshold := fun filingStatus =>
       match filingStatus with
       | SINGLE => 200000
       | MARRIED_FILING_JOINTLY => 400000
       | MARRIED_FILING_SEPARATELY => 200000
       | HEAD_OF_HOUSEHOLD => 200000
       | QUALIFYING_WIDOW => 400000
       end |}.

Definition getTaxYear2023Configuration : TaxLawConfiguration.t :=
  {| TaxLawConfiguration.taxYear := 2023;
     TaxLawConfiguration.standardDeductions := fun filingStatus =>
       match filingStatus with
       | SINGLE => 13850
       | MARRIED_FILING_JOINTLY => 27700
       | MARRIED_FILING_SEPARATELY => 13850
       | HEAD_OF_HOUSEHOLD => 20800
       | QUALIFYING_WIDOW => 27700
       end;
     TaxLawConfiguration.taxBrackets := fun filingStatus =>
       match filingStatus with
       | SINGLE =>
           [ TaxBracket.mk 0 11000 0.10;
             TaxBracket.mk 11000 44725 0.12;
             TaxBracket.mk 44725 95375 0.22;
             TaxBracket.mk 95375 182050 0.24;
             TaxBracket.mk 182050 231250 0.32;
             TaxBracket.mk 231250 578125 0.35;
             TaxBracket.mk 578125 999999999 0.37 ]
       | MARRIED_FILING_JOINTLY =>
           [ TaxBracket.mk 0 22000 0.10;
             TaxBracket.mk 22000 89450 0.12;
             TaxBracket.mk 89450 190750 0.22;
             TaxBracket.mk 190750 364200 0.24;
             TaxBracket.mk 364200 462500 0.32;
             TaxBracket.mk 462500 693750 0.35;
             TaxBracket.mk 693750 999999999 0.37 ]
       | MARRIED_FILING_SEPARATELY =>
           [ TaxBracket.mk 0 11000 0.10;
             TaxBracket.mk 11000 44725 0.12;
             TaxBracket.mk 44725 95375 0.22;
             TaxBracket.mk 95375 182100 0.24;
             TaxBracket.mk 182100 231250 0.32;
             TaxBracket.mk 231250 346875 0.35;
             TaxBracket.mk 346875 999999999 0.37 ]
       | HEAD_OF_HOUSEHOLD =>
           [ TaxBracket.mk 0 15700 0.10;
             TaxBracket.mk 15700 59850 0.12;
             TaxBracket.mk 59850 95350 0.22;
             TaxBracket.mk 95350 182050 0.24;
             TaxBracket.mk 182050 231250 0.32;
             TaxBracket.mk 231250 578100 0.35;
             TaxBracket.mk 578100 999999999 0.37 ]
       | QUALIFYING_WIDOW =>
           [ TaxBracket.mk 0 22000 0.10;
             TaxBracket.mk 22000 89450 0.12;
             TaxBracket.mk 89450 190750 0.22;
             TaxBracket.mk 190750 364200 0.24;
             TaxBracket.mk 364200 462500 0.32;
             TaxBracket.mk 462500 693750 0.35;
             TaxBracket.mk 693750 999999999 0.37 ]
       end;
     TaxLawConfiguration.socialSecurityWageBase := 160200;
     TaxLawConfiguration.socialSecurityRate := 0.062;
     TaxLawConfiguration.medicareRate := 0.0145;
     TaxLawConfiguration.additionalMedicareRate := 0.009;
     TaxLawConfiguration.additionalMedicareThreshold := fun filingStatus =>
       match filingStatus with
       | SINGLE => 200000
       | MARRIED_FILING_JOINTLY => 250000
       | MARRIED_FILING_SEPARATELY => 125000
       | HEAD_OF_HOUSEHOLD => 200000
       | QUALIFYING_WIDOW => 250000
       end;
     TaxLawConfiguration.personalExemption := 0;
     TaxLawConfiguration.childTaxCreditAmount := 2000;
     TaxLawConfiguration.childTaxCreditPhaseoutThreshold := fun filingStatus =>
       match filingStatus with
       | SINGLE => 200000
       | MARRIED_FILING_JOINTLY => 400000
       | MARRIED_FILING_SEPARATELY => 200000
       | HEAD_OF_HOUSEHOLD => 200000
       | QUALIFYING_WIDOW => 400000
       end |}.


(** A configuration that differs from [taxLawConfig] in the two payroll rates
    only. *)
Definition with_payroll_rates (taxLawConfig : TaxLawConfiguration.t)
    (socialSecurityRate medicareRate : float) : TaxLawConfiguration.t :=
  TaxLawConfiguration.mk
    (TaxLawConfiguration.taxYear taxLawConfig)
    (TaxLawConfiguration.standardDeductions taxLawConfig)
    (TaxLawConfiguration.taxBrackets taxLawConfig)
    (TaxLawConfiguration.socialSecurityWageBase taxLawConfig)
    socialSecurityRate
    medicareRate
    (TaxLawConfiguration.additionalMedicareRate taxLawConfig)
    (TaxLawConfiguration.additionalMedicareThreshold taxLawConfig)
    (TaxLawConfiguration.personalExemption taxLawConfig)
    (TaxLawConfiguration.childTaxCreditAmount taxLawConfig)
    (TaxLawConfiguration.childTaxCreditPhaseoutThreshold taxLawConfig).

(** Both payroll rates at 0. *)
Definition zero_payroll_rate_configuration : TaxLawConfiguration.t :=
  with_payroll_rates getTaxYear2024Configuration 0 0.

(** An income record of businesses with the given net profits and nothing
    else. *)
Definition self_employed (netProfits : list float) : IncomeData.t :=
  IncomeData.mk []
    (map (fun netProfit => SelfEmploymentIncome.mk netProfit 0 netProfit) netProfits)
    [] [] [].

Definition no_calculation : TaxCalculation.t :=
  TaxCalculation.mk 0 0 0 0 0 0 0 0 0 0 0 0 0 0.

(** A single filer of 2024 with the given income and other credits, no
    deductions of their own and no stored calculation. *)
Definition single_filer_2024 (income : IncomeData.t) (otherCredits : list float)
    : TaxReturn.t :=
  {| TaxReturn.taxYear := 2024;
     TaxReturn.filingStatus := SINGLE;
     TaxReturn.income := income;
     TaxReturn.deductions := DeductionData.mk [] 0 [];
     TaxReturn.credits := CreditData.mk 0 0 0 0 (map OtherCredit.mk otherCredits);
     TaxReturn.calculations := no_calculation |}.

(** One employer paying [wages] and withholding [federalTaxWithheld]. *)
Definition employed (wages federalTaxWithheld : float) : IncomeData.t :=
  IncomeData.mk [WageIncome.mk wages federalTaxWithheld] [] [] [] [].

Definition single_filer_wages_60000 : TaxReturn.t :=
  single_filer_2024 (employed 60000 5000) [].

(** No income at all. *)
Definition no_income : IncomeData.t := IncomeData.mk [] [] [] [] [].

(** Net profits of 139.00, 212.23, 17.35 and 31.42, which total 400.00. *)
Definition four_net_profits : list float := [139; 212.23; 17.35; 31.42].

(** *** The gap rules of the advisor

    The three rules of [DeductionOptimizationService] that compare a sum of
    itemized deductions with a threshold. *)

(** The description templates of these rules with the amounts they print. *)
Inductive Description :=
| You_need_more_in_medical_expenses (neededAmount medicalThreshold : float)
| Consider_deducting_health_insurance_premiums
| You_can_deduct_more_in_state_and_local_taxes (remainingCapacity : float)
| Consider_charitable_contributions (additionalAmount : float).

Module DeductionRecommendation.
Record t := mk {
    category : RecommendationCategory;
    description : Description;
    estimatedAmount : float;
    confidence : float;
    requiredDocuments : list string;
    potentialSavings : float
  }.
End DeductionRecommendation.

Definition calculateTaxSavings (deductionAmount marginalTaxRate : float) : float :=
  deductionAmount * marginalTaxRate.

Definition has_category (category : ItemizedDeductionCategory) (d : ItemizedDeduction.t)
    : bool :=
  ItemizedDeductionCategory_eqb (ItemizedDeduction.category d) category.

Definition analyzeMedicalDeductions (taxReturn : TaxReturn.t) : list DeductionRecommendation.t :=
  let recommendations := [] in
  let adjustedGrossIncome :=
    TaxCalculation.adjustedGrossIncome (TaxReturn.calculations taxReturn) in
  let marginalTaxRate := TaxCalculation.marginalTaxRate (TaxReturn.calculations taxReturn) in
  let medicalThreshold := adjustedGrossIncome * 0.075 in
  let currentMedicalDeductions :=
    reduce_sum ItemizedDeduction.amount
      (List.filter (has_category MEDICAL_DENTAL)
         (DeductionData.itemizedDeductions (TaxReturn.deductions taxReturn))) in
  let recommendations :=
    if num_lt currentMedicalDeductions medicalThreshold
    then
      let neededAmount := medicalThreshold - currentMedicalDeductions + 1 in
      recommendations ++
      [ {| DeductionRecommendation.category := Itemized MEDICAL_DENTAL;
           DeductionRecommendation.description :=
             You_need_more_in_medical_expenses neededAmount medicalThreshold;
           DeductionRecommendation.estimatedAmount := neededAmount;
           DeductionRecommendation.confidence := 0.8;
           DeductionRecommendation.requiredDocuments :=
             ["Medical bills"; "Insurance statements"; "Prescription receipts"]%string;
           DeductionRecommendation.potentialSavings :=
             calculateTaxSavings neededAmount marginalTaxRate |} ]
    else recommendations in
  (* Suggest common overlooked medical deductions *)
  let recommendations :=
    if num_gt adjustedGrossIncome 50000
    then
      recommendations ++
      [ {| DeductionRecommendation.category := Itemized MEDICAL_DENTAL;
           DeductionRecommendation.description :=
             Consider_deducting_health_insurance_premiums;
           DeductionRecommendation.estimatedAmount := 6000;
           DeductionRecommendation.confidence := 0.6;
           DeductionRecommendation.requiredDocuments :=
             ["Health insurance premium statements"]%string;
           DeductionRecommendation.potentialSavings :=
             calculateTaxSavings 6000 marginalTaxRate |} ]
    else recommendations in
  recommendations.

Definition analyzeStateLocalTaxDeductions (taxReturn : TaxReturn.t)
    : list DeductionRecommendation.t :=
  let recommendations := [] in
  let marginalTaxRate := TaxCalculation.marginalTaxRate (TaxReturn.calculations taxReturn) in
  let saltCap := 10000 in
  let currentSALT :=
    reduce_sum ItemizedDeduction.amount
      (List.filter (has_category STATE_LOCAL_TAXES)
         (DeductionData.itemizedDeductions (TaxReturn.deductions taxReturn))) in
  if num_lt currentSALT saltCap
  then
    let remainingCapacity := saltCap - currentSALT in
    recommendations ++
    [ {| DeductionRecommendation.category := Itemized STATE_LOCAL_TAXES;
         DeductionRecommendation.description :=
           You_can_deduct_more_in_state_and_local_taxes remainingCapacity;
         DeductionRecommendation.estimatedAmount := Math.min remainingCapacity 3000;
         DeductionRecommendation.confidence := 0.7;
         DeductionRecommendation.requiredDocuments :=
           ["Property tax statements"; "State tax returns";
            "Vehicle registration fees"]%string;
         DeductionRecommendation.potentialSavings :=
           calculateTaxSavings (Math.min remainingCapacity 3000) marginalTaxRate |} ]
  else recommendations.

Definition analyzeCharitableDeductions (taxReturn : TaxReturn.t)
    : list DeductionRecommendation.t :=
  let recommendations := [] in
  let adjustedGrossIncome :=
    TaxCalculation.adjustedGrossIncome (TaxReturn.calculations taxReturn) in
  let marginalTaxRate := TaxCalculation.marginalTaxRate (TaxReturn.calculations taxReturn) in
  let currentCharitable :=
    reduce_sum ItemizedDeduction.amount
      (List.filter (has_category CHARITABLE_CONTRIBUTIONS)
         (DeductionData.itemizedDeductions (TaxReturn.deductions taxReturn))) in
  (* 2% of AGI or $2000, whichever is less *)
  let suggestedCharitableAmount := Math.min (adjustedGrossIncome * 0.02) 2000 in
  if num_lt currentCharitable suggestedCharitableAmount
  then
    let additionalAmount := suggestedCharitableAmount - currentCharitable in
    recommendations ++
    [ {| DeductionRecommendation.category := Itemized CHARITABLE_CONTRIBUTIONS;
         DeductionRecommendation.description :=
           Consider_charitable_contributions additionalAmount;
         DeductionRecommendation.estimatedAmount := additionalAmount;
         DeductionRecommendation.confidence := 0.4;
         DeductionRecommendation.requiredDocuments :=
           ["Donation receipts"; "Acknowledgment letters from charities"]%string;
         DeductionRecommendation.potentialSavings :=
           calculateTaxSavings additionalAmount marginalTaxRate |} ]
  else recommendations.

(** The itemized deductions of a category on a return, added up as the rules
    add them. *)
Definition current_itemized (category : ItemizedDeductionCategory)
    (taxReturn : TaxReturn.t) : float :=
  reduce_sum ItemizedDeduction.amount
    (List.filter (has_category category)
       (DeductionData.itemizedDeductions (TaxReturn.deductions taxReturn))).

(** A single filer of 2024 without income whose stored calculation holds the
    given adjusted gross income and a marginal rate of 22%, with the given
    itemized deductions. *)
Definition itemizing (adjustedGrossIncome : float)
    (itemizedDeductions : list ItemizedDeduction.t) : TaxReturn.t :=
  {| TaxReturn.taxYear := 2024;
     TaxReturn.filingStatus := SINGLE;
     TaxReturn.income := no_income;
     TaxReturn.deductions := DeductionData.mk itemizedDeductions 0 [];
     TaxReturn.credits := CreditData.mk 0 0 0 0 [];
     TaxReturn.calculations :=
       TaxCalculation.mk 0 adjustedGrossIncome 0 0 0 0 0 0 0 0 0 0 0 0.22 |}.

(** Signs and sizes of doubles, read off their specification. *)

(** [x] is positive. *)
Definition SFpositive (x : spec_float) : Prop :=
  match x with
  | S754_finite false _ _ | S754_infinity false => True
  | _ => False
  end.

(** [x] is not negative (and not [NaN]). *)
Definition SFnonneg (x : spec_float) : Prop :=
  match x with
  | S754_zero _ | S754_finite false _ _ | S754_infinity false => True
  | _ => False
  end.

(** [x] is at least [2 ^ (k - 1)]. *)
Definition SFat_least (k : Z) (x : spec_float) : Prop :=
  match x with
  | S754_finite false m e => (k <= Z.pos (digits2_pos m) + e)%Z
  | S754_infinity false => True
  | _ => False
  end.

End Binary64.

(** * Properties *)

(** ** Comparisons and [Math] *)

Lemma num_le_true a b : num_le a b = true <-> a <= b.
Proof. apply Qle_bool_iff. Qed.

Lemma num_le_false a b : num_le a b = false <-> b < a.
Proof.
  unfold num_le. split; intros H.
  - apply Qnot_le_lt. intros Hle. apply Qle_bool_iff in Hle. congruence.
  - destruct (Qle_bool a b) eqn:E; [|reflexivity].
    apply Qle_bool_iff in E. lra.
Qed.

Lemma num_lt_true a b : num_lt a b = true <-> a < b.
Proof. unfold num_lt. rewrite negb_true_iff. apply num_le_false. Qed.

Lemma num_lt_false a b : num_lt a b = false <-> b <= a.
Proof. unfold num_lt. rewrite negb_false_iff. apply num_le_true. Qed.

Lemma num_eq_true a b : num_eq a b = true <-> a == b.
Proof. apply Qeq_bool_iff. Qed.

Lemma num_eq_false a b : num_eq a b = false <-> ~ a == b.
Proof.
  unfold num_eq. split; intros H.
  - intros E. apply Qeq_bool_iff in E. congruence.
  - destruct (Qeq_bool a b) eqn:E; [|reflexivity].
    apply Qeq_bool_iff in E. contradiction.
Qed.

(** Turn every comparison of the code in the context into its proposition. *)
Ltac num_facts :=
  unfold num_gt, num_ge in *;
  repeat match goal with
    | H : num_le _ _ = true |- _ => apply num_le_true in H
    | H : num_le _ _ = false |- _ => apply num_le_false in H
    | H : num_lt _ _ = true |- _ => apply num_lt_true in H
    | H : num_lt _ _ = false |- _ => apply num_lt_false in H
    | H : num_eq _ _ = true |- _ => apply num_eq_true in H
    | H : num_eq _ _ = false |- _ => apply num_eq_false in H
    end.

Lemma Math_max_case a b : (a < b /\ Math.max a b = b) \/ (b <= a /\ Math.max a b = a).
Proof. unfold Math.max. destruct (Qlt_le_dec a b); auto. Qed.

Lemma Math_min_case a b : (b < a /\ Math.min a b = b) \/ (a <= b /\ Math.min a b = a).
Proof. unfold Math.min. destruct (Qlt_le_dec b a); auto. Qed.

(** Replace each [Math.max] and [Math.min] by its value, case by case. *)
Ltac math_cases :=
  repeat match goal with
    | |- context [Math.max ?a ?b] =>
        let H := fresh in let E := fresh in
        destruct (Math_max_case a b) as [[H E]|[H E]]; rewrite E in *; clear E
    | |- context [Math.min ?a ?b] =>
        let H := fresh in let E := fresh in
        destruct (Math_min_case a b) as [[H E]|[H E]]; rewrite E in *; clear E
    end.

#[global] Instance num_le_proper : Proper (Qeq ==> Qeq ==> eq) num_le.
Proof. unfold num_le. exact Qleb_comp. Qed.

#[global] Instance num_lt_proper : Proper (Qeq ==> Qeq ==> eq) num_lt.
Proof. intros a a' Ha b b' Hb. unfold num_lt. now rewrite Ha, Hb. Qed.

#[global] Instance num_gt_proper : Proper (Qeq ==> Qeq ==> eq) num_gt.
Proof. intros a a' Ha b b' Hb. unfold num_gt. now rewrite Ha, Hb. Qed.

#[global] Instance num_eq_proper : Proper (Qeq ==> Qeq ==> eq) num_eq.
Proof.
  intros a a' Ha b b' Hb.
  destruct (num_eq a b) eqn:E, (num_eq a' b') eqn:E'; trivial; num_facts.
  - rewrite Ha, Hb in E. contradiction.
  - rewrite <- Ha, <- Hb in E'. contradiction.
Qed.

#[global] Instance Math_max_proper : Proper (Qeq ==> Qeq ==> Qeq) Math.max.
Proof.
  intros a a' Ha b b' Hb.
  destruct (Math_max_case a b) as [[H E]|[H E]], (Math_max_case a' b') as [[H' E']|[H' E']];
    rewrite E, E'; lra.
Qed.

#[global] Instance Math_min_proper : Proper (Qeq ==> Qeq ==> Qeq) Math.min.
Proof.
  intros a a' Ha b b' Hb.
  destruct (Math_min_case a b) as [[H E]|[H E]], (Math_min_case a' b') as [[H' E']|[H' E']];
    rewrite E, E'; lra.
Qed.

#[global] Instance Math_round_proper : Proper (Qeq ==> Qeq) Math.round.
Proof. intros a a' Ha. unfold Math.round. now rewrite Ha. Qed.

#[global] Instance Math_ceil_proper : Proper (Qeq ==> Qeq) Math.ceil.
Proof. intros a a' Ha. unfold Math.ceil. now rewrite Ha. Qed.

#[global] Instance roundToTwoDec_proper : Proper (Qeq ==> Qeq) roundToTwoDec.
Proof. intros a a' Ha. unfold roundToTwoDec. now rewrite Ha. Qed.

#[global] Instance roundToFourDec_proper : Proper (Qeq ==> Qeq) roundToFourDec.
Proof. intros a a' Ha. unfold roundToFourDec. now rewrite Ha. Qed.

Lemma Math_round_nonneg x : 0 <= x -> 0 <= Math.round x.
Proof.
  intros Hx. unfold Math.round.
  change 0 with (inject_Z 0). rewrite <- Zle_Qle.
  change 0%Z with (Qfloor 0). apply Qfloor_resp_le. lra.
Qed.

Lemma roundToTwoDec_nonneg x : 0 <= x -> 0 <= roundToTwoDec x.
Proof.
  intros Hx. unfold roundToTwoDec.
  apply Qle_shift_div_l; [reflexivity|].
  rewrite Qmult_0_l. apply Math_round_nonneg. lra.
Qed.

Lemma roundToTwoDec_0 : roundToTwoDec 0 == 0.
Proof. reflexivity. Qed.

Lemma roundToFourDec_0 : roundToFourDec 0 == 0.
Proof. reflexivity. Qed.

Lemma Math_round_monotone x y : x <= y -> Math.round x <= Math.round y.
Proof.
  intros Hle. unfold Math.round. rewrite <- Zle_Qle. apply Qfloor_resp_le. lra.
Qed.

Lemma roundToTwoDec_monotone x y : x <= y -> roundToTwoDec x <= roundToTwoDec y.
Proof.
  intros Hle. unfold roundToTwoDec.
  apply Qmult_le_compat_r; [|discriminate].
  apply Math_round_monotone. lra.
Qed.

(** ** The calculator *)

Lemma calculateTax_success taxReturn w calculation message w' :
  calculateTax taxReturn w = (Success calculation message, w') ->
  exists taxLawConfig,
    getTaxLawConfiguration (TaxReturn.taxYear taxReturn) w = (Some taxLawConfig, w')
    /\ calculateTax_steps taxReturn taxLawConfig = Some calculation.
Proof.
  unfold calculateTax, bind.
  destruct (getTaxLawConfiguration _ w) as [[taxLawConfig|] w1]; [|discriminate].
  destruct (calculateTax_steps taxReturn taxLawConfig) as [c|] eqn:Hsteps; [|discriminate].
  unfold ret. intros [= <- _ <-]. eauto.
Qed.

(** C2. Whenever [calculateTax] succeeds, [refundAmount] and [amountOwed] of
    the returned calculation (the values after rounding to two decimals) are
    both non-negative and are never both positive. *)
Theorem refund_and_owed_exclusive taxReturn w calculation message w' :
  calculateTax taxReturn w = (Success calculation message, w') ->
  0 <= TaxCalculation.refundAmount calculation
  /\ 0 <= TaxCalculation.amountOwed calculation
  /\ ~ (0 < TaxCalculation.refundAmount calculation
        /\ 0 < TaxCalculation.amountOwed calculation).
Proof.
  intros H. apply calculateTax_success in H as (taxLawConfig & _ & Hsteps).
  unfold calculateTax_steps in Hsteps.
  destruct (num_gt (calculateTotalWithholding _ + 0) _) eqn:Hgt in Hsteps;
    destruct (calculateMarginalTaxRate _ _ _) as [marginalTaxRate|]; try discriminate;
    injection Hsteps as <-; simpl; num_facts;
    rewrite roundToTwoDec_0; (repeat split; try lra); apply roundToTwoDec_nonneg; lra.
Qed.

#[global] Instance calculateFederalTax_for_proper brackets :
  Proper (Qeq ==> Qeq ==> Qeq) (calculateFederalTax_for brackets).
Proof.
  induction brackets as [|bracket brackets IH]; intros tax tax' Htax r r' Hr; simpl.
  - exact Htax.
  - rewrite Hr. destruct (num_le r' 0); [exact Htax|].
    rewrite Hr. destruct (num_le _ 0).
    + now rewrite Htax, Hr.
    + apply IH; now rewrite ?Htax, ?Hr.
Qed.

#[global] Instance calculateMarginalTaxRate_for_proper brackets :
  Proper (Qeq ==> eq) (calculateMarginalTaxRate_for brackets).
Proof.
  induction brackets as [|bracket brackets IH]; intros x x' Hx; simpl.
  - reflexivity.
  - unfold num_ge. rewrite Hx. destruct (_ && _); [reflexivity|]. now apply IH.
Qed.

Lemma reduce_sum_nil {A} (f : A -> Q) : reduce_sum f [] = 0.
Proof. reflexivity. Qed.

Example seeded_2024 : configCache seeded_world !! 2024%Z = Some getTaxYear2024Configuration.
Proof. vm_compute. reflexivity. Qed.

Lemma getTaxLawConfiguration_cached taxYear w config :
  configCache w !! taxYear = Some config ->
  getTaxLawConfiguration taxYear w = (Some config, w).
Proof.
  intros H. unfold getTaxLawConfiguration, bind, cache_get. rewrite H. reflexivity.
Qed.


(** What [calculateTax_steps] returns, field by field. *)
Lemma calculateTax_steps_fields taxReturn taxLawConfig calculation :
  calculateTax_steps taxReturn taxLawConfig = Some calculation ->
  let filingStatus := TaxReturn.filingStatus taxReturn in
  let adjustedGrossIncome := adjustedGrossIncome_of taxReturn in
  let taxableIncome := taxableIncome_of taxReturn taxLawConfig in
  let totalTaxLiability := totalTaxLiability_of taxReturn taxLawConfig in
  let totalWithholding := calculateTotalWithholding (TaxReturn.income taxReturn) in
  TaxCalculation.adjustedGrossIncome calculation = roundToTwoDec adjustedGrossIncome
  /\ TaxCalculation.taxableIncome calculation = roundToTwoDec taxableIncome
  /\ TaxCalculation.federalTaxBeforeCredits calculation
     = roundToTwoDec (calculateFederalTax taxableIncome taxLawConfig filingStatus)
  /\ TaxCalculation.totalTaxLiability calculation = roundToTwoDec totalTaxLiability
  /\ TaxCalculation.refundAmount calculation
     = roundToTwoDec (if num_gt (totalWithholding + 0) totalTaxLiability
                      then totalWithholding + 0 - totalTaxLiability else 0)
  /\ TaxCalculation.amountOwed calculation
     = roundToTwoDec (if num_gt (totalWithholding + 0) totalTaxLiability
                      then 0 else totalTaxLiability - totalWithholding - 0)
  /\ TaxCalculation.effectiveTaxRate calculation
     = roundToFourDec (if num_gt adjustedGrossIncome 0
                       then totalTaxLiability / adjustedGrossIncome else 0)
  /\ option_map roundToFourDec
       (calculateMarginalTaxRate taxableIncome taxLawConfig filingStatus)
     = Some (TaxCalculation.marginalTaxRate calculation).
Proof.
  unfold calculateTax_steps, totalTaxLiability_of, taxableIncome_of, adjustedGrossIncome_of.
  intros H. cbv zeta.
  destruct (calculateMarginalTaxRate _ _ _) as [marginalTaxRate|];
    [|destruct (num_gt (_ + 0) _); discriminate].
  destruct (num_gt (_ + 0) _); injection H as <-; repeat split; reflexivity.
Qed.

Lemma calculateTax_steps_total taxReturn taxLawConfig :
  is_Some (calculateTax_steps taxReturn taxLawConfig)
  <-> is_Some (calculateMarginalTaxRate (taxableIncome_of taxReturn taxLawConfig)
                 taxLawConfig (TaxReturn.filingStatus taxReturn)).
Proof.
  unfold calculateTax_steps, taxableIncome_of, adjustedGrossIncome_of.
  destruct (calculateMarginalTaxRate _ _ _) as [marginalTaxRate|];
    destruct (num_gt (_ + 0) _); split; intros [x Hx]; try discriminate; eauto.
Qed.

Section SingleFiler2024.
Variable taxReturn : TaxReturn.t.
Local Abbreviation income := (TaxReturn.income taxReturn).
Local Abbreviation deductions := (TaxReturn.deductions taxReturn).
Local Abbreviation credits := (TaxReturn.credits taxReturn).
Local Abbreviation law := getTaxYear2024Configuration.

Hypothesis year_2024 : TaxReturn.taxYear taxReturn = 2024%Z.
Hypothesis single : TaxReturn.filingStatus taxReturn = SINGLE.
Hypothesis wages_60000 : reduce_sum WageIncome.wages (IncomeData.wages income) == 60000.
Hypothesis no_selfEmployment : IncomeData.selfEmployment income = [].
Hypothesis no_investment : IncomeData.investment income = [].
Hypothesis no_retirement : IncomeData.retirement income = [].
Hypothesis no_other : IncomeData.other income = [].
Hypothesis no_adjustments : DeductionData.adjustments deductions = [].
Hypothesis itemized_below_standard :
    DeductionData.totalItemizedDeductions deductions <= 14600.
Hypothesis no_childTaxCredit : CreditData.childTaxCredit credits == 0.
Hypothesis no_earnedIncomeCredit : CreditData.earnedIncomeCredit credits == 0.
Hypothesis no_educationCredits : CreditData.educationCredits credits == 0.
Hypothesis no_retirementSavingsCredit : CreditData.retirementSavingsCredit credits == 0.
Hypothesis no_otherCredits : CreditData.otherCredits credits = [].

Lemma single_filer_grossIncome : calculateGrossIncome income == 60000.
  Proof.
    unfold calculateGrossIncome.
    rewrite no_selfEmployment, no_investment, no_retirement, no_other. simpl.
    rewrite !reduce_sum_nil, wages_60000. reflexivity.
  Qed.

Lemma single_filer_adjustedGrossIncome : adjustedGrossIncome_of taxReturn == 60000.
  Proof.
    unfold adjustedGrossIncome_of, calculateAdjustedGrossIncome.
    rewrite no_adjustments, reduce_sum_nil, single_filer_grossIncome.
    reflexivity.
  Qed.

Lemma single_filer_taxableIncome : taxableIncome_of taxReturn law == 45400.
  Proof.
    unfold taxableIncome_of, calculateTaxableIncome.
    rewrite single_filer_adjustedGrossIncome, single. simpl.
    destruct (Math_max_case 14600 (DeductionData.totalItemizedDeductions deductions))
      as [[H E]|[H E]]; rewrite E.
    - lra.
    - reflexivity.
  Qed.

Lemma single_filer_federalTax :
    calculateFederalTax (taxableIncome_of taxReturn law) law SINGLE == 5295.50.
  Proof.
    unfold calculateFederalTax. rewrite single_filer_taxableIncome. reflexivity.
  Qed.

Lemma single_filer_totalCredits :
    calculateTotalCredits credits (adjustedGrossIncome_of taxReturn) law SINGLE == 0.
  Proof.
    unfold calculateTotalCredits, calculateChildTaxCredit.
    rewrite no_otherCredits, reduce_sum_nil.
    rewrite no_childTaxCredit at 1. simpl.
    rewrite no_earnedIncomeCredit, no_educationCredits, no_retirementSavingsCredit.
    reflexivity.
  Qed.

Lemma single_filer_selfEmploymentTax : calculateSelfEmploymentTax income law == 0.
  Proof.
    unfold calculateSelfEmploymentTax. rewrite no_selfEmployment. reflexivity.
  Qed.

Lemma single_filer_totalTaxLiability : totalTaxLiability_of taxReturn law == 5295.50.
  Proof.
    unfold totalTaxLiability_of. rewrite single.
    rewrite single_filer_federalTax, single_filer_totalCredits, single_filer_selfEmploymentTax.
    reflexivity.
  Qed.

Lemma single_filer_marginalTaxRate :
    calculateMarginalTaxRate (taxableIncome_of taxReturn law) law SINGLE = Some 0.22.
  Proof.
    unfold calculateMarginalTaxRate. rewrite single_filer_taxableIncome. reflexivity.
  Qed.

Variable w : World.
Hypothesis registry_serves_2024 :
    configCache w !! 2024%Z = Some getTaxYear2024Configuration.

  (** C1. A single filer of tax year 2024 whose only income is wages of
      60000, with no adjustments, itemized deductions not above the standard
      deduction, no credits and no self-employment income: [calculateTax]
      succeeds with taxable income 45400 and [federalTaxBeforeCredits]
      5295.50, which the bracket walk reaches as 1100 + 4047 + 148.50; with
      5000 withheld, [amountOwed] is 295.50 and [refundAmount] is 0. *)
Theorem single_filer_2024_wages_60000 :
    exists calculation,
      calculateTax taxReturn w = (Success calculation TaxCalculationCompleted, w)
      /\ TaxCalculation.taxableIncome calculation == 45400
      /\ TaxCalculation.federalTaxBeforeCredits calculation == 5295.50
      /\ calculateFederalTax (taxableIncome_of taxReturn law) law SINGLE
         == 11000 * 0.10 + (44725 - 11000) * 0.12 + (45400 - 44725) * 0.22
      /\ 11000 * 0.10 + (44725 - 11000) * 0.12 + (45400 - 44725) * 0.22
         == 1100 + 4047 + 148.50
      /\ (reduce_sum WageIncome.federalTaxWithheld (IncomeData.wages income) == 5000 ->
          TaxCalculation.amountOwed calculation == 295.50
          /\ TaxCalculation.refundAmount calculation == 0).
  Proof.
    assert (Hsome : is_Some (calculateTax_steps taxReturn law)).
    { apply calculateTax_steps_total. rewrite single, single_filer_marginalTaxRate. eauto. }
    destruct Hsome as [calculation Hsteps]. exists calculation.
    split.
    { unfold calculateTax, bind. rewrite year_2024.
      rewrite (getTaxLawConfiguration_cached _ _ _ registry_serves_2024).
      rewrite Hsteps. reflexivity. }
    apply calculateTax_steps_fields in Hsteps.
    cbv zeta in Hsteps. rewrite single in Hsteps.
    destruct Hsteps as (_ & -> & -> & _ & -> & -> & _).
    split; [rewrite single_filer_taxableIncome; reflexivity|].
    split; [rewrite single_filer_federalTax; reflexivity|].
    split; [rewrite single_filer_federalTax; reflexivity|].
    split; [reflexivity|].
    intros withheld_5000.
    assert (Hwithheld : calculateTotalWithholding income + 0 == 5000).
    { unfold calculateTotalWithholding.
      rewrite no_retirement, reduce_sum_nil, withheld_5000. reflexivity. }
    assert (Hle : num_gt (calculateTotalWithholding income + 0)
                    (totalTaxLiability_of taxReturn law) = false).
    { rewrite Hwithheld, single_filer_totalTaxLiability. reflexivity. }
    rewrite Hle, single_filer_totalTaxLiability.
    split; [|exact roundToTwoDec_0].
    assert (Hw : calculateTotalWithholding income == 5000) by lra.
    rewrite Hw. reflexivity.
  Qed.
End SingleFiler2024.

Lemma single_filer_2024_wages_60000_witness :
  exists calculation,
    calculateTax single_filer_wages_60000 seeded_world
    = (Success calculation TaxCalculationCompleted, seeded_world)
    /\ TaxCalculation.amountOwed calculation == 295.50.
Proof.
  destruct (single_filer_2024_wages_60000 single_filer_wages_60000) with (w := seeded_world)
    as (calculation & Hrun & _ & _ & _ & _ & Howed).
  all: try (exists calculation; split; [exact Hrun|]; apply Howed).
  all: try solve [vm_compute; reflexivity | vm_compute; discriminate].
Defined.

Lemma refund_and_owed_exclusive_witness :
  exists calculation,
    calculateTax single_filer_wages_60000 seeded_world
    = (Success calculation TaxCalculationCompleted, seeded_world)
    /\ 0 <= TaxCalculation.refundAmount calculation
    /\ 0 <= TaxCalculation.amountOwed calculation
    /\ ~ (0 < TaxCalculation.refundAmount calculation
          /\ 0 < TaxCalculation.amountOwed calculation).
Proof.
  eexists. split; [vm_compute; reflexivity|].
  eapply (refund_and_owed_exclusive single_filer_wages_60000 seeded_world).
  vm_compute. reflexivity.
Defined.

(** ** The bracket walk *)

Lemma contiguous_from_min_ge start brackets :
  contiguous_from start brackets ->
  Forall (fun bracket => start <= TaxBracket.min bracket) brackets.
Proof.
  revert start. induction brackets as [|bracket brackets IH]; intros start H; simpl in *.
  - constructor.
  - destruct H as (Hmin & Hlt & Hrest). constructor; [lra|].
    eapply Forall_impl; [apply IH, Hrest|]. simpl. intros b Hb. lra.
Qed.

Lemma contiguous_from_widths start brackets :
  contiguous_from start brackets ->
  Forall (fun bracket => 0 <= TaxBracket.max bracket - TaxBracket.min bracket) brackets.
Proof.
  revert start. induction brackets as [|bracket brackets IH]; intros start H; simpl in *.
  - constructor.
  - destruct H as (Hmin & Hlt & Hrest). constructor; [lra|]. eapply IH, Hrest.
Qed.

Lemma top_bracket_above_tail bracket next brackets taxableIncome :
  top_bracket_above (bracket :: next :: brackets) taxableIncome ->
  top_bracket_above (next :: brackets) taxableIncome.
Proof. unfold top_bracket_above. now rewrite last_cons_cons. Qed.

(** The loop of [calculateMarginalTaxRate] returns the rate of the one bracket
    that holds the income. *)
Lemma marginal_bracket_unique start brackets taxableIncome :
  contiguous_from start brackets ->
  start <= taxableIncome ->
  top_bracket_above brackets taxableIncome ->
  exists (i : nat) bracket,
    brackets !! i = Some bracket
    /\ in_bracket taxableIncome bracket
    /\ calculateMarginalTaxRate_for brackets taxableIncome = Some (TaxBracket.rate bracket)
    /\ forall (j : nat) other,
         brackets !! j = Some other -> in_bracket taxableIncome other -> j = i.
Proof.
  revert start.
  induction brackets as [|bracket brackets IH]; intros start Hcont Hstart Htop.
  - contradiction.
  - simpl in Hcont. destruct Hcont as (Hmin & Hlt & Hrest).
    destruct (Qlt_le_dec taxableIncome (TaxBracket.max bracket)) as [Hin|Hout].
    + exists 0%nat, bracket. split; [reflexivity|]. split; [split; lra|]. split.
      * simpl. assert (num_ge taxableIncome (TaxBracket.min bracket) = true) as ->
          by (apply num_le_true; lra).
        assert (num_lt taxableIncome (TaxBracket.max bracket) = true) as ->
          by (now apply num_lt_true).
        reflexivity.
      * intros [|j] other Hj [Hlo Hhi]; [reflexivity|]. exfalso.
        simpl in Hj. apply contiguous_from_min_ge in Hrest.
        rewrite Forall_forall in Hrest.
        assert (TaxBracket.max bracket <= TaxBracket.min other).
        { apply Hrest. eapply list_elem_of_lookup_2, Hj. }
        lra.
    + destruct brackets as [|next brackets].
      { unfold top_bracket_above in Htop. simpl in Htop. lra. }
      destruct (IH (TaxBracket.max bracket) Hrest Hout
                  (top_bracket_above_tail _ _ _ _ Htop))
        as (i & found & Hi & Hin & Hrate & Huniq).
      exists (S i), found. split; [exact Hi|]. split; [exact Hin|]. split.
      * change (calculateMarginalTaxRate_for (bracket :: next :: brackets) taxableIncome)
          with (if num_ge taxableIncome (TaxBracket.min bracket)
                   && num_lt taxableIncome (TaxBracket.max bracket)
                then Some (TaxBracket.rate bracket)
                else calculateMarginalTaxRate_for (next :: brackets) taxableIncome).
        assert (num_lt taxableIncome (TaxBracket.max bracket) = false) as ->
          by (now apply num_lt_false).
        rewrite andb_false_r. exact Hrate.
      * intros [|j] other Hj [Hlo Hhi].
        -- injection Hj as <-. lra.
        -- f_equal. eapply Huniq; [exact Hj|split; assumption].
Qed.

Lemma calculateFederalTax_for_lower_bound brackets :
  Forall (fun bracket => 0 <= TaxBracket.max bracket - TaxBracket.min bracket) brackets ->
  rates_non_negative brackets ->
  forall tax remainingIncome,
    tax <= calculateFederalTax_for brackets tax remainingIncome.
Proof.
  induction 1 as [|bracket brackets Hwidth _ IH]; intros Hrates tax remainingIncome; simpl.
  - lra.
  - inversion Hrates as [|? ? Hrate Hrates']; subst.
    destruct (num_le remainingIncome 0) eqn:Hdone; [lra|]. num_facts.
    set (width := TaxBracket.max bracket - TaxBracket.min bracket) in *.
    assert (Hpart : 0 <= Math.min remainingIncome width * TaxBracket.rate bracket).
    { apply Qmult_le_0_compat; [|exact Hrate].
      destruct (Math_min_case remainingIncome width) as [[? ->]|[? ->]]; lra. }
    destruct (num_le (remainingIncome - Math.min remainingIncome width) 0); [lra|].
    eapply Qle_trans; [|apply IH; assumption]. lra.
Qed.

Lemma calculateFederalTax_for_monotone brackets :
  Forall (fun bracket => 0 <= TaxBracket.max bracket - TaxBracket.min bracket) brackets ->
  rates_non_negative brackets ->
  forall tax lower higher,
    lower <= higher ->
    calculateFederalTax_for brackets tax lower <= calculateFederalTax_for brackets tax higher.
Proof.
  induction 1 as [|bracket brackets Hwidth Hwidths IH]; intros Hrates tax lower higher Hle.
  - simpl. lra.
  - inversion Hrates as [|? ? Hrate Hrates']; subst.
    assert (Hbound : tax <= calculateFederalTax_for (bracket :: brackets) tax higher).
    { apply calculateFederalTax_for_lower_bound; [constructor|]; assumption. }
    simpl in Hbound |- *.
    set (width := TaxBracket.max bracket - TaxBracket.min bracket) in *.
    destruct (num_le lower 0) eqn:Hlow; [exact Hbound|].
    destruct (num_le higher 0) eqn:Hhigh; num_facts; [lra|].
    destruct (Math_min_case lower width) as [[Hl ->]|[Hl ->]],
             (Math_min_case higher width) as [[Hh ->]|[Hh ->]]; try lra.
    + destruct (num_le (lower - width) 0) eqn:E1, (num_le (higher - width) 0) eqn:E2;
        num_facts; try lra.
      apply IH; [assumption|lra].
    + assert (num_le (lower - lower) 0 = true) as -> by (apply num_le_true; lra).
      destruct (num_le (higher - width) 0) eqn:E2; num_facts.
      * assert (lower * TaxBracket.rate bracket <= width * TaxBracket.rate bracket)
          by (apply Qmult_le_compat_r; lra).
        lra.
      * eapply Qle_trans;
          [|apply calculateFederalTax_for_lower_bound; assumption].
        assert (lower * TaxBracket.rate bracket <= width * TaxBracket.rate bracket)
          by (apply Qmult_le_compat_r; lra).
        lra.
    + assert (num_le (lower - lower) 0 = true) as -> by (apply num_le_true; lra).
      assert (num_le (higher - higher) 0 = true) as -> by (apply num_le_true; lra).
      assert (lower * TaxBracket.rate bracket <= higher * TaxBracket.rate bracket)
        by (apply Qmult_le_compat_r; lra).
      lra.
Qed.

(** C3, as stated, fails: one bracket from 0 with rate -0.10 satisfies the
    invariant the claim lists, yet the tax on 10 is below the tax on 0. *)
Lemma negative_rate_walk_not_monotone :
  let brackets := TaxLawConfiguration.taxBrackets negative_rate_configuration SINGLE in
  bracket_invariant brackets
  /\ top_bracket_above brackets 10
  /\ 0 <= 0 /\ 0 <= 10
  /\ ~ (calculateFederalTax 0 negative_rate_configuration SINGLE
        <= calculateFederalTax 10 negative_rate_configuration SINGLE).
Proof.
  simpl. split; [|split; [|split; [|split]]].
  - repeat split; try reflexivity.
  - reflexivity.
  - discriminate.
  - discriminate.
  - vm_compute. intros H. apply H. reflexivity.
Qed.

(** C3 (amended). For a bracket list that is contiguous from 0, ascending,
    with non-decreasing and non-negative rates: a non-negative taxable income
    below the top bracket's bound lies in exactly one bracket and
    [calculateMarginalTaxRate] returns that bracket's rate; and
    [calculateFederalTax] is non-decreasing in the taxable income. *)
Theorem bracket_walk_one_bracket_and_monotone taxLawConfig filingStatus :
  let brackets := TaxLawConfiguration.taxBrackets taxLawConfig filingStatus in
  bracket_invariant brackets ->
  rates_non_negative brackets ->
  (forall taxableIncome,
     0 <= taxableIncome ->
     top_bracket_above brackets taxableIncome ->
     exists (i : nat) bracket,
       brackets !! i = Some bracket
       /\ in_bracket taxableIncome bracket
       /\ calculateMarginalTaxRate taxableIncome taxLawConfig filingStatus
          = Some (TaxBracket.rate bracket)
       /\ forall (j : nat) other,
            brackets !! j = Some other -> in_bracket taxableIncome other -> j = i)
  /\ (forall lower higher,
        0 <= lower ->
        lower <= higher ->
        calculateFederalTax lower taxLawConfig filingStatus
        <= calculateFederalTax higher taxLawConfig filingStatus).
Proof.
  intros brackets [Hcont Hsorted] Hrates. split.
  - intros taxableIncome Hnonneg Htop.
    destruct (marginal_bracket_unique 0 brackets taxableIncome Hcont Hnonneg Htop)
      as (i & bracket & Hi & Hin & Hrate & Huniq).
    exists i, bracket. repeat split; try assumption; try apply Hin.
    unfold calculateMarginalTaxRate. fold brackets. now rewrite Hrate.
  - intros lower higher _ Hle. unfold calculateFederalTax. fold brackets.
    apply calculateFederalTax_for_monotone; try assumption.
    eapply contiguous_from_widths, Hcont.
Qed.

Lemma bracket_walk_one_bracket_and_monotone_witness :
  calculateFederalTax 45400 getTaxYear2024Configuration SINGLE
  <= calculateFederalTax 60000 getTaxYear2024Configuration SINGLE.
Proof.
  apply (bracket_walk_one_bracket_and_monotone getTaxYear2024Configuration SINGLE).
  - split; simpl; repeat split; try reflexivity; try discriminate.
  - repeat constructor; discriminate.
  - discriminate.
  - discriminate.
Defined.

(** ** Child tax credit *)

Lemma Math_ceil_positive x : 0 < x -> 1 <= Math.ceil x.
Proof.
  intros Hx. unfold Math.ceil.
  assert (H : (0 < Qceiling x)%Z).
  { apply Z.lt_nge. intros Hle.
    pose proof (Qle_ceiling x) as Hc.
    assert (inject_Z (Qceiling x) <= inject_Z 0) by (now rewrite <- Zle_Qle).
    change (inject_Z 0) with 0 in *. lra. }
  change 1 with (inject_Z 1). rewrite <- Zle_Qle. lia.
Qed.




(** ** Doubles: signs and sizes

    What the specification of binary64 arithmetic ([SpecFloat]) gives about
    the sign and the size of a rounded product or sum. *)

Section DoubleSpecification.
Import PrimFloat FloatOps SpecFloat FloatAxioms.
Import Binary64.
Local Open Scope Z_scope.

Lemma SFat_least_positive k x : SFat_least k x -> SFpositive x.
Proof. destruct x as [s|[|]| |[|] m e]; cbn; tauto. Qed.


Lemma digits2_pos_bounds m :
  2 ^ (Z.pos (digits2_pos m) - 1) <= Z.pos m < 2 ^ Z.pos (digits2_pos m).
Proof.
  induction m as [m IH|m IH|]; cbn [digits2_pos].
  - rewrite Pos2Z.inj_succ.
    replace (Z.succ (Z.pos (digits2_pos m)) - 1) with (Z.succ (Z.pos (digits2_pos m) - 1))
      by lia.
    rewrite !Z.pow_succ_r by lia. lia.
  - rewrite Pos2Z.inj_succ.
    replace (Z.succ (Z.pos (digits2_pos m)) - 1) with (Z.succ (Z.pos (digits2_pos m) - 1))
      by lia.
    rewrite !Z.pow_succ_r by lia. lia.
  - simpl. lia.
Qed.

Lemma digits2_pos_unique q k :
  2 ^ (k - 1) <= Z.pos q < 2 ^ k -> Z.pos (digits2_pos q) = k.
Proof.
  intros [Hlow Hhigh]. pose proof (digits2_pos_bounds q) as [Hlow' Hhigh'].
  assert (0 < k).
  { destruct (Z.lt_trichotomy 0 k) as [|[<-|Hneg]]; [assumption| |].
    - simpl in Hhigh. lia.
    - rewrite (Z.pow_neg_r 2 k) in Hhigh by lia. lia. }
  assert (H1 : 2 ^ (k - 1) < 2 ^ Z.pos (digits2_pos q)) by lia.
  assert (H2 : 2 ^ (Z.pos (digits2_pos q) - 1) < 2 ^ k) by lia.
  apply Z.pow_lt_mono_r_iff in H1, H2; lia.
Qed.

Lemma digits2_pos_le m n : (m <= n)%positive -> (digits2_pos m <= digits2_pos n)%positive.
Proof.
  intros Hle.
  pose proof (digits2_pos_bounds m) as [Hm _].
  pose proof (digits2_pos_bounds n) as [_ Hn].
  assert (H : 2 ^ (Z.pos (digits2_pos m) - 1) < 2 ^ Z.pos (digits2_pos n)) by lia.
  apply Z.pow_lt_mono_r_iff in H; lia.
Qed.


Lemma digits2_pos_iter_xO m k :
  Z.pos (digits2_pos (Pos.iter xO m k)) = Z.pos (digits2_pos m) + Z.pos k.
Proof.
  rewrite Pos2Nat.inj_iter. rewrite <- (positive_nat_Z k).
  induction (Pos.to_nat k) as [|n IH]; [simpl; lia|].
  cbn [nat_rect digits2_pos]. rewrite Pos2Z.inj_succ, IH. lia.
Qed.

Lemma shr_1_div2 mrs : 0 <= shr_m mrs -> shr_m (shr_1 mrs) = shr_m mrs / 2.
Proof.
  destruct mrs as [m r s]. cbn [shr_m shr_1]. intros Hm.
  destruct m as [|[p|p|]|p]; cbn [shr_m];
    first [ reflexivity
          | apply Z.div_unique with 1; lia
          | apply Z.div_unique with 0; lia
          | pose proof (Zlt_neg_0 p); lia ].
Qed.

Lemma pow2_xO p : 2 ^ Z.pos p~0 = 2 ^ Z.pos p * 2 ^ Z.pos p.
Proof.
  replace (Z.pos p~0) with (Z.pos p + Z.pos p) by lia.
  apply Z.pow_add_r; lia.
Qed.

Lemma pow2_xI p : 2 ^ Z.pos p~1 = 2 * (2 ^ Z.pos p * 2 ^ Z.pos p).
Proof.
  replace (Z.pos p~1) with (1 + (Z.pos p + Z.pos p)) by lia.
  rewrite Z.pow_add_r, Z.pow_add_r by lia. reflexivity.
Qed.

(** [p] shifts to the right divide the mantissa by [2 ^ p]. *)
Lemma iter_shr_1 p mrs :
  0 <= shr_m mrs -> shr_m (iter_pos shr_1 p mrs) = shr_m mrs / 2 ^ Z.pos p.
Proof.
  revert mrs. induction p as [p IH|p IH|]; intros mrs Hm; cbn [iter_pos].
  - assert (H1 : 0 <= shr_m (shr_1 mrs))
      by (rewrite shr_1_div2 by assumption; apply Z.div_pos; lia).
    assert (H2 : 0 <= shr_m (iter_pos shr_1 p (shr_1 mrs)))
      by (rewrite IH by assumption; apply Z.div_pos; lia).
    rewrite IH, IH, shr_1_div2 by assumption.
    rewrite !Z.div_div by lia. now rewrite pow2_xI, Z.mul_assoc.
  - assert (H2 : 0 <= shr_m (iter_pos shr_1 p mrs))
      by (rewrite IH by assumption; apply Z.div_pos; lia).
    rewrite IH, IH by assumption.
    rewrite !Z.div_div by lia. now rewrite pow2_xO.
  - rewrite shr_1_div2 by assumption. reflexivity.
Qed.


(** A shift by fewer places than the mantissa has digits keeps the number up
    to the bits shifted out: the mantissa stays positive, and digits plus
    exponent stay the same. *)
Lemma shr_digits m r s e n :
  n < Z.pos (digits2_pos m) ->
  exists q,
    shr_m (fst (shr (Build_shr_record (Z.pos m) r s) e n)) = Z.pos q
    /\ Z.pos (digits2_pos q) + snd (shr (Build_shr_record (Z.pos m) r s) e n)
       = Z.pos (digits2_pos m) + e
    /\ (n <= 0 ->
        shr (Build_shr_record (Z.pos m) r s) e n = (Build_shr_record (Z.pos m) r s, e)).
Proof.
  intros Hn. unfold shr. destruct n as [|p|p]; cbn [fst snd shr_m].
  - exists m. auto.
  - rewrite iter_shr_1 by (cbn; lia). cbn [shr_m].
    pose proof (digits2_pos_bounds m) as [Hlow Hhigh].
    set (d := Z.pos (digits2_pos m)) in *.
    assert (Hsplit : 2 ^ d = 2 ^ Z.pos p * 2 ^ (d - Z.pos p))
      by (rewrite <- Z.pow_add_r by lia; f_equal; lia).
    assert (Hsplit' : 2 ^ (d - 1) = 2 ^ Z.pos p * 2 ^ (d - Z.pos p - 1))
      by (rewrite <- Z.pow_add_r by lia; f_equal; lia).
    assert (Hq : 2 ^ (d - Z.pos p - 1) <= Z.pos m / 2 ^ Z.pos p < 2 ^ (d - Z.pos p)).
    { split.
      - apply Z.div_le_lower_bound; lia.
      - apply Z.div_lt_upper_bound; lia. }
    assert (0 < 2 ^ (d - Z.pos p - 1)) by (apply Z.pow_pos_nonneg; lia).
    destruct (Z.pos m / 2 ^ Z.pos p) as [|q|q]; try lia.
    exists q. split; [reflexivity|]. split; [|lia].
    rewrite (digits2_pos_unique q (d - Z.pos p)) by exact Hq. lia.
  - exists m. auto.
Qed.

Lemma round_nearest_even_digits q l :
  exists q',
    round_nearest_even (Z.pos q) l = Z.pos q'
    /\ (digits2_pos q <= digits2_pos q')%positive
    /\ (l = loc_Exact -> q' = q).
Proof.
  destruct l as [|[| |]]; cbn [round_nearest_even].
  - exists q. split; [reflexivity|]. split; [lia|auto].
  - destruct (Z.even (Z.pos q)).
    + exists q. split; [reflexivity|]. split; [lia|discriminate].
    + exists (q + 1)%positive. split; [reflexivity|].
      split; [apply digits2_pos_le; lia|discriminate].
  - exists q. split; [reflexivity|]. split; [lia|discriminate].
  - exists (q + 1)%positive. split; [reflexivity|].
    split; [apply digits2_pos_le; lia|discriminate].
Qed.


Lemma fexp_shift m e :
  - 1073 <= Z.pos (digits2_pos m) + e ->
  fexp prec emax (Zdigits2 (Z.pos m) + e) - e < Z.pos (digits2_pos m).
Proof.
  unfold fexp, emin, prec, emax. cbn [Zdigits2]. lia.
Qed.

(** Rounding a positive mantissa that is not below the least double yields
    [Infinity] or a double that is not smaller by a power of 2. *)
Lemma binary_round_aux_at_least m e :
  - 1073 <= Z.pos (digits2_pos m) + e ->
  SFat_least (Z.pos (digits2_pos m) + e)
    (binary_round_aux prec emax false (Z.pos m) e loc_Exact).
Proof.
  intros Hm. unfold binary_round_aux, shr_fexp. cbn [shr_record_of_loc].
  pose proof (shr_digits m false false e _ (fexp_shift m e Hm)) as (q & Hq & Hdq & _).
  destruct (shr _ e _) as [mrs' e']. cbn [fst snd] in Hq, Hdq.
  rewrite Hq.
  destruct (round_nearest_even_digits q (loc_of_shr_record mrs')) as (q' & Hq' & Hdq' & _).
  rewrite Hq'.
  assert (Hq'e : - 1073 <= Z.pos (digits2_pos q') + e') by lia.
  pose proof (shr_digits q' false false e' _ (fexp_shift q' e' Hq'e)) as (q'' & Hq'' & Hdq'' & _).
  destruct (shr _ e' _) as [mrs'' e'']. cbn [fst snd] in Hq'', Hdq''.
  rewrite Hq''. destruct (e'' <=? emax - prec); cbn [SFat_least]; [lia|exact I].
Qed.


(** A finite double is not below the least double in magnitude. *)
Lemma valid_finite_bound s m e :
  valid_binary (S754_finite s m e) = true ->
  - 1073 <= Z.pos (digits2_pos m) + e.
Proof.
  cbn [SpecFloat.valid_binary]. unfold bounded, canonical_mantissa, fexp, emin, prec, emax.
  intros H. apply andb_prop in H as [H _]. apply Z.eqb_eq in H. lia.
Qed.





(** [shl_align] keeps the number: digits plus exponent stay the same. *)
Lemma shl_align_digits m e e' :
  Z.pos (digits2_pos (fst (shl_align m e e'))) + snd (shl_align m e e')
  = Z.pos (digits2_pos m) + e.
Proof.
  unfold shl_align. destruct (e' - e) as [|d|d] eqn:Hd; cbn [fst snd]; try reflexivity.
  rewrite digits2_pos_iter_xO. lia.
Qed.

Lemma shl_align_exponent m e e' : e' <= e -> snd (shl_align m e e') = e'.
Proof.
  intros Hle. unfold shl_align. destruct (e' - e) as [|d|d] eqn:Hd; cbn [snd]; lia.
Qed.

Lemma binary_round_at_least m e :
  - 1073 <= Z.pos (digits2_pos m) + e ->
  SFat_least (Z.pos (digits2_pos m) + e) (binary_round prec emax false m e).
Proof.
  intros Hm. unfold binary_round.
  pose proof (shl_align_digits m e (fexp prec emax (Z.pos (digits2_pos m) + e))) as Hd.
  destruct (shl_align m e _) as [mz ez]. cbn [fst snd] in Hd.
  rewrite <- Hd. apply binary_round_aux_at_least. lia.
Qed.

(** The sum of a double that is not negative and a positive one is
    positive. *)
Lemma SFadd_positive x y :
  valid_binary x = true -> valid_binary y = true ->
  SFnonneg x -> SFpositive y -> SFpositive (SFadd prec emax x y).
Proof.
  destruct x as [sx|[|]| |[|] mx ex], y as [sy|[|]| |[|] my ey];
    cbn [SFnonneg SFpositive SFadd]; try tauto.
  intros Hx Hy _ _. apply valid_finite_bound in Hx, Hy.
  cbn [cond_Zopp]. set (ez := Z.min ex ey).
  pose proof (shl_align_digits mx ex ez) as Hdx.
  pose proof (shl_align_exponent mx ex ez ltac:(lia)) as Hex.
  destruct (shl_align mx ex ez) as [mx' ex']. cbn [fst snd] in *.
  pose proof (shl_align_digits my ey ez) as Hdy.
  pose proof (shl_align_exponent my ey ez ltac:(lia)) as Hey.
  destruct (shl_align my ey ez) as [my' ey']. cbn [fst snd] in *.
  change (Z.pos mx' + Z.pos my') with (Z.pos (mx' + my')). cbn [binary_normalize].
  eapply SFat_least_positive. apply binary_round_at_least.
  pose proof (digits2_pos_le my' (mx' + my') ltac:(lia)). lia.
Qed.

Lemma SFcompare_refl x : x <> S754_nan -> SFcompare x x = Some Eq.
Proof.
  destruct x as [s|[|]| |[|] m e]; cbn; try congruence; intros _;
    rewrite Z.compare_refl, Pos.compare_cont_refl; reflexivity.
Qed.

Lemma SFcompare_antisym x y :
  SFcompare y x = option_map CompOpp (SFcompare x y).
Proof.
  destruct x as [s|[|]| |[|] m e], y as [s'|[|]| |[|] m' e']; try reflexivity;
    cbn [SFcompare option_map]; rewrite (Z.compare_antisym e e');
    destruct (e ?= e'); cbn [CompOpp]; try reflexivity;
    change Eq with (CompOpp Eq) at 1; rewrite <- (Pos.compare_cont_antisym m m' Eq);
    reflexivity.
Qed.


(** The mantissa [shl_align] yields for a smaller exponent, as a number. *)
Lemma shl_align_mantissa m e e' :
  e' <= e -> Z.pos (fst (shl_align m e e')) = Z.pos m * 2 ^ (e - e').
Proof.
  intros Hle. unfold shl_align. destruct (e' - e) as [|d|d] eqn:Hd; cbn [fst].
  - replace (e - e') with 0 by lia. lia.
  - lia.
  - replace (e - e') with (Z.pos d) by lia.
    rewrite Pos2Nat.inj_iter, <- (positive_nat_Z d).
    induction (Pos.to_nat d) as [|n IH]; [simpl; lia|].
    cbn [nat_rect]. rewrite Nat2Z.inj_succ, Z.pow_succ_r by lia.
    rewrite Pos2Z.inj_xO, IH. lia.
Qed.

(** A finite double has at most 53 digits, and exactly 53 above the least
    exponent. *)
Lemma valid_finite_digits s m e :
  valid_binary (S754_finite s m e) = true ->
  - 1074 <= e /\ Z.pos (digits2_pos m) <= 53 /\ (- 1074 < e -> Z.pos (digits2_pos m) = 53).
Proof.
  cbn [SpecFloat.valid_binary]. unfold bounded, canonical_mantissa, fexp, emin, prec, emax.
  intros H. apply andb_prop in H as [H _]. apply Z.eqb_eq in H. lia.
Qed.

(** Of two finite doubles of one sign the one with the larger exponent, or
    with the larger mantissa at the same exponent, has the larger mantissa
    once both are aligned. *)
Lemma aligned_lt s m1 e1 s' m2 e2 :
  valid_binary (S754_finite s m1 e1) = true ->
  valid_binary (S754_finite s' m2 e2) = true ->
  e1 < e2 \/ (e1 = e2 /\ (m1 < m2)%positive) ->
  Z.pos (fst (shl_align m1 e1 (Z.min e1 e2))) < Z.pos (fst (shl_align m2 e2 (Z.min e1 e2))).
Proof.
  intros H1 H2 Hlt.
  apply valid_finite_digits in H1 as (Hmin1 & Hd1 & _), H2 as (_ & _ & Hd2).
  rewrite !shl_align_mantissa by lia.
  destruct Hlt as [Hlt|[-> Hlt]].
  - replace (Z.min e1 e2) with e1 by lia. replace (e1 - e1) with 0 by lia.
    rewrite Z.pow_0_r, Z.mul_1_r.
    pose proof (digits2_pos_bounds m1) as [_ Hm1].
    pose proof (digits2_pos_bounds m2) as [Hm2 _].
    rewrite Hd2 in Hm2 by lia.
    assert (2 ^ Z.pos (digits2_pos m1) <= 2 ^ 53) by (apply Z.pow_le_mono_r; lia).
    assert (2 ^ 1 <= 2 ^ (e2 - e1)) by (apply Z.pow_le_mono_r; lia).
    change (2 ^ (53 - 1)) with 4503599627370496 in Hm2.
    change (2 ^ 53) with 9007199254740992 in *. change (2 ^ 1) with 2 in *. nia.
  - replace (Z.min e2 e2) with e2 by lia. replace (e2 - e2) with 0 by lia.
    rewrite Z.pow_0_r. lia.
Qed.

(** The difference of a double and a smaller one is positive. *)
Lemma SFsub_positive x y :
  valid_binary x = true -> valid_binary y = true ->
  SFltb x y = true -> SFpositive (SFsub prec emax y x).
Proof.
  intros Hx Hy. unfold SFltb.
  destruct x as [s|[|]| |[|] m1 e1], y as [s'|[|]| |[|] m2 e2];
    cbn [SFcompare SFsub SFpositive negb]; try discriminate; try tauto.
  - (* both negative *)
    destruct (e1 ?= e2) eqn:He; try discriminate.
    + apply Z.compare_eq in He. subst e2.
      destruct (Pos.compare_cont Eq m1 m2) eqn:Hm; try discriminate. intros _.
      assert (Hgt : (m2 < m1)%positive).
      { apply Pos.compare_gt_iff. exact Hm. }
      pose proof (aligned_lt true m2 e1 true m1 e1 Hy Hx ltac:(auto)) as Hal.
      rewrite Z.min_id in *. cbn [cond_Zopp].
      pose proof (valid_finite_digits _ _ _ Hx) as (Hmin & _).
      set (a := fst (shl_align m1 e1 e1)) in *. set (b := fst (shl_align m2 e1 e1)) in *.
      destruct (- Z.pos b - - Z.pos a) as [|q|q] eqn:Hq; try lia.
      cbn [binary_normalize]. eapply SFat_least_positive, binary_round_at_least.
      pose proof (Pos2Z.is_pos (digits2_pos q)). lia.
    + rewrite Z.compare_gt_iff in He. intros _.
      pose proof (aligned_lt true m2 e2 true m1 e1 Hy Hx ltac:(auto)) as Hal.
      cbn [cond_Zopp].
      pose proof (valid_finite_digits _ _ _ Hy) as (Hmin & _).
      set (a := fst (shl_align m1 e1 (Z.min e2 e1))) in *.
      set (b := fst (shl_align m2 e2 (Z.min e2 e1))) in *.
      destruct (- Z.pos b - - Z.pos a) as [|q|q] eqn:Hq; try lia.
      cbn [binary_normalize]. eapply SFat_least_positive, binary_round_at_least.
      pose proof (Pos2Z.is_pos (digits2_pos q)). lia.
  - (* x negative, y positive *)
    intros _. cbn [cond_Zopp].
    pose proof (valid_finite_digits _ _ _ Hx) as (Hmin & _).
    pose proof (valid_finite_digits _ _ _ Hy) as (Hmin' & _).
    set (a := fst (shl_align m1 e1 (Z.min e2 e1))).
    set (b := fst (shl_align m2 e2 (Z.min e2 e1))).
    change (Z.pos b - - Z.pos a) with (Z.pos (b + a)). cbn [binary_normalize].
    eapply SFat_least_positive, binary_round_at_least.
    pose proof (Pos2Z.is_pos (digits2_pos (b + a))). lia.
  - (* both positive *)
    destruct (e1 ?= e2) eqn:He; try discriminate.
    + apply Z.compare_eq in He. subst e2.
      destruct (Pos.compare_cont Eq m1 m2) eqn:Hm; try discriminate. intros _.
      assert (Hlt : (m1 < m2)%positive) by exact Hm.
      pose proof (aligned_lt false m1 e1 false m2 e1 Hx Hy ltac:(auto)) as Hal.
      rewrite Z.min_id in *. cbn [cond_Zopp].
      pose proof (valid_finite_digits _ _ _ Hx) as (Hmin & _).
      set (a := fst (shl_align m1 e1 e1)) in *. set (b := fst (shl_align m2 e1 e1)) in *.
      destruct (Z.pos b - Z.pos a) as [|q|q] eqn:Hq; try lia.
      cbn [binary_normalize]. eapply SFat_least_positive, binary_round_at_least.
      pose proof (Pos2Z.is_pos (digits2_pos q)). lia.
    + rewrite Z.compare_lt_iff in He. intros _.
      pose proof (aligned_lt false m1 e1 false m2 e2 Hx Hy ltac:(auto)) as Hal.
      rewrite (Z.min_comm e2 e1). cbn [cond_Zopp].
      pose proof (valid_finite_digits _ _ _ Hx) as (Hmin & _).
      set (a := fst (shl_align m1 e1 (Z.min e1 e2))) in *.
      set (b := fst (shl_align m2 e2 (Z.min e1 e2))) in *.
      destruct (Z.pos b - Z.pos a) as [|q|q] eqn:Hq; try lia.
      cbn [binary_normalize]. eapply SFat_least_positive, binary_round_at_least.
      pose proof (Pos2Z.is_pos (digits2_pos q)). lia.
Qed.

End DoubleSpecification.

(** ** The calculator in double precision *)

Section DoublePrecision.
Import PrimFloat FloatOps SpecFloat FloatAxioms.
Import Binary64.
Local Open Scope float_scope.
#[local] Set Warnings "-inexact-float".

(** *** The same for the primitive doubles *)

Lemma double_positive_spec x : (0 <? x) = true <-> SFpositive (Prim2SF x).
Proof.
  rewrite ltb_spec. change (Prim2SF 0) with (S754_zero false).
  destruct (Prim2SF x) as [s|[|]| |[|] m e]; cbn; intuition discriminate.
Qed.

Lemma double_nonneg_spec x : (0 <=? x) = true <-> SFnonneg (Prim2SF x).
Proof.
  rewrite leb_spec. change (Prim2SF 0) with (S754_zero false).
  destruct (Prim2SF x) as [s|[|]| |[|] m e]; cbn; intuition discriminate.
Qed.









(** A double that is not negative plus a positive double is positive. *)
Lemma double_add_positive x y : (0 <=? x) = true -> (0 <? y) = true -> (0 <? x + y) = true.
Proof.
  rewrite double_nonneg_spec, !double_positive_spec, add_spec. intros Hx Hy.
  apply SFadd_positive; auto using Prim2SF_valid.
Qed.


Lemma double_nonneg_not_nan x : (0 <=? x) = true -> is_nan x = false.
Proof.
  intros Hx. apply double_nonneg_spec in Hx. unfold is_nan. rewrite eqb_spec. unfold SFeqb.
  rewrite SFcompare_refl; [reflexivity|]. intros E. now rewrite E in Hx.
Qed.

Lemma double_positive_nonneg x : (0 <? x) = true -> (0 <=? x) = true.
Proof.
  rewrite double_positive_spec, double_nonneg_spec.
  destruct (Prim2SF x) as [s|[|]| |[|] m e]; cbn; tauto.
Qed.

Lemma double_positive_not_zero x : (0 <? x) = true -> is_zero x = false.
Proof.
  rewrite double_positive_spec. unfold is_zero. rewrite eqb_spec.
  change (Prim2SF 0) with (S754_zero false).
  destruct (Prim2SF x) as [s|[|]| |[|] m e]; cbn; tauto.
Qed.


(** The difference of a double and a smaller one is positive. *)
Lemma double_sub_positive x y : (x <? y) = true -> (0 <? y - x) = true.
Proof.
  rewrite double_positive_spec, ltb_spec, sub_spec.
  apply SFsub_positive; apply Prim2SF_valid.
Qed.

(** Of two doubles, neither [NaN], the second is below the first or the
    first is not above the second. *)
Lemma double_leb_of_not_ltb x y :
  is_nan x = false -> is_nan y = false -> (y <? x) = false -> (x <=? y) = true.
Proof.
  unfold is_nan. rewrite !eqb_spec, ltb_spec, leb_spec. unfold SFeqb, SFltb, SFleb.
  rewrite (SFcompare_antisym (Prim2SF x) (Prim2SF y)).
  intros Hx Hy.
  destruct (SFcompare (Prim2SF x) (Prim2SF y)) as [[| |]|] eqn:E; cbn; try congruence.
  exfalso.
  destruct (Prim2SF x) as [s|[|]| |[|] m e], (Prim2SF y) as [s'|[|]| |[|] m' e'];
    cbn in *; discriminate.
Qed.

Lemma double_leb_refl x : is_nan x = false -> (x <=? x) = true.
Proof.
  unfold is_nan. rewrite eqb_spec, leb_spec. unfold SFeqb, SFleb.
  now destruct (SFcompare (Prim2SF x) (Prim2SF x)) as [[| |]|].
Qed.

(** [Math.min] of two positive doubles is positive and not above the
    second. *)
Lemma Binary64_Math_min_positive a c :
  (0 <? a) = true -> (0 <? c) = true ->
  (0 <? Math.min a c) = true /\ (Math.min a c <=? c) = true.
Proof.
  intros Ha Hc. unfold Math.min.
  pose proof (double_nonneg_not_nan a (double_positive_nonneg a Ha)) as Hna.
  pose proof (double_nonneg_not_nan c (double_positive_nonneg c Hc)) as Hnc.
  rewrite Hna, Hnc, (double_positive_not_zero a Ha). cbn [orb andb].
  destruct (c <? a) eqn:Hlt.
  - split; [exact Hc|]. now apply double_leb_refl.
  - split; [exact Ha|]. now apply double_leb_of_not_ltb.
Qed.


Lemma Binary64_Math_max_0 x :
  Math.max 0 x = if is_nan x then nan else if 0 <? x then x else 0.
Proof.
  unfold Math.max.
  change (is_nan 0) with false. change (get_sign 0) with false. cbn [orb].
  rewrite andb_false_r. reflexivity.
Qed.

(** [x / 0] is never a number: it is [Infinity], [-Infinity] or [NaN]. *)
Lemma Binary64_div_0 x : x / 0 = infinity \/ x / 0 = neg_infinity \/ x / 0 = nan.
Proof.
  rewrite <- (SF2Prim_Prim2SF (x / 0)), div_spec.
  change (Prim2SF 0) with (S754_zero false).
  destruct (Prim2SF x) as [s|s| |s m e]; try destruct s; cbn; auto.
Qed.

Lemma Binary64_calculateMarginalTaxRate_total taxableIncome taxLawConfig filingStatus :
  TaxLawConfiguration.taxBrackets taxLawConfig filingStatus <> [] ->
  exists rate, calculateMarginalTaxRate taxableIncome taxLawConfig filingStatus = Some rate.
Proof.
  intros Hne. unfold calculateMarginalTaxRate.
  destruct (calculateMarginalTaxRate_for _ _) as [rate|]; [now exists rate|].
  destruct (TaxLawConfiguration.taxBrackets taxLawConfig filingStatus) as [|b l] eqn:E;
    [congruence|].
  destruct (last (b :: l)) as [top|] eqn:Hlast; [now eexists|].
  apply last_None in Hlast. discriminate.
Qed.

Lemma Binary64_calculateTax_steps_total taxReturn taxLawConfig :
  TaxLawConfiguration.taxBrackets taxLawConfig (TaxReturn.filingStatus taxReturn) <> [] ->
  exists calculation, calculateTax_steps taxReturn taxLawConfig = Some calculation.
Proof.
  intros Hne.
  destruct (Binary64_calculateMarginalTaxRate_total
              (taxableIncome_of taxReturn taxLawConfig) taxLawConfig _ Hne) as [rate Hrate].
  unfold calculateTax_steps.
  change (calculateTaxableIncome _ _ _ _) with (taxableIncome_of taxReturn taxLawConfig).
  rewrite Hrate. destruct (num_gt _ _); eexists; reflexivity.
Qed.

Lemma Binary64_calculateTax_steps_effectiveTaxRate taxReturn taxLawConfig calculation :
  calculateTax_steps taxReturn taxLawConfig = Some calculation ->
  TaxCalculation.effectiveTaxRate calculation
  = roundToFourDec
      (if num_gt (adjustedGrossIncome_of taxReturn) 0
       then totalTaxLiability_of taxReturn taxLawConfig / adjustedGrossIncome_of taxReturn
       else 0).
Proof.
  unfold calculateTax_steps. intros H.
  destruct (calculateMarginalTaxRate _ _ _) as [rate|];
    [|destruct (num_gt (_ + 0) _); discriminate].
  destruct (num_gt (calculateTotalWithholding _ + 0) _); injection H as <-; reflexivity.
Qed.

(** The double-precision calculator evaluated on sample returns, among them
    returns whose amounts fall on a half cent or just beside a threshold. *)
Example Binary64_single_filer_wages_60000 :
  calculateTax single_filer_wages_60000 (Some getTaxYear2024Configuration)
  = Success
      (TaxCalculation.mk 60000 60000 45400 5295.5 0 5295.5 0 5295.5 5000 0 0 295.5 0.0883 0.22)
      TaxCalculationCompleted.
Proof. vm_compute. reflexivity. Qed.

(** Net profits of 139.00, 212.23, 17.35 and 31.42 add up to
    400.00000000000006. *)
Example Binary64_sum_just_above_400 :
  reduce_sum SelfEmploymentIncome.netProfit
    (IncomeData.selfEmployment (self_employed four_net_profits))
  = 400.00000000000006.
Proof. vm_compute. reflexivity. Qed.

(** A liability at half a cent: one business with a net profit of 70000 owes
    17386.18, and one with 150000 pays 21194.32 of self-employment tax. *)
Example Binary64_half_cents :
  (exists calculation,
     calculateTax (single_filer_2024 (self_employed [70000]) [])
       (Some getTaxYear2024Configuration)
     = Success calculation TaxCalculationCompleted
     /\ TaxCalculation.amountOwed calculation = 17386.18)
  /\ (exists calculation,
        calculateTax (single_filer_2024 (self_employed [150000]) [])
          (Some getTaxYear2024Configuration)
        = Success calculation TaxCalculationCompleted
        /\ TaxCalculation.selfEmploymentTax calculation = 21194.32).
Proof. split; eexists; (split; [vm_compute; reflexivity|]); vm_compute; reflexivity. Qed.




(** C9, as stated, fails: for the single filer with wages of 60000 the
    returned rate is 0.0883, which is neither the quotient of the liability
    and the adjusted gross income as computed (0.08825833333333333), nor that
    of the two returned fields. *)
Lemma effective_rate_differs_from_quotient :
  exists calculation,
    calculateTax single_filer_wages_60000 (Some getTaxYear2024Configuration)
    = Success calculation TaxCalculationCompleted
    /\ (0 <? adjustedGrossIncome_of single_filer_wages_60000) = true
    /\ TaxCalculation.effectiveTaxRate calculation = 0.0883
    /\ totalTaxLiability_of single_filer_wages_60000 getTaxYear2024Configuration
       / adjustedGrossIncome_of single_filer_wages_60000
       = 0.08825833333333333
    /\ TaxCalculation.totalTaxLiability calculation
       / TaxCalculation.adjustedGrossIncome calculation
       = 0.08825833333333333
    /\ (0.0883 =? 0.08825833333333333) = false.
Proof.
  eexists. split; [vm_compute; reflexivity|].
  repeat split; vm_compute; reflexivity.
Qed.

(** C9 (amended). Under a configuration whose bracket list for the filing
    status is not empty [calculateTax] succeeds, also for an adjusted gross
    income of 0.  The adjusted gross income is above 0, or 0, or not a number;
    above 0, the returned [effectiveTaxRate] is the quotient of the total tax
    liability and the adjusted gross income, both as computed before
    rounding, rounded to four decimals by [Math.round(x * 10000) / 10000];
    otherwise the guard makes it 0, where the quotient itself would be
    [Infinity], [-Infinity] or [NaN]. *)
Theorem effective_tax_rate_guarded taxReturn taxLawConfig :
  TaxLawConfiguration.taxBrackets taxLawConfig (TaxReturn.filingStatus taxReturn) <> [] ->
  let adjustedGrossIncome := adjustedGrossIncome_of taxReturn in
  let totalTaxLiability := totalTaxLiability_of taxReturn taxLawConfig in
  exists calculation,
    calculateTax taxReturn (Some taxLawConfig) = Success calculation TaxCalculationCompleted
    /\ ((0 <? adjustedGrossIncome) = true
        \/ adjustedGrossIncome = 0 \/ adjustedGrossIncome = nan)
    /\ ((0 <? adjustedGrossIncome) = true ->
        TaxCalculation.effectiveTaxRate calculation
        = roundToFourDec (totalTaxLiability / adjustedGrossIncome))
    /\ ((0 <? adjustedGrossIncome) = false ->
        TaxCalculation.effectiveTaxRate calculation = 0)
    /\ (adjustedGrossIncome = 0 ->
        TaxCalculation.effectiveTaxRate calculation = 0
        /\ (totalTaxLiability / adjustedGrossIncome = infinity
            \/ totalTaxLiability / adjustedGrossIncome = neg_infinity
            \/ totalTaxLiability / adjustedGrossIncome = nan)).
Proof.
  intros Hne agi L.
  destruct (Binary64_calculateTax_steps_total _ _ Hne) as [calculation Hsteps].
  exists calculation.
  unfold calculateTax. rewrite Hsteps. split; [reflexivity|].
  rewrite (Binary64_calculateTax_steps_effectiveTaxRate _ _ _ Hsteps).
  fold agi L. unfold num_gt.
  split.
  { unfold agi, adjustedGrossIncome_of, calculateAdjustedGrossIncome.
    rewrite Binary64_Math_max_0.
    destruct (is_nan _); [right; right; reflexivity|].
    set (x := calculateGrossIncome _ - _).
    destruct (0 <? x) eqn:E; [left; exact E|right; left; reflexivity]. }
  split; [intros ->; reflexivity|].
  split; [intros ->; reflexivity|].
  intros Hzero. rewrite Hzero. split; [reflexivity|apply Binary64_div_0].
Qed.

Lemma effective_tax_rate_guarded_witness :
  (exists calculation,
     calculateTax (single_filer_2024 no_income []) (Some getTaxYear2024Configuration)
     = Success calculation TaxCalculationCompleted
     /\ TaxCalculation.effectiveTaxRate calculation = 0)
  /\ (exists calculation,
        calculateTax (single_filer_2024 (employed 20000 0) [47])
          (Some getTaxYear2024Configuration)
        = Success calculation TaxCalculationCompleted
        /\ TaxCalculation.effectiveTaxRate calculation = 0.0246).
Proof.
  split.
  - destruct (effective_tax_rate_guarded (single_filer_2024 no_income [])
                getTaxYear2024Configuration) as (calculation & Hrun & _ & _ & _ & Hzero);
      [discriminate|].
    exists calculation. split; [exact Hrun|]. apply Hzero. reflexivity.
  - destruct (effective_tax_rate_guarded (single_filer_2024 (employed 20000 0) [47])
                getTaxYear2024Configuration) as (calculation & Hrun & _ & Hrate & _);
      [discriminate|].
    exists calculation. split; [exact Hrun|].
    rewrite Hrate by reflexivity. vm_compute. reflexivity.
Defined.

End DoublePrecision.

(** ** Failure causes of the registry *)

Lemma getTaxLawConfiguration_unavailable taxYear w :
  configCache w !! taxYear = None ->
  reachable (db w) = false ->
  getTaxLawConfiguration taxYear w
  = (None, mkWorld (configCache w) (db w)
             (logged w ++ [(ERROR, Failed_to_get_tax_law_configuration taxYear)])).
Proof.
  intros Hmiss Hdown.
  unfold getTaxLawConfiguration, bind, cache_get, query_select, log, ret.
  rewrite Hmiss, Hdown. reflexivity.
Qed.

Lemma getTaxLawConfiguration_missing taxYear w :
  configCache w !! taxYear = None ->
  reachable (db w) = true ->
  tax_law_configurations (db w) !! taxYear = None ->
  getTaxLawConfiguration taxYear w
  = (None, mkWorld (configCache w) (db w)
             (logged w ++ [(WARN, Tax_law_configuration_not_found taxYear)])).
Proof.
  intros Hmiss Hup Hnone.
  unfold getTaxLawConfiguration, bind, cache_get, query_select, log, ret.
  rewrite Hmiss, Hup, Hnone. reflexivity.
Qed.

(** C6, as stated, fails: for a 2024 return the caller gets the same response
    from a store that cannot be reached and from a reachable store without a
    row for 2024. *)
Lemma store_unavailable_looks_like_missing :
  reachable (db (empty_world false)) = false
  /\ reachable (db (empty_world true)) = true
  /\ tax_law_configurations (db (empty_world true)) !! 2024%Z = None
  /\ fst (calculateTax single_filer_wages_60000 (empty_world false))
     = fst (calculateTax single_filer_wages_60000 (empty_world true)).
Proof. repeat split. Qed.

(** C6 (amended). On a cache miss, a store that cannot be reached and a
    reachable store without a row for the year give the caller of
    [calculateTax] the same response, code [INTERNAL_ERROR] with the message
    that the configuration was not found for the year; the cache and the store
    are left as they were, and the two causes differ only in the line the
    registry logs. *)
Theorem store_unavailable_and_missing_same_response taxReturn unavailable missing :
  let taxYear := TaxReturn.taxYear taxReturn in
  configCache unavailable !! taxYear = None ->
  reachable (db unavailable) = false ->
  configCache missing !! taxYear = None ->
  reachable (db missing) = true ->
  tax_law_configurations (db missing) !! taxYear = None ->
  calculateTax taxReturn unavailable
  = (Failure INTERNAL_ERROR (TaxLawConfigurationNotFoundForYear taxYear),
     mkWorld (configCache unavailable) (db unavailable)
       (logged unavailable ++ [(ERROR, Failed_to_get_tax_law_configuration taxYear)]))
  /\ calculateTax taxReturn missing
     = (Failure INTERNAL_ERROR (TaxLawConfigurationNotFoundForYear taxYear),
        mkWorld (configCache missing) (db missing)
          (logged missing ++ [(WARN, Tax_law_configuration_not_found taxYear)]))
  /\ fst (calculateTax taxReturn unavailable) = fst (calculateTax taxReturn missing).
Proof.
  intros taxYear Hmiss1 Hdown Hmiss2 Hup Hnone.
  assert (H1 : calculateTax taxReturn unavailable
               = (Failure INTERNAL_ERROR (TaxLawConfigurationNotFoundForYear taxYear),
                  mkWorld (configCache unavailable) (db unavailable)
                    (logged unavailable
                     ++ [(ERROR, Failed_to_get_tax_law_configuration taxYear)]))).
  { unfold calculateTax, bind. fold taxYear.
    now rewrite getTaxLawConfiguration_unavailable. }
  assert (H2 : calculateTax taxReturn missing
               = (Failure INTERNAL_ERROR (TaxLawConfigurationNotFoundForYear taxYear),
                  mkWorld (configCache missing) (db missing)
                    (logged missing ++ [(WARN, Tax_law_configuration_not_found taxYear)]))).
  { unfold calculateTax, bind. fold taxYear.
    now rewrite getTaxLawConfiguration_missing. }
  split; [exact H1|]. split; [exact H2|]. now rewrite H1, H2.
Qed.

Lemma store_unavailable_and_missing_same_response_witness :
  fst (calculateTax single_filer_wages_60000 (empty_world false))
  = fst (calculateTax single_filer_wages_60000 (empty_world true)).
Proof.
  apply (store_unavailable_and_missing_same_response single_filer_wages_60000
           (empty_world false) (empty_world true)); reflexivity.
Defined.

(** ** The marginal rate and the adjusted gross income *)

Lemma calculateMarginalTaxRate_total taxableIncome taxLawConfig filingStatus :
  TaxLawConfiguration.taxBrackets taxLawConfig filingStatus <> [] ->
  is_Some (calculateMarginalTaxRate taxableIncome taxLawConfig filingStatus).
Proof.
  intros Hne. unfold calculateMarginalTaxRate.
  destruct (calculateMarginalTaxRate_for _ _); [eauto|].
  destruct (TaxLawConfiguration.taxBrackets taxLawConfig filingStatus) as [|b l] eqn:E;
    [contradiction|].
  rewrite last_cons. destruct (last l); eauto.
Qed.

Lemma adjustedGrossIncome_of_nonneg taxReturn : 0 <= adjustedGrossIncome_of taxReturn.
Proof.
  unfold adjustedGrossIncome_of, calculateAdjustedGrossIncome. math_cases; lra.
Qed.

(** ** The advisor *)

Section SortBySavings.
Variable A : Type.
Variable key : A -> Q.
Local Abbreviation by_key_descending := (fun a b : A => key b - key a).

Lemma Array_sort_insert_perm a (sorted : list A) :
  Permutation (Array_sort_insert by_key_descending a sorted) (a :: sorted).
Proof.
  induction sorted as [|b sorted IH]; simpl.
  - reflexivity.
  - destruct (num_gt _ 0); [|reflexivity].
    rewrite IH. apply perm_swap.
Qed.

Lemma Array_sort_perm (arr : list A) : Permutation (Array_sort by_key_descending arr) arr.
Proof.
  induction arr as [|a arr IH]; simpl.
  - reflexivity.
  - rewrite Array_sort_insert_perm. now constructor.
Qed.

Lemma Array_sort_insert_sorted a (sorted : list A) :
  StronglySorted (fun x y => key y <= key x) sorted ->
  StronglySorted (fun x y => key y <= key x) (Array_sort_insert by_key_descending a sorted).
Proof.
  induction 1 as [|b sorted Hsorted IH Hb]; simpl.
  - repeat constructor.
  - destruct (num_gt _ 0) eqn:Hgt; num_facts.
    + constructor; [exact IH|].
      rewrite Array_sort_insert_perm. constructor; [lra|exact Hb].
    + constructor; [now constructor|].
      constructor; [lra|].
      eapply Forall_impl; [exact Hb|]. simpl. intros c Hc. lra.
Qed.

Lemma Array_sort_sorted (arr : list A) :
  StronglySorted (fun x y => key y <= key x) (Array_sort by_key_descending arr).
Proof.
  induction arr as [|a arr IH]; simpl.
  - constructor.
  - now apply Array_sort_insert_sorted.
Qed.

(** Stability: the elements of one key keep their order. *)
Lemma Array_sort_insert_stable v a (sorted : list A) :
  List.filter (fun x => num_eq (key x) v) (Array_sort_insert by_key_descending a sorted)
  = List.filter (fun x => num_eq (key x) v) (a :: sorted).
Proof.
  induction sorted as [|b sorted IH].
  - reflexivity.
  - simpl Array_sort_insert. destruct (num_gt _ 0) eqn:Hgt; [|reflexivity].
    simpl in IH |- *. rewrite IH.
    destruct (num_eq (key a) v) eqn:Ea, (num_eq (key b) v) eqn:Eb; try reflexivity.
    num_facts. lra.
Qed.

Lemma Array_sort_stable v (arr : list A) :
  List.filter (fun x => num_eq (key x) v) (Array_sort by_key_descending arr)
  = List.filter (fun x => num_eq (key x) v) arr.
Proof.
  induction arr as [|a arr IH].
  - reflexivity.
  - simpl Array_sort. rewrite Array_sort_insert_stable. simpl. now rewrite IH.
Qed.

Lemma reduce_sum_from (arr : list A) (start : Q) :
  fold_left (fun sum x => sum + key x) arr start == start + total (map key arr).
Proof.
  revert start. induction arr as [|a arr IH]; intros start; simpl.
  - lra.
  - rewrite IH. unfold total. lra.
Qed.

Lemma reduce_sum_total (arr : list A) : reduce_sum key arr == total (map key arr).
Proof. unfold reduce_sum. rewrite reduce_sum_from. lra. Qed.

Lemma total_perm (arr arr' : list A) :
  Permutation arr arr' -> total (map key arr) == total (map key arr').
Proof.
  induction 1; simpl; lra.
Qed.
End SortBySavings.

Lemma calculateStandardDeduction_lookup taxYear filingStatus w :
  calculateStandardDeduction taxYear filingStatus w
  = (match fst (getTaxLawConfiguration taxYear w) with
     | Some taxLawConfig => TaxLawConfiguration.standardDeductions taxLawConfig filingStatus
     | None => 0
     end, snd (getTaxLawConfiguration taxYear w)).
Proof.
  unfold calculateStandardDeduction, bind, ret.
  now destruct (getTaxLawConfiguration taxYear w).
Qed.

(** C7. [optimizeDeductions] always succeeds; its recommendations are the
    pushed ones in descending order of [potentialSavings], those of equal
    savings in the order the rules pushed them, and the aggregate
    [potentialSavings] is the sum of the recommendations' savings. *)
Theorem recommendations_sorted_stable_and_summed taxReturn w :
  exists data,
    fst (optimizeDeductions taxReturn w) = Success data DeductionOptimizationCompleted
    /\ StronglySorted savings_not_below (DeductionOptimization.recommendations data)
    /\ Permutation (DeductionOptimization.recommendations data)
         (pushedRecommendations taxReturn)
    /\ (forall savings,
          with_savings savings (DeductionOptimization.recommendations data)
          = with_savings savings (pushedRecommendations taxReturn))
    /\ DeductionOptimization.potentialSavings data
       == total (map DeductionRecommendation.potentialSavings
                   (DeductionOptimization.recommendations data)).
Proof.
  unfold optimizeDeductions, calculateItemizedVsStandard, bind, ret.
  rewrite calculateStandardDeduction_lookup.
  rewrite calculateStandardDeduction_lookup.
  eexists. split; [reflexivity|]. simpl.
  unfold generateDeductionRecommendations. split; [|split; [|split]].
  - apply Array_sort_sorted.
  - apply Array_sort_perm.
  - intros savings. apply Array_sort_stable.
  - apply reduce_sum_total.
Qed.

(** C8, as stated, fails: for a return with a business the business rule
    contributes three recommendations. *)
Lemma business_rule_contributes_three :
  length (analyzeBusinessDeductions self_employed_return) = 3%nat
  /\ ~ (length (analyzeBusinessDeductions self_employed_return) <= 1)%nat.
Proof. split; [reflexivity|]. simpl. lia. Qed.

Lemma length_push_if {A} (recommendations : list A) (condition : bool) (r : A) :
  length (if condition then recommendations ++ [r] else recommendations)
  = (length recommendations + (if condition then 1 else 0))%nat.
Proof. destruct condition; [rewrite length_app|]; simpl; lia. Qed.

(** C8 (amended). The state-and-local-tax, mortgage-interest and charitable
    rules contribute zero or one recommendation each; the medical and the
    education rule zero, one or two; the business rule zero or three; the
    retirement rule one or two.  The list of
    [generateDeductionRecommendations] holds exactly these contributions: it
    is a rearrangement of the outputs of the seven rules put one after the
    other, so it has as many entries as they have together. *)
Theorem recommendations_per_rule taxReturn :
  (length (analyzeMedicalDeductions taxReturn) <= 2)%nat
  /\ (length (analyzeStateLocalTaxDeductions taxReturn) <= 1)%nat
  /\ (length (analyzeMortgageInterestDeductions taxReturn) <= 1)%nat
  /\ (length (analyzeCharitableDeductions taxReturn) <= 1)%nat
  /\ (length (analyzeBusinessDeductions taxReturn) = 0%nat
      \/ length (analyzeBusinessDeductions taxReturn) = 3%nat)
  /\ (length (analyzeEducationDeductions taxReturn) <= 2)%nat
  /\ (length (analyzeRetirementDeductions taxReturn) = 1%nat
      \/ length (analyzeRetirementDeductions taxReturn) = 2%nat)
  /\ Permutation (generateDeductionRecommendations taxReturn)
       (analyzeMedicalDeductions taxReturn
        ++ analyzeStateLocalTaxDeductions taxReturn
        ++ analyzeMortgageInterestDeductions taxReturn
        ++ analyzeCharitableDeductions taxReturn
        ++ analyzeBusinessDeductions taxReturn
        ++ analyzeEducationDeductions taxReturn
        ++ analyzeRetirementDeductions taxReturn)
  /\ length (generateDeductionRecommendations taxReturn)
     = (length (analyzeMedicalDeductions taxReturn)
        + length (analyzeStateLocalTaxDeductions taxReturn)
        + length (analyzeMortgageInterestDeductions taxReturn)
        + length (analyzeCharitableDeductions taxReturn)
        + length (analyzeBusinessDeductions taxReturn)
        + length (analyzeEducationDeductions taxReturn)
        + length (analyzeRetirementDeductions taxReturn))%nat.
Proof.
  assert (Hpushed : Permutation (generateDeductionRecommendations taxReturn)
            (analyzeMedicalDeductions taxReturn
             ++ analyzeStateLocalTaxDeductions taxReturn
             ++ analyzeMortgageInterestDeductions taxReturn
             ++ analyzeCharitableDeductions taxReturn
             ++ analyzeBusinessDeductions taxReturn
             ++ analyzeEducationDeductions taxReturn
             ++ analyzeRetirementDeductions taxReturn)).
  { unfold generateDeductionRecommendations. rewrite Array_sort_perm.
    unfold pushedRecommendations. cbv zeta. rewrite app_nil_l, <- !app_assoc.
    reflexivity. }
  split; [|split; [|split; [|split; [|split; [|split; [|split; [|split]]]]]]].
  - unfold analyzeMedicalDeductions. cbv zeta.
    rewrite length_push_if. destruct (num_gt _ 50000), (num_lt _ _); simpl; lia.
  - unfold analyzeStateLocalTaxDeductions. cbv zeta. destruct (num_lt _ _); simpl; lia.
  - unfold analyzeMortgageInterestDeductions. cbv zeta. destruct (_ && _); simpl; lia.
  - unfold analyzeCharitableDeductions. cbv zeta. destruct (num_lt _ _); simpl; lia.
  - unfold analyzeBusinessDeductions. cbv zeta. destruct (Nat.ltb _ _); simpl; auto.
  - unfold analyzeEducationDeductions. cbv zeta.
    rewrite length_push_if. destruct (num_lt _ 80000), (num_lt _ 85000); simpl; lia.
  - unfold analyzeRetirementDeductions. cbv zeta.
    rewrite length_push_if. destruct (num_lt _ 100000); simpl; auto.
  - exact Hpushed.
  - rewrite (Permutation_length Hpushed), !length_app. lia.
Qed.

(** ** The advisor leaves its argument alone *)

Lemma read_TaxReturn_Some heap taxReturn value :
  read_TaxReturn heap taxReturn = Some value ->
  exists o d,
    heap !! taxReturn = Some (TaxReturn_object o)
    /\ heap !! TaxReturnObject.deductions o = Some (DeductionData_object d)
    /\ value = TaxReturn.mk (TaxReturnObject.id o) (TaxReturnObject.taxYear o)
                 (TaxReturnObject.filingStatus o) (TaxReturnObject.income o) d
                 (TaxReturnObject.credits o) (TaxReturnObject.calculations o).
Proof.
  unfold read_TaxReturn. intros H.
  destruct (heap !! taxReturn) as [[o|?]|]; try discriminate.
  destruct (heap !! TaxReturnObject.deductions o) as [[?|d]|] eqn:Hd; try discriminate.
  injection H as <-. exists o, d. auto.
Qed.

Lemma fresh_not_allocated (heap : gmap ref Object) r :
  is_Some (heap !! r) -> r <> fresh (dom heap).
Proof.
  intros Hr ->. apply elem_of_dom in Hr. exact (is_fresh (dom heap) Hr).
Qed.

(** The heap after lines 349-355: two new objects, the copy of the return
    and the copy of its deductions with the raised total; nothing else is
    written. *)
Lemma modifiedTaxReturn_of_heap heap taxReturn proposedDeductions o d :
  heap !! taxReturn = Some (TaxReturn_object o) ->
  heap !! TaxReturnObject.deductions o = Some (DeductionData_object d) ->
  exists modifiedTaxReturn deductions heap',
    modifiedTaxReturn_of heap taxReturn proposedDeductions = Some (modifiedTaxReturn, heap')
    /\ heap !! modifiedTaxReturn = None
    /\ heap !! deductions = None
    /\ modifiedTaxReturn <> deductions
    /\ heap' !! modifiedTaxReturn
       = Some (TaxReturn_object
                 (TaxReturnObject.mk (TaxReturnObject.id o) (TaxReturnObject.taxYear o)
                    (TaxReturnObject.filingStatus o) (TaxReturnObject.income o)
                    deductions
                    (TaxReturnObject.credits o) (TaxReturnObject.calculations o)))
    /\ heap' !! deductions
       = Some (DeductionData_object
                 (DeductionData.mk (DeductionData.standardDeduction d)
                    (DeductionData.itemizedDeductions d)
                    (DeductionData.totalItemizedDeductions d
                     + reduce_sum ProposedDeduction.amount proposedDeductions)
                    (DeductionData.adjustments d)))
    /\ forall r, r <> modifiedTaxReturn -> r <> deductions -> heap' !! r = heap !! r.
Proof.
  intros Ho Hd.
  set (m := fresh (dom heap)).
  set (heap1 := <[m := TaxReturn_object o]> heap).
  set (c := fresh (dom heap1)).
  assert (Hm : heap !! m = None) by (apply not_elem_of_dom, is_fresh).
  assert (Hc1 : heap1 !! c = None) by (apply not_elem_of_dom, is_fresh).
  assert (Hmc : m <> c).
  { intros E. rewrite <- E in Hc1. unfold heap1 in Hc1.
    rewrite lookup_insert_eq in Hc1. discriminate. }
  assert (Hc : heap !! c = None).
  { unfold heap1 in Hc1. now rewrite lookup_insert_ne in Hc1. }
  assert (Hmt : m <> taxReturn) by (intros E; rewrite E in Hm; congruence).
  assert (Hmd : m <> TaxReturnObject.deductions o) by (intros E; rewrite E in Hm; congruence).
  exists m, c. eexists. split.
  { unfold modifiedTaxReturn_of, spread. rewrite Ho. fold m heap1.
    unfold heap1 at 1. rewrite lookup_insert_ne by exact Hmt. rewrite Ho.
    unfold heap1 at 1. rewrite lookup_insert_ne by exact Hmd. rewrite Hd. fold c.
    unfold set_deductions.
    rewrite lookup_insert_ne by (intros E; now apply Hmc).
    unfold heap1 at 1. rewrite lookup_insert_eq.
    unfold add_totalItemizedDeductions. rewrite lookup_insert_eq. simpl.
    rewrite lookup_insert_ne by exact Hmc. rewrite lookup_insert_eq.
    reflexivity. }
  split; [|split; [|split; [|split; [|split]]]].
  - exact Hm.
  - exact Hc.
  - exact Hmc.
  - rewrite lookup_insert_ne by (intros E; now apply Hmc). now rewrite lookup_insert_eq.
  - now rewrite lookup_insert_eq.
  - intros r Hrm Hrc. unfold heap1.
    now rewrite !lookup_insert_ne by congruence.
Qed.

(** C10. For a reference that denotes a tax return, [analyzeDeductionStrategy]
    returns a result, and every object that was in the heap before the call,
    the return and its deductions among them, is the same after it: the
    raised [totalItemizedDeductions] lives in a copy. *)
Theorem analyzeDeductionStrategy_leaves_return_unchanged
    taxReturn proposedDeductions heap w before :
  read_TaxReturn heap taxReturn = Some before ->
  exists strategy heap',
    fst (analyzeDeductionStrategy taxReturn proposedDeductions heap w)
    = Some (strategy, heap')
    /\ (forall r, is_Some (heap !! r) -> heap' !! r = heap !! r)
    /\ read_TaxReturn heap' taxReturn = Some before.
Proof.
  intros Hread.
  destruct (read_TaxReturn_Some _ _ _ Hread) as (o & d & Ho & Hd & Hbefore).
  destruct (modifiedTaxReturn_of_heap heap taxReturn proposedDeductions o d Ho Hd)
    as (m & c & heap' & Hcopy & Hm & Hc & Hmc & Hm' & Hc' & Hframe).
  assert (Hkept : forall r, is_Some (heap !! r) -> heap' !! r = heap !! r).
  { intros r [x Hx]. apply Hframe; intros ->; congruence. }
  assert (Hread' : read_TaxReturn heap' taxReturn = Some before).
  { unfold read_TaxReturn. rewrite (Hkept taxReturn), Ho by eauto.
    rewrite (Hkept (TaxReturnObject.deductions o)), Hd by eauto. now rewrite Hbefore. }
  unfold analyzeDeductionStrategy. rewrite Hread. unfold bind at 1.
  destruct (calculateTax before w) as [currentCalculation w1].
  rewrite Hcopy, Hread'.
  unfold read_TaxReturn at 1 2. rewrite Hm'. simpl. rewrite Hc'.
  unfold bind, ret.
  destruct (calculateTax _ w1) as [newCalculation w2].
  destruct (calculateStandardDeduction _ _ w2) as [standardDeduction w3].
  simpl. eauto.
Qed.

Lemma analyzeDeductionStrategy_leaves_return_unchanged_witness :
  exists strategy heap',
    fst (analyzeDeductionStrategy 1%positive [ProposedDeduction.mk "charity" 20000]
           single_filer_heap seeded_world)
    = Some (strategy, heap')
    /\ (forall r, is_Some (single_filer_heap !! r) -> heap' !! r = single_filer_heap !! r)
    /\ read_TaxReturn heap' 1%positive = Some single_filer_wages_60000.
Proof.
  apply analyzeDeductionStrategy_leaves_return_unchanged.
  vm_compute. reflexivity.
Defined.

(** * Further properties of the code *)

(** ** The registry *)

(** What a lookup does to the world, whatever its outcome. *)
Lemma getTaxLawConfiguration_effect taxYear w :
  let result := fst (getTaxLawConfiguration taxYear w) in
  let w' := snd (getTaxLawConfiguration taxYear w) in
  db w' = db w
  /\ (result = None -> configCache w' = configCache w)
  /\ (forall config, result = Some config ->
        configCache w' !! taxYear = Some config
        /\ forall other, other <> taxYear -> configCache w' !! other = configCache w !! other).
Proof.
  unfold getTaxLawConfiguration, bind, cache_get, query_select, cache_set, log, ret.
  destruct (configCache w !! taxYear) as [cached|] eqn:Hcache; simpl.
  - split; [reflexivity|]. split; [discriminate|].
    intros c [= <-]. auto.
  - destruct (reachable (db w)); simpl.
    + destruct (tax_law_configurations (db w) !! taxYear) as [row|]; simpl.
      * split; [reflexivity|]. split; [discriminate|].
        intros c [= <-]. split.
        -- apply lookup_insert_eq.
        -- intros other Hother. now apply lookup_insert_ne.
      * split; [reflexivity|]. split; [reflexivity|]. discriminate.
    + split; [reflexivity|]. split; [reflexivity|]. discriminate.
Qed.

(** The outcome of a lookup: the cached configuration, else the row of a
    reachable store. *)
Lemma getTaxLawConfiguration_result taxYear w :
  fst (getTaxLawConfiguration taxYear w)
  = match configCache w !! taxYear with
    | Some config => Some config
    | None => if reachable (db w) then tax_law_configurations (db w) !! taxYear else None
    end.
Proof.
  unfold getTaxLawConfiguration, bind, cache_get, query_select, cache_set, log, ret.
  destruct (configCache w !! taxYear); simpl; [reflexivity|].
  destruct (reachable (db w)); simpl; [|reflexivity].
  now destruct (tax_law_configurations (db w) !! taxYear).
Qed.

Lemma getTaxLawConfiguration_result_ext taxYear w1 w2 :
  configCache w1 = configCache w2 ->
  db w1 = db w2 ->
  fst (getTaxLawConfiguration taxYear w1) = fst (getTaxLawConfiguration taxYear w2).
Proof. intros Hcache Hdb. now rewrite !getTaxLawConfiguration_result, Hcache, Hdb. Qed.

(** X1. A stored update can be read back: when the store is reachable,
    [updateTaxLawConfiguration] answers [true], stores the row under the
    configuration's year, and the next [getTaxLawConfiguration] for that year
    returns the configuration from the cache without touching the world;
    cache entries of other years stay as they were. *)
Theorem update_then_get config w :
  reachable (db w) = true ->
  let taxYear := TaxLawConfiguration.taxYear config in
  let w' := snd (updateTaxLawConfiguration config w) in
  fst (updateTaxLawConfiguration config w) = true
  /\ tax_law_configurations (db w') !! taxYear = Some config
  /\ getTaxLawConfiguration taxYear w' = (Some config, w')
  /\ forall other, other <> taxYear -> configCache w' !! other = configCache w !! other.
Proof.
  intros Hup taxYear.
  unfold updateTaxLawConfiguration, bind, query_upsert, cache_set, log, ret.
  rewrite Hup. simpl. fold taxYear. split; [reflexivity|].
  split; [apply lookup_insert_eq|]. split.
  - unfold getTaxLawConfiguration, bind, cache_get, ret. simpl.
    now rewrite lookup_insert_eq.
  - intros other Hother. now apply lookup_insert_ne.
Qed.

Lemma update_then_get_witness :
  getTaxLawConfiguration 2024 (snd (updateTaxLawConfiguration getTaxYear2024Configuration
                                      (empty_world true)))
  = (Some getTaxYear2024Configuration,
     snd (updateTaxLawConfiguration getTaxYear2024Configuration (empty_world true))).
Proof.
  apply (update_then_get getTaxYear2024Configuration (empty_world true)). reflexivity.
Defined.

(** X2. An update that the store rejects changes nothing but the log:
    [updateTaxLawConfiguration] answers [false], and cache and store are as
    before, so the year keeps being served as it was. *)
Theorem update_on_unreachable_store config w :
  reachable (db w) = false ->
  let taxYear := TaxLawConfiguration.taxYear config in
  let w' := snd (updateTaxLawConfiguration config w) in
  fst (updateTaxLawConfiguration config w) = false
  /\ configCache w' = configCache w
  /\ db w' = db w
  /\ logged w' = logged w ++ [(ERROR, Failed_to_update_tax_law_configuration taxYear)]
  /\ fst (getTaxLawConfiguration taxYear w') = fst (getTaxLawConfiguration taxYear w).
Proof.
  intros Hdown taxYear.
  unfold updateTaxLawConfiguration, bind, query_upsert, log, ret.
  rewrite Hdown. simpl. repeat split.
  now apply getTaxLawConfiguration_result_ext.
Qed.

Lemma update_on_unreachable_store_witness :
  fst (updateTaxLawConfiguration getTaxYear2024Configuration (empty_world false)) = false.
Proof.
  apply (update_on_unreachable_store getTaxYear2024Configuration (empty_world false)).
  reflexivity.
Defined.

(** X3. A lookup that misses the cache and finds a row caches it: the lookup
    returns the row, and from then on the year is answered from the cache,
    with no further effect, by every world that has this cache, also one whose
    store cannot be reached or holds another row. *)
Theorem lookup_populates_cache taxYear row w :
  configCache w !! taxYear = None ->
  reachable (db w) = true ->
  tax_law_configurations (db w) !! taxYear = Some row ->
  let w' := snd (getTaxLawConfiguration taxYear w) in
  fst (getTaxLawConfiguration taxYear w) = Some row
  /\ configCache w' = <[taxYear := row]> (configCache w)
  /\ logged w' = logged w
  /\ forall later,
       configCache later = configCache w' ->
       getTaxLawConfiguration taxYear later = (Some row, later).
Proof.
  intros Hmiss Hup Hrow.
  assert (Hget : getTaxLawConfiguration taxYear w
                 = (Some row, mkWorld (<[taxYear := row]> (configCache w)) (db w) (logged w))).
  { unfold getTaxLawConfiguration, bind, cache_get, query_select, cache_set, ret.
    rewrite Hmiss, Hup, Hrow. reflexivity. }
  rewrite Hget. simpl. repeat split.
  intros later Hlater. apply getTaxLawConfiguration_cached.
  rewrite Hlater. apply lookup_insert_eq.
Qed.

Lemma lookup_populates_cache_witness :
  fst (getTaxLawConfiguration 2024 stored_only_world) = Some getTaxYear2024Configuration.
Proof.
  apply (lookup_populates_cache 2024 getTaxYear2024Configuration stored_only_world);
    reflexivity.
Defined.

(** X4. A failed lookup is not remembered: when [getTaxLawConfiguration]
    returns null, cache and store are as before, and a lookup always leaves
    the store alone and the cache entries of other years as they were. *)
Theorem failed_lookup_not_cached taxYear w :
  let w' := snd (getTaxLawConfiguration taxYear w) in
  db w' = db w
  /\ (forall other, other <> taxYear -> configCache w' !! other = configCache w !! other)
  /\ (fst (getTaxLawConfiguration taxYear w) = None ->
      configCache w' = configCache w
      /\ forall row later,
           configCache later = configCache w' ->
           reachable (db later) = true ->
           tax_law_configurations (db later) !! taxYear = Some row ->
           fst (getTaxLawConfiguration taxYear later) = Some row).
Proof.
  destruct (getTaxLawConfiguration_effect taxYear w) as (Hdb & Hnone & Hsome).
  cbv zeta in *. split; [exact Hdb|]. split.
  - intros other Hother.
    destruct (fst (getTaxLawConfiguration taxYear w)) as [config|] eqn:Hresult.
    + now apply (Hsome config).
    + now rewrite Hnone.
  - intros Hresult. split; [now apply Hnone|].
    intros row later Hcache Hup Hrow.
    assert (Hmiss : configCache w !! taxYear = None).
    { unfold getTaxLawConfiguration, bind, cache_get, ret in Hresult.
      destruct (configCache w !! taxYear); [discriminate|reflexivity]. }
    rewrite getTaxLawConfiguration_result, Hcache, Hnone, Hmiss, Hup by exact Hresult.
    exact Hrow.
Qed.

(** X5. [clearCache] empties the cache and leaves the store alone; the next
    lookup of any year goes to the store and returns its row, or null when
    the store has none or cannot be reached. *)
Theorem clearCache_refetches taxYear w :
  let w' := snd (clearCache w) in
  configCache w' = ∅
  /\ db w' = db w
  /\ fst (getTaxLawConfiguration taxYear w')
     = (if reachable (db w) then tax_law_configurations (db w) !! taxYear else None).
Proof.
  unfold clearCache, log. simpl. repeat split.
  rewrite getTaxLawConfiguration_result. simpl. now rewrite lookup_empty.
Qed.

(** X6. Seeding.  With a reachable store, [initializeDefaultConfigurations]
    leaves the 2024 and the 2023 configuration in cache and store, and leaves
    every other year's cache entry alone.  With a store that cannot be
    reached it changes neither cache nor store and logs two errors, and
    nothing tells the caller. *)
Theorem initializeDefaultConfigurations_seeds w :
  let w' := snd (initializeDefaultConfigurations w) in
  (reachable (db w) = true ->
   getTaxLawConfiguration 2024 w' = (Some getTaxYear2024Configuration, w')
   /\ getTaxLawConfiguration 2023 w' = (Some getTaxYear2023Configuration, w')
   /\ tax_law_configurations (db w') !! 2024%Z = Some getTaxYear2024Configuration
   /\ tax_law_configurations (db w') !! 2023%Z = Some getTaxYear2023Configuration
   /\ forall other, other <> 2024%Z -> other <> 2023%Z ->
        configCache w' !! other = configCache w !! other)
  /\ (reachable (db w) = false ->
      configCache w' = configCache w
      /\ db w' = db w
      /\ logged w' = logged w ++ [(ERROR, Failed_to_update_tax_law_configuration 2024);
                                  (ERROR, Failed_to_update_tax_law_configuration 2023)]).
Proof.
  unfold initializeDefaultConfigurations, updateTaxLawConfiguration, bind, query_upsert,
    cache_set, log, ret.
  split; intros Hreach; rewrite Hreach; simpl.
  - split; [|split; [|split; [|split]]].
    + apply getTaxLawConfiguration_cached. simpl.
      rewrite lookup_insert_ne by discriminate. apply lookup_insert_eq.
    + apply getTaxLawConfiguration_cached. simpl. apply lookup_insert_eq.
    + rewrite lookup_insert_ne by discriminate. apply lookup_insert_eq.
    + apply lookup_insert_eq.
    + intros other H2024 H2023. now rewrite !lookup_insert_ne by congruence.
  - rewrite Hreach. simpl. repeat split. now rewrite <- app_assoc.
Qed.

(** X7. The getters read the cache only.  For a cached year they agree with
    what [calculateStandardDeduction] and the configuration say; for a year
    that is not cached they answer 0, or no brackets, even when the store
    holds the year and [calculateStandardDeduction] would fetch it. *)
Theorem cache_only_getters taxYear filingStatus w :
  (forall config,
     configCache w !! taxYear = Some config ->
     getStandardDeduction taxYear filingStatus w
     = fst (calculateStandardDeduction taxYear filingStatus w)
     /\ getTaxBrackets taxYear filingStatus w
        = TaxLawConfiguration.taxBrackets config filingStatus
     /\ getSocialSecurityWageBase taxYear w = TaxLawConfiguration.socialSecurityWageBase config
     /\ getSocialSecurityRate taxYear w = TaxLawConfiguration.socialSecurityRate config
     /\ getMedicareRate taxYear w = TaxLawConfiguration.medicareRate config
     /\ getChildTaxCreditAmount taxYear w = TaxLawConfiguration.childTaxCreditAmount config)
  /\ (configCache w !! taxYear = None ->
      getStandardDeduction taxYear filingStatus w = 0
      /\ getTaxBrackets taxYear filingStatus w = []
      /\ getSocialSecurityWageBase taxYear w = 0
      /\ getSocialSecurityRate taxYear w = 0
      /\ getMedicareRate taxYear w = 0
      /\ getChildTaxCreditAmount taxYear w = 0
      /\ forall row,
           reachable (db w) = true ->
           tax_law_configurations (db w) !! taxYear = Some row ->
           fst (calculateStandardDeduction taxYear filingStatus w)
           = TaxLawConfiguration.standardDeductions row filingStatus).
Proof.
  unfold getStandardDeduction, getTaxBrackets, getSocialSecurityWageBase,
    getSocialSecurityRate, getMedicareRate, getChildTaxCreditAmount.
  split.
  - intros config Hcached. rewrite Hcached. repeat split.
    rewrite calculateStandardDeduction_lookup.
    now rewrite (getTaxLawConfiguration_cached _ _ _ Hcached).
  - intros Hmiss. rewrite Hmiss. repeat split.
    intros row Hup Hrow. rewrite calculateStandardDeduction_lookup. simpl.
    now rewrite getTaxLawConfiguration_result, Hmiss, Hup, Hrow.
Qed.

Lemma cache_only_getters_witness :
  getStandardDeduction 2024 SINGLE stored_only_world = 0
  /\ fst (calculateStandardDeduction 2024 SINGLE stored_only_world) = 14600.
Proof.
  destruct (cache_only_getters 2024 SINGLE stored_only_world) as [_ Hmiss].
  destruct Hmiss as (H0 & _ & _ & _ & _ & _ & Hfetch); [reflexivity|].
  split; [exact H0|]. apply (Hfetch getTaxYear2024Configuration); reflexivity.
Defined.

Lemma failed_lookup_not_cached_witness :
  fst (getTaxLawConfiguration 2024 stored_only_world) = Some getTaxYear2024Configuration.
Proof.
  destruct (failed_lookup_not_cached 2024 (empty_world false)) as (_ & _ & Hfailed).
  destruct Hfailed as [_ Hlater]; [reflexivity|].
  apply Hlater; reflexivity.
Defined.

Lemma initializeDefaultConfigurations_seeds_witness :
  getTaxLawConfiguration 2024 seeded_world = (Some getTaxYear2024Configuration, seeded_world)
  /\ configCache (snd (initializeDefaultConfigurations (empty_world false))) = ∅.
Proof.
  destruct (initializeDefaultConfigurations_seeds (empty_world true)) as [Hup _].
  destruct (initializeDefaultConfigurations_seeds (empty_world false)) as [_ Hdown].
  split.
  - apply Hup. reflexivity.
  - apply Hdown. reflexivity.
Defined.

(** ** The calculator: deductions, clamps and failure *)

(** X8. Standard versus itemized.  [useItemized] holds exactly when the
    itemized total is above the standard deduction the registry yields;
    [deductionAmount] is the larger of the two, which is the deduction
    [calculateTaxableIncome] subtracts under the same configuration;
    [savings] is never negative and is what [deductionAmount] adds to the
    standard deduction.  For a year without configuration the standard
    deduction counts as 0. *)
Theorem itemized_vs_standard taxYear filingStatus itemizedDeductions w :
  let standardDeduction := fst (calculateStandardDeduction taxYear filingStatus w) in
  let compared :=
    fst (calculateItemizedVsStandard taxYear filingStatus itemizedDeductions w) in
  (ItemizedVsStandard.useItemized compared = true <-> standardDeduction < itemizedDeductions)
  /\ ItemizedVsStandard.deductionAmount compared
     = Math.max standardDeduction itemizedDeductions
  /\ 0 <= ItemizedVsStandard.savings compared
  /\ ItemizedVsStandard.deductionAmount compared
     == standardDeduction + ItemizedVsStandard.savings compared
  /\ (fst (getTaxLawConfiguration taxYear w) = None -> standardDeduction = 0)
  /\ (forall taxLawConfig adjustedGrossIncome deductions,
        fst (getTaxLawConfiguration taxYear w) = Some taxLawConfig ->
        DeductionData.totalItemizedDeductions deductions = itemizedDeductions ->
        calculateTaxableIncome adjustedGrossIncome deductions taxLawConfig filingStatus
        = Math.max 0 (adjustedGrossIncome - ItemizedVsStandard.deductionAmount compared)).
Proof.
  intros standardDeduction compared.
  assert (Hcompared :
            compared
            = ItemizedVsStandard.mk
                (num_gt itemizedDeductions standardDeduction)
                (if num_gt itemizedDeductions standardDeduction
                 then itemizedDeductions else standardDeduction)
                (if num_gt itemizedDeductions standardDeduction
                 then itemizedDeductions - standardDeduction else 0)).
  { unfold compared, standardDeduction, calculateItemizedVsStandard, bind, ret.
    now destruct (calculateStandardDeduction taxYear filingStatus w). }
  assert (Hamount : ItemizedVsStandard.deductionAmount compared
                    = Math.max standardDeduction itemizedDeductions).
  { rewrite Hcompared. simpl. unfold Math.max.
    destruct (Qlt_le_dec standardDeduction itemizedDeductions) as [Hlt|Hle].
    - assert (num_gt itemizedDeductions standardDeduction = true) as ->
        by (now apply num_lt_true).
      reflexivity.
    - assert (num_gt itemizedDeductions standardDeduction = false) as ->
        by (now apply num_lt_false).
      reflexivity. }
  split; [|split; [exact Hamount|split; [|split; [|split]]]].
  - rewrite Hcompared. simpl. apply num_lt_true.
  - rewrite Hcompared. simpl.
    destruct (num_gt itemizedDeductions standardDeduction) eqn:E; num_facts; lra.
  - rewrite Hcompared. simpl.
    destruct (num_gt itemizedDeductions standardDeduction) eqn:E; lra.
  - intros Hnone. unfold standardDeduction.
    rewrite calculateStandardDeduction_lookup. simpl. now rewrite Hnone.
  - intros taxLawConfig adjustedGrossIncome deductions Hconfig Hitemized.
    rewrite Hamount. unfold calculateTaxableIncome, standardDeduction.
    rewrite calculateStandardDeduction_lookup. simpl. now rewrite Hconfig, Hitemized.
Qed.

Lemma itemized_vs_standard_witness :
  let compared := fst (calculateItemizedVsStandard 2024 SINGLE 12000 seeded_world) in
  ItemizedVsStandard.useItemized compared = false
  /\ ItemizedVsStandard.deductionAmount compared = 14600
  /\ calculateTaxableIncome 60000 (DeductionData.mk 0 [] 12000 [])
       getTaxYear2024Configuration SINGLE
     = Math.max 0 (60000 - ItemizedVsStandard.deductionAmount compared).
Proof.
  destruct (itemized_vs_standard 2024 SINGLE 12000 seeded_world)
    as (_ & _ & _ & _ & _ & Htaxable).
  split; [reflexivity|]. split; [reflexivity|].
  apply Htaxable; reflexivity.
Defined.

(** X9. The clamps of the pipeline.  On success the returned adjusted gross
    income, taxable income and federal tax after credits are never negative,
    whatever the amounts on the return; the taxable income is not above the
    adjusted gross income when the deduction taken (the larger of the standard
    deduction and the itemized total) is not negative; estimated payments are
    0; no refund is returned when the withholding is not above the liability,
    and nothing is owed when the liability is not above the withholding. *)
Theorem calculation_clamps taxReturn w calculation message w' :
  calculateTax taxReturn w = (Success calculation message, w') ->
  exists taxLawConfig,
    fst (getTaxLawConfiguration (TaxReturn.taxYear taxReturn) w) = Some taxLawConfig
    /\ 0 <= TaxCalculation.adjustedGrossIncome calculation
    /\ 0 <= TaxCalculation.taxableIncome calculation
    /\ (0 <= Math.max (TaxLawConfiguration.standardDeductions taxLawConfig
                         (TaxReturn.filingStatus taxReturn))
               (DeductionData.totalItemizedDeductions (TaxReturn.deductions taxReturn)) ->
        TaxCalculation.taxableIncome calculation
        <= TaxCalculation.adjustedGrossIncome calculation)
    /\ 0 <= TaxCalculation.federalTaxAfterCredits calculation
    /\ TaxCalculation.estimatedPayments calculation == 0
    /\ (calculateTotalWithholding (TaxReturn.income taxReturn)
        <= totalTaxLiability_of taxReturn taxLawConfig ->
        TaxCalculation.refundAmount calculation == 0)
    /\ (totalTaxLiability_of taxReturn taxLawConfig
        <= calculateTotalWithholding (TaxReturn.income taxReturn) ->
        TaxCalculation.amountOwed calculation == 0).
Proof.
  intros H. apply calculateTax_success in H as (taxLawConfig & Hconfig & Hsteps).
  exists taxLawConfig. split; [now rewrite Hconfig|].
  pose proof (calculateTax_steps_fields _ _ _ Hsteps) as Hfields. cbv zeta in Hfields.
  destruct Hfields as (Hagi & Htaxable & _ & _ & Hrefund & Howed & _).
  rewrite Hagi, Htaxable, Hrefund, Howed. clear Hagi Htaxable Hrefund Howed.
  split; [apply roundToTwoDec_nonneg, adjustedGrossIncome_of_nonneg|].
  split.
  { apply roundToTwoDec_nonneg. unfold taxableIncome_of, calculateTaxableIncome.
    destruct (Math_max_case 0 (adjustedGrossIncome_of taxReturn
                               - Math.max (TaxLawConfiguration.standardDeductions taxLawConfig
                                             (TaxReturn.filingStatus taxReturn))
                                   (DeductionData.totalItemizedDeductions
                                      (TaxReturn.deductions taxReturn))))
      as [[? ->]|[? ->]]; lra. }
  split.
  { intros Hdeduction. apply roundToTwoDec_monotone.
    unfold taxableIncome_of, calculateTaxableIncome.
    pose proof (adjustedGrossIncome_of_nonneg taxReturn).
    destruct (Math_max_case 0 (adjustedGrossIncome_of taxReturn
                               - Math.max (TaxLawConfiguration.standardDeductions taxLawConfig
                                             (TaxReturn.filingStatus taxReturn))
                                   (DeductionData.totalItemizedDeductions
                                      (TaxReturn.deductions taxReturn))))
      as [[? ->]|[? ->]]; lra. }
  split.
  { unfold calculateTax_steps in Hsteps.
    destruct (num_gt (calculateTotalWithholding _ + 0) _) in Hsteps;
      destruct (calculateMarginalTaxRate _ _ _); try discriminate;
      injection Hsteps as <-; cbn [TaxCalculation.federalTaxAfterCredits];
      apply roundToTwoDec_nonneg;
      match goal with |- 0 <= Math.max 0 ?x =>
        destruct (Math_max_case 0 x) as [[? ->]|[? ->]]; lra end. }
  split.
  { unfold calculateTax_steps in Hsteps.
    destruct (num_gt (calculateTotalWithholding _ + 0) _) in Hsteps;
      destruct (calculateMarginalTaxRate _ _ _); try discriminate;
      injection Hsteps as <-; cbn [TaxCalculation.estimatedPayments];
      exact roundToTwoDec_0. }
  set (withholding := calculateTotalWithholding (TaxReturn.income taxReturn)).
  set (liability := totalTaxLiability_of taxReturn taxLawConfig).
  destruct (num_gt (withholding + 0) liability) eqn:Hgt; num_facts;
    split; intros Hside; try exact roundToTwoDec_0; try lra;
    (transitivity (roundToTwoDec 0);
     [apply roundToTwoDec_proper; lra|exact roundToTwoDec_0]).
Qed.

Lemma calculation_clamps_witness :
  exists calculation,
    calculateTax single_filer_wages_60000 seeded_world
    = (Success calculation TaxCalculationCompleted, seeded_world)
    /\ 0 <= TaxCalculation.taxableIncome calculation.
Proof.
  eexists. split; [vm_compute; reflexivity|].
  edestruct (calculation_clamps single_filer_wages_60000 seeded_world)
    as (taxLawConfig & _ & _ & Htaxable & _).
  - vm_compute. reflexivity.
  - exact Htaxable.
Defined.

(** X10. An empty bracket list.  When the registry serves a configuration,
    [calculateTax] fails, with code [INTERNAL_ERROR] and the message of an
    internal error, exactly when the bracket list of the filing status is
    empty (the marginal rate reads the last bracket), although the bracket
    walk itself yields a tax of 0 for such a list; in every other case it
    succeeds. *)
Theorem empty_brackets_fail taxReturn taxLawConfig w w' :
  getTaxLawConfiguration (TaxReturn.taxYear taxReturn) w = (Some taxLawConfig, w') ->
  let brackets :=
    TaxLawConfiguration.taxBrackets taxLawConfig (TaxReturn.filingStatus taxReturn) in
  (brackets = [] ->
   calculateTax taxReturn w = (Failure INTERNAL_ERROR TaxCalculationFailedInternalError, w')
   /\ forall taxableIncome,
        calculateFederalTax taxableIncome taxLawConfig (TaxReturn.filingStatus taxReturn) = 0)
  /\ (brackets <> [] ->
      exists calculation,
        calculateTax taxReturn w = (Success calculation TaxCalculationCompleted, w')).
Proof.
  intros Hconfig brackets. split.
  - intros Hempty. split.
    + unfold calculateTax, bind. rewrite Hconfig.
      destruct (calculateTax_steps taxReturn taxLawConfig) as [calculation|] eqn:Hsteps;
        [|reflexivity].
      assert (Hsome : is_Some (calculateTax_steps taxReturn taxLawConfig)) by eauto.
      apply calculateTax_steps_total in Hsome. destruct Hsome as [rate Hrate].
      unfold calculateMarginalTaxRate in Hrate. fold brackets in Hrate.
      rewrite Hempty in Hrate. discriminate.
    + intros taxableIncome. unfold calculateFederalTax. fold brackets.
      now rewrite Hempty.
  - intros Hne.
    destruct (proj2 (calculateTax_steps_total taxReturn taxLawConfig)
                (calculateMarginalTaxRate_total _ _ _ Hne)) as [calculation Hsteps].
    exists calculation. unfold calculateTax, bind. now rewrite Hconfig, Hsteps.
Qed.

Lemma empty_brackets_fail_witness :
  let no_brackets := with_taxBrackets getTaxYear2024Configuration (fun _ => []) in
  let w := mkWorld (<[2024%Z := no_brackets]> ∅) (mkPool false ∅) [] in
  calculateTax single_filer_wages_60000 w
  = (Failure INTERNAL_ERROR TaxCalculationFailedInternalError, w).
Proof.
  intros no_brackets w.
  apply (empty_brackets_fail single_filer_wages_60000 no_brackets w w);
    reflexivity.
Defined.

(** ** The bracket walk: the top bound and the marginal rate *)

Lemma contiguous_from_last_above start brackets top :
  contiguous_from start brackets ->
  last brackets = Some top ->
  start < TaxBracket.max top
  /\ Forall (fun bracket => TaxBracket.max bracket <= TaxBracket.max top) brackets.
Proof.
  revert start. induction brackets as [|bracket brackets IH]; intros start Hcont Hlast.
  - discriminate.
  - simpl in Hcont. destruct Hcont as (Hmin & Hlt & Hrest).
    destruct brackets as [|next brackets].
    + injection Hlast as <-. split; [lra|]. repeat constructor. lra.
    + rewrite last_cons_cons in Hlast.
      destruct (IH _ Hrest Hlast) as [Habove Hall].
      split; [lra|]. constructor; [lra|exact Hall].
Qed.

(** From the bound of the top bracket on, the remaining income is not taxed. *)
Lemma calculateFederalTax_for_beyond_top start brackets top :
  contiguous_from start brackets ->
  last brackets = Some top ->
  forall tax remainingIncome,
    TaxBracket.max top - start <= remainingIncome ->
    calculateFederalTax_for brackets tax remainingIncome
    == calculateFederalTax_for brackets tax (TaxBracket.max top - start).
Proof.
  revert start. induction brackets as [|bracket brackets IH]; intros start Hcont Hlast.
  - discriminate.
  - intros tax remainingIncome Hbeyond.
    pose proof (contiguous_from_last_above _ _ _ Hcont Hlast) as [Habove _].
    simpl in Hcont. destruct Hcont as (Hmin & Hlt & Hrest).
    set (width := TaxBracket.max bracket - TaxBracket.min bracket).
    assert (Hwalk : forall r, 0 < r ->
              calculateFederalTax_for (bracket :: brackets) tax r
              = if num_le (r - Math.min r width) 0
                then tax + Math.min r width * TaxBracket.rate bracket
                else calculateFederalTax_for brackets
                       (tax + Math.min r width * TaxBracket.rate bracket)
                       (r - Math.min r width)).
    { intros r Hr. simpl.
      assert (num_le r 0 = false) as -> by (now apply num_le_false).
      reflexivity. }
    rewrite !Hwalk by lra.
    destruct brackets as [|next brackets].
    + injection Hlast as <-. simpl.
      assert (Hmin1 : Math.min remainingIncome width == width)
        by (destruct (Math_min_case remainingIncome width) as [[? ->]|[? ->]];
            unfold width in *; lra).
      assert (Hmin2 : Math.min (TaxBracket.max bracket - start) width == width)
        by (destruct (Math_min_case (TaxBracket.max bracket - start) width)
              as [[? ->]|[? ->]]; unfold width in *; lra).
      destruct (num_le _ 0), (num_le _ 0); rewrite Hmin1, Hmin2; reflexivity.
    + rewrite last_cons_cons in Hlast.
      pose proof (contiguous_from_last_above _ _ _ Hrest Hlast) as [Hnext _].
      assert (Math.min remainingIncome width = width) as ->
        by (destruct (Math_min_case remainingIncome width) as [[? ->]|[? ?]];
            [reflexivity|unfold width in *; lra]).
      assert (Math.min (TaxBracket.max top - start) width = width) as ->
        by (destruct (Math_min_case (TaxBracket.max top - start) width) as [[? ->]|[? ?]];
            [reflexivity|unfold width in *; lra]).
      assert (num_le (remainingIncome - width) 0 = false) as ->
        by (apply num_le_false; unfold width; lra).
      assert (num_le (TaxBracket.max top - start - width) 0 = false) as ->
        by (apply num_le_false; unfold width; lra).
      rewrite (IH _ Hrest Hlast _ (remainingIncome - width)) by (unfold width; lra).
      rewrite (IH _ Hrest Hlast _ (TaxBracket.max top - start - width))
        by (unfold width; lra).
      reflexivity.
Qed.

Lemma calculateMarginalTaxRate_for_beyond_top brackets bound taxableIncome :
  Forall (fun bracket => TaxBracket.max bracket <= bound) brackets ->
  bound <= taxableIncome ->
  calculateMarginalTaxRate_for brackets taxableIncome = None.
Proof.
  induction 1 as [|bracket brackets Hmax _ IH]; intros Hbeyond; simpl.
  - reflexivity.
  - assert (num_lt taxableIncome (TaxBracket.max bracket) = false) as ->
      by (apply num_lt_false; lra).
    rewrite andb_false_r. now apply IH.
Qed.

(** X11. Income at or beyond the bound of the top bracket.  For a bracket list
    that is contiguous from 0 and ascending, a taxable income at or above the
    top bracket's [max] is taxed like an income of exactly that [max], the
    excess is not taxed, and its marginal rate is the top bracket's rate. *)
Theorem income_beyond_top_bracket taxLawConfig filingStatus top taxableIncome :
  let brackets := TaxLawConfiguration.taxBrackets taxLawConfig filingStatus in
  contiguous_from 0 brackets ->
  last brackets = Some top ->
  TaxBracket.max top <= taxableIncome ->
  calculateFederalTax taxableIncome taxLawConfig filingStatus
  == calculateFederalTax (TaxBracket.max top) taxLawConfig filingStatus
  /\ calculateMarginalTaxRate taxableIncome taxLawConfig filingStatus
     = Some (TaxBracket.rate top).
Proof.
  intros brackets Hcont Hlast Hbeyond. split.
  - unfold calculateFederalTax. fold brackets.
    rewrite (calculateFederalTax_for_beyond_top 0 brackets top Hcont Hlast 0 taxableIncome)
      by lra.
    rewrite (calculateFederalTax_for_beyond_top 0 brackets top Hcont Hlast 0
               (TaxBracket.max top)) by lra.
    reflexivity.
  - unfold calculateMarginalTaxRate. fold brackets.
    rewrite (calculateMarginalTaxRate_for_beyond_top brackets (TaxBracket.max top)).
    + now rewrite Hlast.
    + eapply contiguous_from_last_above; eassumption.
    + exact Hbeyond.
Qed.

Lemma income_beyond_top_bracket_witness :
  calculateFederalTax 2000000000 getTaxYear2024Configuration SINGLE
  == calculateFederalTax 999999999 getTaxYear2024Configuration SINGLE.
Proof.
  apply (income_beyond_top_bracket getTaxYear2024Configuration SINGLE
           (TaxBracket.mk 626350 999999999 0.37) 2000000000).
  - simpl. repeat split; try reflexivity.
  - reflexivity.
  - discriminate.
Defined.

(** The walk taxes no more than the marginal rate on all of the income. *)
Lemma calculateFederalTax_for_at_most_marginal start brackets taxableIncome :
  contiguous_from start brackets ->
  rates_non_decreasing brackets ->
  start <= taxableIncome ->
  top_bracket_above brackets taxableIncome ->
  exists marginal,
    calculateMarginalTaxRate_for brackets taxableIncome = Some marginal
    /\ match brackets with
       | [] => True
       | bracket :: _ => TaxBracket.rate bracket <= marginal
       end
    /\ forall tax,
         calculateFederalTax_for brackets tax (taxableIncome - start)
         <= tax + (taxableIncome - start) * marginal.
Proof.
  revert start.
  induction brackets as [|bracket brackets IH]; intros start Hcont Hrates Hstart Htop.
  - contradiction.
  - simpl in Hcont. destruct Hcont as (Hmin & Hlt & Hrest).
    destruct Hrates as [Hnext Hrates].
    set (width := TaxBracket.max bracket - TaxBracket.min bracket).
    destruct (Qlt_le_dec taxableIncome (TaxBracket.max bracket)) as [Hin|Hout].
    + exists (TaxBracket.rate bracket). split; [|split; [lra|]].
      * simpl. assert (num_ge taxableIncome (TaxBracket.min bracket) = true) as ->
          by (apply num_le_true; lra).
        assert (num_lt taxableIncome (TaxBracket.max bracket) = true) as ->
          by (now apply num_lt_true).
        reflexivity.
      * intros tax. simpl. fold width.
        destruct (num_le (taxableIncome - start) 0) eqn:Hzero; num_facts.
        -- assert (E : taxableIncome - start == 0) by lra. rewrite E.
           rewrite Qmult_0_l, Qplus_0_r. apply Qle_refl.
        -- assert (Math.min (taxableIncome - start) width = taxableIncome - start) as ->
             by (destruct (Math_min_case (taxableIncome - start) width) as [[? ?]|[? ->]];
                 [unfold width in *; lra|reflexivity]).
           assert (num_le (taxableIncome - start - (taxableIncome - start)) 0 = true) as ->
             by (apply num_le_true; lra).
           lra.
    + destruct brackets as [|next brackets].
      { unfold top_bracket_above in Htop. simpl in Htop. lra. }
      destruct (IH (TaxBracket.max bracket) Hrest Hrates Hout
                  (top_bracket_above_tail _ _ _ _ Htop))
        as (marginal & Hmarginal & Hhead & Hbound).
      exists marginal. split; [|split; [lra|]].
      * change (calculateMarginalTaxRate_for (bracket :: next :: brackets) taxableIncome)
          with (if num_ge taxableIncome (TaxBracket.min bracket)
                   && num_lt taxableIncome (TaxBracket.max bracket)
                then Some (TaxBracket.rate bracket)
                else calculateMarginalTaxRate_for (next :: brackets) taxableIncome).
        assert (num_lt taxableIncome (TaxBracket.max bracket) = false) as ->
          by (now apply num_lt_false).
        rewrite andb_false_r. exact Hmarginal.
      * intros tax.
        change (calculateFederalTax_for (bracket :: next :: brackets) tax
                  (taxableIncome - start))
          with (if num_le (taxableIncome - start) 0 then tax
                else
                  if num_le (taxableIncome - start
                             - Math.min (taxableIncome - start) width) 0
                  then tax + Math.min (taxableIncome - start) width
                             * TaxBracket.rate bracket
                  else calculateFederalTax_for (next :: brackets)
                         (tax + Math.min (taxableIncome - start) width
                                * TaxBracket.rate bracket)
                         (taxableIncome - start
                          - Math.min (taxableIncome - start) width)).
        assert (num_le (taxableIncome - start) 0 = false) as ->
          by (apply num_le_false; unfold width in *; lra).
        assert (Hwidth : Math.min (taxableIncome - start) width == width)
          by (destruct (Math_min_case (taxableIncome - start) width) as [[? ->]|[? ->]];
              unfold width in *; lra).
        assert (Hpart : width * TaxBracket.rate bracket <= width * marginal).
        { rewrite !(Qmult_comm width). apply Qmult_le_compat_r; unfold width; lra. }
        destruct (num_le _ 0) eqn:Hdone; num_facts.
        -- rewrite Hwidth in *.
           assert (E : taxableIncome - start == width) by (unfold width in *; lra).
           rewrite E. lra.
        -- rewrite Hwidth in *.
           assert (Hrem : taxableIncome - start - width
                          == taxableIncome - TaxBracket.max bracket)
             by (unfold width; lra).
           rewrite Hrem.
           eapply Qle_trans; [apply Hbound|].
           assert (E : taxableIncome - start
                       == width + (taxableIncome - TaxBracket.max bracket))
             by (unfold width; lra).
           rewrite E, Qmult_plus_distr_l. lra.
Qed.

(** X12. The effective federal rate is at most the marginal rate.  For a
    bracket list that is contiguous from 0, ascending, with non-decreasing
    rates, and a non-negative taxable income below the top bracket's bound,
    [calculateMarginalTaxRate] returns a rate and [calculateFederalTax] is at
    most that rate times the taxable income. *)
Theorem federal_tax_at_most_marginal taxLawConfig filingStatus taxableIncome :
  let brackets := TaxLawConfiguration.taxBrackets taxLawConfig filingStatus in
  bracket_invariant brackets ->
  0 <= taxableIncome ->
  top_bracket_above brackets taxableIncome ->
  exists marginal,
    calculateMarginalTaxRate taxableIncome taxLawConfig filingStatus = Some marginal
    /\ calculateFederalTax taxableIncome taxLawConfig filingStatus
       <= taxableIncome * marginal.
Proof.
  intros brackets [Hcont Hrates] Hnonneg Htop.
  destruct (calculateFederalTax_for_at_most_marginal 0 brackets taxableIncome
              Hcont Hrates Hnonneg Htop) as (marginal & Hmarginal & _ & Hbound).
  exists marginal. split.
  - unfold calculateMarginalTaxRate. fold brackets. now rewrite Hmarginal.
  - unfold calculateFederalTax. fold brackets.
    specialize (Hbound 0).
    assert (Hsame : taxableIncome - 0 == taxableIncome) by lra.
    rewrite Hsame in Hbound. lra.
Qed.

Lemma federal_tax_at_most_marginal_witness :
  exists marginal,
    calculateMarginalTaxRate 45400 getTaxYear2024Configuration SINGLE = Some marginal
    /\ calculateFederalTax 45400 getTaxYear2024Configuration SINGLE <= 45400 * marginal.
Proof.
  apply (federal_tax_at_most_marginal getTaxYear2024Configuration SINGLE 45400).
  - split; simpl; repeat split; try reflexivity; try discriminate.
  - discriminate.
  - reflexivity.
Defined.

(** ** Credits and self-employment tax *)

Lemma Math_ceil_monotone x y : x <= y -> Math.ceil x <= Math.ceil y.
Proof.
  intros Hle. unfold Math.ceil. rewrite <- Zle_Qle. now apply Qceiling_resp_le.
Qed.

Lemma Math_ceil_ge x : x <= Math.ceil x.
Proof. apply Qle_ceiling. Qed.

(** X13. The phased child tax credit, for a base amount that is not
    negative: it lies between 0 and the base amount, it never rises when the
    adjusted gross income rises, and it is 0 once the income exceeds the
    threshold by at least 20 times the base amount. *)
Theorem child_tax_credit_bounds baseCredit taxLawConfig filingStatus :
  0 <= baseCredit ->
  let threshold :=
    TaxLawConfiguration.childTaxCreditPhaseoutThreshold taxLawConfig filingStatus in
  let credit agi := calculateChildTaxCredit baseCredit agi taxLawConfig filingStatus in
  (forall agi, 0 <= credit agi /\ credit agi <= baseCredit)
  /\ (forall lower higher, lower <= higher -> credit higher <= credit lower)
  /\ (forall agi, threshold < agi -> 20 * baseCredit <= agi - threshold -> credit agi == 0).
Proof.
  intros Hbase threshold credit.
  assert (Hcases : forall agi,
            (agi <= threshold /\ credit agi == baseCredit)
            \/ (threshold < agi
                /\ credit agi
                   == Math.max 0 (baseCredit
                                  - Math.ceil ((agi - threshold) / 1000) * 50))).
  { intros agi. unfold credit, calculateChildTaxCredit. fold threshold.
    destruct (Qlt_le_dec threshold agi) as [Hlt|Hle]; [right|left]; split; try assumption.
    - destruct (num_eq baseCredit 0) eqn:Hzero; num_facts.
      + assert (1 <= Math.ceil ((agi - threshold) / 1000))
          by (apply Math_ceil_positive; apply Qlt_shift_div_l; lra).
        math_cases; lra.
      + assert (num_le agi threshold = false) as -> by (now apply num_le_false).
        reflexivity.
    - destruct (num_eq baseCredit 0) eqn:Hzero; num_facts; [lra|].
      assert (num_le agi threshold = true) as -> by (now apply num_le_true).
      reflexivity. }
  assert (Hceil : forall agi, threshold < agi ->
            (agi - threshold) / 1000 <= Math.ceil ((agi - threshold) / 1000)
            /\ 1 <= Math.ceil ((agi - threshold) / 1000)).
  { intros agi Hlt. split; [apply Math_ceil_ge|].
    apply Math_ceil_positive, Qlt_shift_div_l; lra. }
  split; [|split].
  - intros agi. destruct (Hcases agi) as [[_ ->]|[Hlt ->]]; [lra|].
    destruct (Hceil agi Hlt) as [_ Hone]. math_cases; lra.
  - intros lower higher Hle.
    destruct (Hcases lower) as [[Hl ->]|[Hl ->]], (Hcases higher) as [[Hh ->]|[Hh ->]].
    + lra.
    + destruct (Hceil higher Hh) as [_ Hone]. math_cases; lra.
    + lra.
    + assert (Math.ceil ((lower - threshold) / 1000)
              <= Math.ceil ((higher - threshold) / 1000)).
      { apply Math_ceil_monotone. apply Qmult_le_compat_r; [lra|discriminate]. }
      math_cases; lra.
  - intros agi Hlt Hfar. destruct (Hcases agi) as [[Hle _]|[_ ->]]; [lra|].
    destruct (Hceil agi Hlt) as [Hge _].
    assert (baseCredit / 50 <= (agi - threshold) / 1000).
    { apply Qle_shift_div_l; [reflexivity|].
      assert (E : baseCredit / 50 * 1000 == 20 * baseCredit) by (field; discriminate).
      rewrite E. exact Hfar. }
    assert (baseCredit <= Math.ceil ((agi - threshold) / 1000) * 50).
    { assert (E : baseCredit == baseCredit / 50 * 50) by (field; discriminate).
      rewrite E at 1. apply Qmult_le_compat_r; [lra|discriminate]. }
    math_cases; lra.
Qed.

Lemma child_tax_credit_bounds_witness :
  calculateChildTaxCredit 2000 440000 getTaxYear2024Configuration MARRIED_FILING_JOINTLY == 0
  /\ calculateChildTaxCredit 2000 410000 getTaxYear2024Configuration MARRIED_FILING_JOINTLY
     <= calculateChildTaxCredit 2000 405000 getTaxYear2024Configuration
          MARRIED_FILING_JOINTLY.
Proof.
  assert (H := child_tax_credit_bounds 2000 getTaxYear2024Configuration
                 MARRIED_FILING_JOINTLY).
  cbv zeta in H.
  destruct H as (_ & Hmonotone & Hout); [discriminate|].
  split.
  - apply Hout; [reflexivity|discriminate].
  - apply Hmonotone. discriminate.
Defined.

(** X14. Self-employment tax under a configuration whose wage base and two
    rates are not negative.  The tax is never negative.  For a return with
    one business, whose net profit is the figure the code compares with 400:
    the tax never falls when the net profit rises; above 400 it is strictly
    positive when the Medicare rate is positive; and once 92.35% of the net
    profit reaches the wage base the social-security part stays at
    [wageBase * ssRate * 2] and only the Medicare part grows. *)
Theorem self_employment_tax_monotone taxLawConfig :
  let wageBase := TaxLawConfiguration.socialSecurityWageBase taxLawConfig in
  let ssRate := TaxLawConfiguration.socialSecurityRate taxLawConfig in
  let medicareRate := TaxLawConfiguration.medicareRate taxLawConfig in
  let one_business income business := IncomeData.selfEmployment income = [business] in
  0 <= wageBase -> 0 <= ssRate -> 0 <= medicareRate ->
  (forall income, 0 <= calculateSelfEmploymentTax income taxLawConfig)
  /\ (forall lower higher business business',
        one_business lower business -> one_business higher business' ->
        SelfEmploymentIncome.netProfit business <= SelfEmploymentIncome.netProfit business' ->
        calculateSelfEmploymentTax lower taxLawConfig
        <= calculateSelfEmploymentTax higher taxLawConfig)
  /\ (forall income business,
        one_business income business ->
        400 < SelfEmploymentIncome.netProfit business ->
        0 < medicareRate ->
        0 < calculateSelfEmploymentTax income taxLawConfig)
  /\ (forall income business,
        one_business income business ->
        400 < SelfEmploymentIncome.netProfit business ->
        wageBase <= SelfEmploymentIncome.netProfit business * 0.9235 ->
        calculateSelfEmploymentTax income taxLawConfig
        == wageBase * ssRate * 2
           + SelfEmploymentIncome.netProfit business * 0.9235 * medicareRate * 2).
Proof.
  intros wageBase ssRate medicareRate one_business HwageBase HssRate HmedicareRate.
  set (netProfit income :=
         reduce_sum SelfEmploymentIncome.netProfit (IncomeData.selfEmployment income)).
  assert (Hone : forall income business,
            one_business income business ->
            netProfit income == SelfEmploymentIncome.netProfit business).
  { intros income business Hincome. unfold netProfit, reduce_sum. rewrite Hincome.
    simpl. lra. }
  assert (Hcases : forall income,
            (netProfit income <= 400 /\ calculateSelfEmploymentTax income taxLawConfig == 0)
            \/ (400 < netProfit income
                /\ calculateSelfEmploymentTax income taxLawConfig
                   == Math.min (netProfit income * 0.9235) wageBase * ssRate * 2
                      + netProfit income * 0.9235 * medicareRate * 2)).
  { intros income. unfold calculateSelfEmploymentTax. fold (netProfit income).
    fold wageBase ssRate medicareRate.
    destruct (num_le (netProfit income) 400) eqn:Hlow; num_facts; [left|right];
      split; try assumption; lra. }
  assert (Hss : forall p, 400 < p -> 0 <= Math.min (p * 0.9235) wageBase * ssRate).
  { intros p Hp. apply Qmult_le_0_compat; [|exact HssRate]. math_cases; lra. }
  assert (Hmed : forall p, 0 <= p -> 0 <= p * medicareRate).
  { intros p Hp. now apply Qmult_le_0_compat. }
  assert (Hnonneg : forall income, 0 <= calculateSelfEmploymentTax income taxLawConfig).
  { intros income. destruct (Hcases income) as [[_ ->]|[Hhigh ->]]; [lra|].
    pose proof (Hss _ Hhigh). pose proof (Hmed (netProfit income) ltac:(lra)). lra. }
  split; [exact Hnonneg|]. split; [|split].
  - intros lower higher business business' Hlower Hhigher Hle.
    apply Hone in Hlower, Hhigher.
    destruct (Hcases lower) as [[Hl El]|[Hl El]]; [rewrite El; apply Hnonneg|].
    destruct (Hcases higher) as [[Hh Eh]|[Hh Eh]]; [lra|]. rewrite El, Eh.
    assert (Math.min (netProfit lower * 0.9235) wageBase * ssRate
            <= Math.min (netProfit higher * 0.9235) wageBase * ssRate).
    { apply Qmult_le_compat_r; [|exact HssRate]. math_cases; lra. }
    assert (netProfit lower * medicareRate <= netProfit higher * medicareRate)
      by (apply Qmult_le_compat_r; [lra|assumption]).
    lra.
  - intros income business Hincome Hhigh Hpositive. apply Hone in Hincome.
    destruct (Hcases income) as [[Hl _]|[Hh ->]]; [lra|].
    pose proof (Hss _ Hh).
    assert (0 < netProfit income * medicareRate)
      by (apply Qmult_lt_0_compat; [lra|assumption]).
    lra.
  - intros income business Hincome Hhigh Hcap. apply Hone in Hincome.
    destruct (Hcases income) as [[Hl _]|[_ ->]]; [lra|].
    assert (E : Math.min (netProfit income * 0.9235) wageBase == wageBase)
      by (math_cases; lra).
    rewrite E, Hincome. reflexivity.
Qed.

Lemma self_employment_tax_monotone_witness :
  calculateSelfEmploymentTax (self_employed 401) getTaxYear2024Configuration
  <= calculateSelfEmploymentTax (self_employed 10000) getTaxYear2024Configuration
  /\ 0 < calculateSelfEmploymentTax (self_employed 401) getTaxYear2024Configuration.
Proof.
  assert (H := self_employment_tax_monotone getTaxYear2024Configuration).
  cbv zeta in H.
  destruct H as (_ & Hmonotone & Hpositive & _); [discriminate..|].
  split.
  - eapply Hmonotone; [reflexivity..|]. discriminate.
  - eapply Hpositive; [reflexivity|reflexivity..].
Defined.

(** ** The advisor: what its recommendations look like *)

Lemma well_formed_pushed taxReturn :
  Forall (well_formed_recommendation
            (TaxCalculation.marginalTaxRate (TaxReturn.calculations taxReturn)))
    (pushedRecommendations taxReturn).
Proof.
  unfold pushedRecommendations. cbv zeta. simpl.
  repeat apply Forall_app_2.
  - unfold analyzeMedicalDeductions. cbv zeta.
    destruct (num_lt _ _) eqn:Hgap, (num_gt _ 50000); simpl; num_facts;
      repeat constructor; simpl; try lra; try discriminate.
  - unfold analyzeStateLocalTaxDeductions. cbv zeta.
    destruct (num_lt _ _) eqn:Hgap; simpl; num_facts;
      repeat constructor; simpl; try discriminate; try lra.
    math_cases; lra.
  - unfold analyzeMortgageInterestDeductions. cbv zeta.
    destruct (_ && _); simpl; repeat constructor; simpl; try discriminate; lra.
  - unfold analyzeCharitableDeductions. cbv zeta.
    destruct (num_lt _ _) eqn:Hgap; simpl; num_facts;
      repeat constructor; simpl; try discriminate; lra.
  - unfold analyzeBusinessDeductions. cbv zeta.
    destruct (Nat.ltb _ _); simpl; repeat constructor; simpl; try discriminate; lra.
  - unfold analyzeEducationDeductions. cbv zeta.
    destruct (num_lt _ 85000), (num_lt _ 80000); simpl;
      repeat constructor; simpl; try discriminate; lra.
  - unfold analyzeRetirementDeductions. cbv zeta.
    destruct (num_lt _ 100000); simpl; repeat constructor; simpl; try discriminate; lra.
Qed.

Lemma total_savings_of_well_formed marginalTaxRate recommendations :
  Forall (well_formed_recommendation marginalTaxRate) recommendations ->
  total (map DeductionRecommendation.potentialSavings recommendations)
  == marginalTaxRate * total (map DeductionRecommendation.estimatedAmount recommendations).
Proof.
  induction 1 as [|r recommendations Hr _ IH]; simpl.
  - lra.
  - destruct Hr as (-> & _). rewrite IH. lra.
Qed.

(** X15. Every recommendation that [generateDeductionRecommendations] returns
    has [potentialSavings = estimatedAmount * marginalTaxRate] for the marginal
    rate stored with the return, a positive estimated amount, a confidence
    between 0 and 1 and at least one required document; the aggregate
    [potentialSavings] of [optimizeDeductions] is therefore that marginal rate
    times the sum of the estimated amounts. *)
Theorem recommendations_well_formed taxReturn w :
  let marginalTaxRate := TaxCalculation.marginalTaxRate (TaxReturn.calculations taxReturn) in
  Forall (well_formed_recommendation marginalTaxRate)
    (generateDeductionRecommendations taxReturn)
  /\ exists data,
       fst (optimizeDeductions taxReturn w) = Success data DeductionOptimizationCompleted
       /\ DeductionOptimization.recommendations data
          = generateDeductionRecommendations taxReturn
       /\ DeductionOptimization.potentialSavings data
          == marginalTaxRate
             * total (map DeductionRecommendation.estimatedAmount
                        (DeductionOptimization.recommendations data)).
Proof.
  intros marginalTaxRate.
  assert (Hall : Forall (well_formed_recommendation marginalTaxRate)
                   (generateDeductionRecommendations taxReturn)).
  { unfold generateDeductionRecommendations.
    eapply Permutation_Forall; [symmetry; apply Array_sort_perm|].
    apply well_formed_pushed. }
  split; [exact Hall|].
  unfold optimizeDeductions, calculateItemizedVsStandard, bind, ret.
  rewrite calculateStandardDeduction_lookup.
  rewrite calculateStandardDeduction_lookup.
  eexists. split; [reflexivity|]. simpl. split; [reflexivity|].
  rewrite reduce_sum_total. now apply total_savings_of_well_formed.
Qed.

(** ** The advisor in double precision *)

Section DoubleAdvisor.
Import PrimFloat FloatOps SpecFloat FloatAxioms.
Import Binary64.
Local Open Scope float_scope.
#[local] Set Warnings "-inexact-float".

(** X16. The gap rules in double precision, with the sums and thresholds as
    the code computes them.  A medical recommendation is the fixed suggestion
    of 6000, made only when the stored adjusted gross income is above 50000,
    or lifts the medical deductions to 7.5% of that income plus 1, made only
    when they are below that threshold.  The rule for state and local taxes
    recommends nothing unless their sum is below 10000, and then one amount,
    [min(10000 - sum, 3000)], which is at most 3000.  The charitable rule
    recommends nothing unless the contributions are below
    [min(2% of the income, 2000)], and then the missing amount.  Every amount
    recommended for a gap is strictly positive, however small the gap. *)
Theorem gap_rules taxReturn :
  let adjustedGrossIncome :=
    TaxCalculation.adjustedGrossIncome (TaxReturn.calculations taxReturn) in
  let medicalThreshold := adjustedGrossIncome * 0.075 in
  let suggestedCharitableAmount := Math.min (adjustedGrossIncome * 0.02) 2000 in
  let current category := current_itemized category taxReturn in
  Forall (fun r =>
            (DeductionRecommendation.estimatedAmount r = 6000
             /\ (50000 <? adjustedGrossIncome) = true)
            \/ (DeductionRecommendation.estimatedAmount r
                = medicalThreshold - current MEDICAL_DENTAL + 1
                /\ (current MEDICAL_DENTAL <? medicalThreshold) = true
                /\ (0 <? DeductionRecommendation.estimatedAmount r) = true))
    (analyzeMedicalDeductions taxReturn)
  /\ ((current STATE_LOCAL_TAXES <? 10000) = false ->
      analyzeStateLocalTaxDeductions taxReturn = [])
  /\ ((current STATE_LOCAL_TAXES <? 10000) = true ->
      exists r,
        analyzeStateLocalTaxDeductions taxReturn = [r]
        /\ DeductionRecommendation.estimatedAmount r
           = Math.min (10000 - current STATE_LOCAL_TAXES) 3000
        /\ (0 <? DeductionRecommendation.estimatedAmount r) = true
        /\ (DeductionRecommendation.estimatedAmount r <=? 3000) = true)
  /\ ((current CHARITABLE_CONTRIBUTIONS <? suggestedCharitableAmount) = false ->
      analyzeCharitableDeductions taxReturn = [])
  /\ ((current CHARITABLE_CONTRIBUTIONS <? suggestedCharitableAmount) = true ->
      exists r,
        analyzeCharitableDeductions taxReturn = [r]
        /\ DeductionRecommendation.estimatedAmount r
           = suggestedCharitableAmount - current CHARITABLE_CONTRIBUTIONS
        /\ (0 <? DeductionRecommendation.estimatedAmount r) = true).
Proof.
  intros adjustedGrossIncome medicalThreshold suggestedCharitableAmount current.
  split; [|split; [|split; [|split]]].
  - unfold analyzeMedicalDeductions. cbv zeta.
    fold adjustedGrossIncome medicalThreshold.
    fold (current_itemized MEDICAL_DENTAL taxReturn). fold (current MEDICAL_DENTAL).
    unfold num_lt, num_gt.
    assert (Hneeded : (current MEDICAL_DENTAL <? medicalThreshold) = true ->
              (0 <? medicalThreshold - current MEDICAL_DENTAL + 1) = true).
    { intros Hlt. apply double_add_positive; [|reflexivity].
      now apply double_positive_nonneg, double_sub_positive. }
    destruct (current MEDICAL_DENTAL <? medicalThreshold) eqn:Hlt,
             (50000 <? adjustedGrossIncome) eqn:Hgt; cbn [app];
      repeat match goal with |- Forall _ _ => constructor end;
      cbn [DeductionRecommendation.estimatedAmount];
      solve [ right; auto | left; auto ].
  - intros Hlt. unfold analyzeStateLocalTaxDeductions. cbv zeta.
    fold (current_itemized STATE_LOCAL_TAXES taxReturn). fold (current STATE_LOCAL_TAXES).
    unfold num_lt. now rewrite Hlt.
  - intros Hlt. unfold analyzeStateLocalTaxDeductions. cbv zeta.
    fold (current_itemized STATE_LOCAL_TAXES taxReturn). fold (current STATE_LOCAL_TAXES).
    unfold num_lt. rewrite Hlt. cbn [app]. eexists. split; [reflexivity|].
    cbn [DeductionRecommendation.estimatedAmount]. split; [reflexivity|].
    apply Binary64_Math_min_positive; [|reflexivity].
    now apply double_sub_positive.
  - intros Hlt. unfold analyzeCharitableDeductions. cbv zeta.
    fold adjustedGrossIncome suggestedCharitableAmount.
    fold (current_itemized CHARITABLE_CONTRIBUTIONS taxReturn).
    fold (current CHARITABLE_CONTRIBUTIONS).
    unfold num_lt. now rewrite Hlt.
  - intros Hlt. unfold analyzeCharitableDeductions. cbv zeta.
    fold adjustedGrossIncome suggestedCharitableAmount.
    fold (current_itemized CHARITABLE_CONTRIBUTIONS taxReturn).
    fold (current CHARITABLE_CONTRIBUTIONS).
    unfold num_lt. rewrite Hlt. cbn [app]. eexists. split; [reflexivity|].
    cbn [DeductionRecommendation.estimatedAmount]. split; [reflexivity|].
    now apply double_sub_positive.
Qed.

Lemma gap_rules_witness :
  (exists r,
     analyzeCharitableDeductions
       (itemizing 1020 [ItemizedDeduction.mk CHARITABLE_CONTRIBUTIONS 20.4]) = [r]
     /\ DeductionRecommendation.estimatedAmount r = 3.552713678800501e-15)
  /\ (exists r,
        analyzeStateLocalTaxDeductions
          (itemizing 0 [ItemizedDeduction.mk STATE_LOCAL_TAXES 8885.99;
                        ItemizedDeduction.mk STATE_LOCAL_TAXES 1051.55;
                        ItemizedDeduction.mk STATE_LOCAL_TAXES 62.46]) = [r]
        /\ DeductionRecommendation.estimatedAmount r = 1.8189894035458565e-12
        /\ (0 <? DeductionRecommendation.estimatedAmount r) = true).
Proof.
  split.
  - destruct (gap_rules (itemizing 1020 [ItemizedDeduction.mk CHARITABLE_CONTRIBUTIONS 20.4]))
      as (_ & _ & _ & _ & Hcharitable).
    destruct Hcharitable as (r & Hr & Hamount & _); [reflexivity|].
    exists r. split; [exact Hr|]. rewrite Hamount. vm_compute. reflexivity.
  - destruct (gap_rules
                (itemizing 0 [ItemizedDeduction.mk STATE_LOCAL_TAXES 8885.99;
                              ItemizedDeduction.mk STATE_LOCAL_TAXES 1051.55;
                              ItemizedDeduction.mk STATE_LOCAL_TAXES 62.46]))
      as (_ & _ & Hsalt & _).
    destruct Hsalt as (r & Hr & Hamount & Hpositive & _); [reflexivity|].
    exists r. split; [exact Hr|]. split; [|exact Hpositive].
    rewrite Hamount. vm_compute. reflexivity.
Defined.

End DoubleAdvisor.

(** ** The advisor and the registry together *)

Lemma calculateTax_world taxReturn w :
  snd (calculateTax taxReturn w)
  = snd (getTaxLawConfiguration (TaxReturn.taxYear taxReturn) w).
Proof.
  unfold calculateTax, bind, ret.
  destruct (getTaxLawConfiguration _ w) as [[taxLawConfig|] w1]; [|reflexivity].
  now destruct (calculateTax_steps taxReturn taxLawConfig).
Qed.

Lemma calculateTax_response taxReturn w :
  fst (calculateTax taxReturn w)
  = match fst (getTaxLawConfiguration (TaxReturn.taxYear taxReturn) w) with
    | None =>
        Failure INTERNAL_ERROR
          (TaxLawConfigurationNotFoundForYear (TaxReturn.taxYear taxReturn))
    | Some taxLawConfig =>
        match calculateTax_steps taxReturn taxLawConfig with
        | Some calculation => Success calculation TaxCalculationCompleted
        | None => Failure INTERNAL_ERROR TaxCalculationFailedInternalError
        end
    end.
Proof.
  unfold calculateTax, bind, ret.
  destruct (getTaxLawConfiguration _ w) as [[taxLawConfig|] w1]; cbn [fst];
    [|reflexivity].
  now destruct (calculateTax_steps taxReturn taxLawConfig).
Qed.

(** Once a lookup has yielded a configuration, the lookups that follow are
    answered from the cache, whatever the store does in the meantime. *)
Lemma getTaxLawConfiguration_served taxYear w taxLawConfig later :
  fst (getTaxLawConfiguration taxYear w) = Some taxLawConfig ->
  configCache later !! taxYear
  = configCache (snd (getTaxLawConfiguration taxYear w)) !! taxYear ->
  getTaxLawConfiguration taxYear later = (Some taxLawConfig, later).
Proof.
  intros Hlookup Hcache.
  destruct (getTaxLawConfiguration_effect taxYear w) as (_ & _ & Hsome).
  cbv zeta in Hsome. destruct (Hsome taxLawConfig Hlookup) as [Hcached _].
  apply getTaxLawConfiguration_cached. now rewrite Hcache.
Qed.

(** X17. The comparison in the response of [optimizeDeductions], which takes
    two lookups of the registry.  When the first lookup yields a
    configuration, the second is answered from the cache and the comparison
    is consistent: [standardAmount] is the standard deduction of that
    configuration for the filing status, [itemizedAmount] the stored itemized
    total, [useItemized] holds exactly when the itemized amount is above the
    standard amount, [savings] is the excess of the itemized over the
    standard amount or 0; and the store is not written. *)
Theorem optimizeDeductions_comparison taxReturn w taxLawConfig :
  fst (getTaxLawConfiguration (TaxReturn.taxYear taxReturn) w) = Some taxLawConfig ->
  exists data,
    fst (optimizeDeductions taxReturn w) = Success data DeductionOptimizationCompleted
    /\ let compared := DeductionOptimization.standardVsItemized data in
       StandardVsItemized.standardAmount compared
       = TaxLawConfiguration.standardDeductions taxLawConfig
           (TaxReturn.filingStatus taxReturn)
       /\ StandardVsItemized.itemizedAmount compared
          = DeductionData.totalItemizedDeductions (TaxReturn.deductions taxReturn)
       /\ (StandardVsItemized.useItemized compared = true
           <-> StandardVsItemized.standardAmount compared
               < StandardVsItemized.itemizedAmount compared)
       /\ StandardVsItemized.savings compared
          == Math.max 0 (StandardVsItemized.itemizedAmount compared
                         - StandardVsItemized.standardAmount compared)
       /\ db (snd (optimizeDeductions taxReturn w)) = db w.
Proof.
  intros Hlookup.
  pose proof (getTaxLawConfiguration_served _ w taxLawConfig
                (snd (getTaxLawConfiguration (TaxReturn.taxYear taxReturn) w))
                Hlookup eq_refl) as Hsecond.
  unfold optimizeDeductions, calculateItemizedVsStandard, bind, ret.
  rewrite calculateStandardDeduction_lookup.
  rewrite calculateStandardDeduction_lookup.
  eexists. split; [reflexivity|]. cbn [DeductionOptimization.standardVsItemized
    StandardVsItemized.standardAmount StandardVsItemized.itemizedAmount
    StandardVsItemized.useItemized StandardVsItemized.savings
    ItemizedVsStandard.useItemized ItemizedVsStandard.savings fst snd].
  rewrite Hsecond, Hlookup. cbn [fst snd].
  set (standardDeduction :=
         TaxLawConfiguration.standardDeductions taxLawConfig
           (TaxReturn.filingStatus taxReturn)).
  set (itemized := DeductionData.totalItemizedDeductions (TaxReturn.deductions taxReturn)).
  split; [reflexivity|]. split; [reflexivity|]. split; [apply num_lt_true|]. split.
  - destruct (num_gt itemized standardDeduction) eqn:E; num_facts; math_cases; lra.
  - destruct (getTaxLawConfiguration_effect (TaxReturn.taxYear taxReturn) w) as (Hdb & _).
    exact Hdb.
Qed.

Lemma optimizeDeductions_comparison_witness :
  exists data,
    fst (optimizeDeductions calculated_return stored_only_world)
    = Success data DeductionOptimizationCompleted
    /\ StandardVsItemized.standardAmount (DeductionOptimization.standardVsItemized data)
       = 14600
    /\ StandardVsItemized.itemizedAmount (DeductionOptimization.standardVsItemized data)
       = 4000.
Proof.
  destruct (optimizeDeductions_comparison calculated_return stored_only_world
              getTaxYear2024Configuration)
    as (data & Hrun & Hstandard & Hitemized & _); [reflexivity|].
  exists data. split; [exact Hrun|]. split; [exact Hstandard|exact Hitemized].
Defined.

(** ** Proposed deductions *)

(** More itemized deductions never raise the liability. *)
Lemma totalTaxLiability_of_with_proposed taxReturn proposedDeductions taxLawConfig :
  let brackets :=
    TaxLawConfiguration.taxBrackets taxLawConfig (TaxReturn.filingStatus taxReturn) in
  contiguous_from 0 brackets ->
  rates_non_negative brackets ->
  0 <= reduce_sum ProposedDeduction.amount proposedDeductions ->
  totalTaxLiability_of (with_proposedDeductions taxReturn proposedDeductions) taxLawConfig
  <= totalTaxLiability_of taxReturn taxLawConfig.
Proof.
  intros brackets Hcont Hrates Hproposed.
  unfold totalTaxLiability_of, taxableIncome_of, adjustedGrossIncome_of,
    with_proposedDeductions, calculateTaxableIncome, calculateAdjustedGrossIncome,
    calculateFederalTax.
  cbn [TaxReturn.income TaxReturn.deductions TaxReturn.credits TaxReturn.filingStatus
       DeductionData.adjustments DeductionData.totalItemizedDeductions].
  fold brackets.
  set (agi := Math.max 0 (calculateGrossIncome _ - _)).
  set (standardDeduction := TaxLawConfiguration.standardDeductions _ _).
  set (itemized := DeductionData.totalItemizedDeductions _).
  set (extra := reduce_sum ProposedDeduction.amount proposedDeductions) in *.
  set (credits := calculateTotalCredits _ _ _ _).
  set (selfEmploymentTax := calculateSelfEmploymentTax _ _).
  assert (Htaxable :
            Math.max 0 (agi - Math.max standardDeduction (itemized + extra))
            <= Math.max 0 (agi - Math.max standardDeduction itemized)).
  { destruct (Math_max_case standardDeduction (itemized + extra)) as [[? ->]|[? ->]],
             (Math_max_case standardDeduction itemized) as [[? ->]|[? ->]];
      math_cases; lra. }
  pose proof (calculateFederalTax_for_monotone brackets
                (contiguous_from_widths _ _ Hcont) Hrates 0 _ _ Htaxable) as Htax.
  math_cases; lra.
Qed.

(** What [analyzeDeductionStrategy] returns for a reference that denotes a
    tax return. *)
Lemma analyzeDeductionStrategy_result taxReturn proposedDeductions heap w before :
  read_TaxReturn heap taxReturn = Some before ->
  let modified := with_proposedDeductions before proposedDeductions in
  let w1 := snd (calculateTax before w) in
  let w2 := snd (calculateTax modified w1) in
  let currentTax := totalTaxLiability_or_0 (fst (calculateTax before w)) in
  let newTax := totalTaxLiability_or_0 (fst (calculateTax modified w1)) in
  let standardDeduction :=
    fst (calculateStandardDeduction (TaxReturn.taxYear before)
           (TaxReturn.filingStatus before) w2) in
  exists heap',
    fst (analyzeDeductionStrategy taxReturn proposedDeductions heap w)
    = Some (DeductionStrategy.mk currentTax newTax (currentTax - newTax)
              (if num_gt (DeductionData.totalItemizedDeductions (TaxReturn.deductions modified))
                         standardDeduction
               then itemize else standard),
            heap').
Proof.
  intros Hread.
  destruct (read_TaxReturn_Some _ _ _ Hread) as (o & d & Ho & Hd & Hbefore).
  destruct (modifiedTaxReturn_of_heap heap taxReturn proposedDeductions o d Ho Hd)
    as (m & c & heap' & Hcopy & Hm & Hc & Hmc & Hm' & Hc' & Hframe).
  assert (Hkept : forall r, is_Some (heap !! r) -> heap' !! r = heap !! r).
  { intros r [x Hx]. apply Hframe; intros ->; congruence. }
  assert (Hread' : read_TaxReturn heap' taxReturn = Some before).
  { unfold read_TaxReturn. rewrite (Hkept taxReturn), Ho by eauto.
    rewrite (Hkept (TaxReturnObject.deductions o)), Hd by eauto. now rewrite Hbefore. }
  assert (Hmodified : read_TaxReturn heap' m
                      = Some (with_proposedDeductions before proposedDeductions)).
  { unfold read_TaxReturn. rewrite Hm'. simpl. rewrite Hc'. now rewrite Hbefore. }
  cbv zeta. exists heap'.
  unfold analyzeDeductionStrategy. rewrite Hread. unfold bind at 1.
  destruct (calculateTax before w) as [currentCalculation w1] eqn:Hcurrent.
  rewrite Hcopy, Hmodified, Hread'. unfold bind, ret. cbn [fst snd].
  destruct (calculateTax _ w1) as [newCalculation w2] eqn:Hnew. cbn [fst snd].
  destruct (calculateStandardDeduction _ _ w2) as [standardDeduction w3] eqn:Hstandard.
  reflexivity.
Qed.

(** X18. Proposed deductions never raise the tax.  When no proposed amount
    is negative and the first lookup of the registry yields a configuration
    (the two lookups that follow are then answered from the cache) whose
    bracket list for the filing status is contiguous and ascending with rates
    that are not negative, [analyzeDeductionStrategy] returns
    [newTax <= currentTax] and [savings = currentTax - newTax >= 0]. *)
Theorem proposed_deductions_never_raise_tax
    taxReturn proposedDeductions heap w before taxLawConfig :
  read_TaxReturn heap taxReturn = Some before ->
  Forall (fun proposed => 0 <= ProposedDeduction.amount proposed) proposedDeductions ->
  fst (getTaxLawConfiguration (TaxReturn.taxYear before) w) = Some taxLawConfig ->
  contiguous_from 0
    (TaxLawConfiguration.taxBrackets taxLawConfig (TaxReturn.filingStatus before)) ->
  rates_non_negative
    (TaxLawConfiguration.taxBrackets taxLawConfig (TaxReturn.filingStatus before)) ->
  exists strategy heap',
    fst (analyzeDeductionStrategy taxReturn proposedDeductions heap w)
    = Some (strategy, heap')
    /\ DeductionStrategy.newTax strategy <= DeductionStrategy.currentTax strategy
    /\ DeductionStrategy.savings strategy
       = DeductionStrategy.currentTax strategy - DeductionStrategy.newTax strategy
    /\ 0 <= DeductionStrategy.savings strategy.
Proof.
  intros Hread Hamounts Hlookup Hcont Hrates.
  assert (Hproposed : 0 <= reduce_sum ProposedDeduction.amount proposedDeductions).
  { rewrite reduce_sum_total. clear -Hamounts.
    induction Hamounts as [|proposed rest Hfirst _ IH]; simpl; [lra|].
    cbv beta in Hfirst. lra. }
  destruct (analyzeDeductionStrategy_result taxReturn proposedDeductions heap w before Hread)
    as [heap' Hresult].
  cbv zeta in Hresult.
  set (modified := with_proposedDeductions before proposedDeductions) in *.
  set (taxYear := TaxReturn.taxYear before) in *.
  assert (Hyear : TaxReturn.taxYear modified = taxYear) by reflexivity.
  set (w1 := snd (calculateTax before w)) in *.
  assert (Hw1 : fst (getTaxLawConfiguration taxYear w1) = Some taxLawConfig).
  { rewrite (getTaxLawConfiguration_served taxYear w taxLawConfig w1 Hlookup);
      [reflexivity|].
    unfold w1. now rewrite calculateTax_world. }
  assert (Htax : totalTaxLiability_or_0 (fst (calculateTax modified w1))
                 <= totalTaxLiability_or_0 (fst (calculateTax before w))).
  { rewrite !calculateTax_response, Hyear. fold taxYear. rewrite Hw1, Hlookup.
    destruct (calculateTax_steps before taxLawConfig) as [current|] eqn:Hcurrent,
             (calculateTax_steps modified taxLawConfig) as [new|] eqn:Hnew;
      cbn [totalTaxLiability_or_0].
    - apply calculateTax_steps_fields in Hcurrent, Hnew. cbv zeta in Hcurrent, Hnew.
      destruct Hcurrent as (_ & _ & _ & -> & _), Hnew as (_ & _ & _ & -> & _).
      apply roundToTwoDec_monotone.
      apply totalTaxLiability_of_with_proposed; assumption.
    - exfalso.
      assert (Hsome : is_Some (calculateTax_steps before taxLawConfig))
        by (exists current; exact Hcurrent).
      apply calculateTax_steps_total in Hsome. destruct Hsome as [rate Hrate].
      assert (Hnone : ~ is_Some (calculateTax_steps modified taxLawConfig))
        by (rewrite Hnew; intros [? ?]; discriminate).
      apply Hnone, calculateTax_steps_total, calculateMarginalTaxRate_total.
      intros Hempty. unfold calculateMarginalTaxRate in Hrate.
      change (TaxReturn.filingStatus modified) with (TaxReturn.filingStatus before)
        in Hempty.
      rewrite Hempty in Hrate. discriminate.
    - exfalso.
      assert (Hsome : is_Some (calculateTax_steps modified taxLawConfig))
        by (exists new; exact Hnew).
      apply calculateTax_steps_total in Hsome. destruct Hsome as [rate Hrate].
      assert (Hnone : ~ is_Some (calculateTax_steps before taxLawConfig))
        by (rewrite Hcurrent; intros [? ?]; discriminate).
      apply Hnone, calculateTax_steps_total, calculateMarginalTaxRate_total.
      intros Hempty. unfold calculateMarginalTaxRate in Hrate.
      change (TaxReturn.filingStatus modified) with (TaxReturn.filingStatus before)
        in Hrate.
      rewrite Hempty in Hrate. discriminate.
    - lra. }
  eexists _, heap'. split; [exact Hresult|].
  cbn [DeductionStrategy.newTax DeductionStrategy.currentTax DeductionStrategy.savings].
  split; [exact Htax|]. split; [reflexivity|]. lra.
Qed.

Lemma proposed_deductions_never_raise_tax_witness :
  exists strategy heap',
    fst (analyzeDeductionStrategy 1%positive [ProposedDeduction.mk "charity" 20000]
           single_filer_heap seeded_world)
    = Some (strategy, heap')
    /\ 0 <= DeductionStrategy.savings strategy.
Proof.
  destruct (proposed_deductions_never_raise_tax 1%positive
              [ProposedDeduction.mk "charity" 20000] single_filer_heap seeded_world
              single_filer_wages_60000 getTaxYear2024Configuration)
    as (strategy & heap' & Hrun & _ & _ & Hsavings).
  - vm_compute. reflexivity.
  - repeat constructor. discriminate.
  - reflexivity.
  - simpl; repeat split; reflexivity.
  - repeat constructor; discriminate.
  - exists strategy, heap'. split; assumption.
Defined.

(** ** Repeating and extending a calculation *)

(** X19. [calculateTax] reads the store and never writes it, and touches no
    cache entry but the one of the return's year.  Once the lookup has
    yielded a configuration the calculation is repeatable: in every later
    state that still holds that cache entry, whatever has become of the store
    and of the log, calculating the same return gives the same response. *)
Theorem calculateTax_repeatable taxReturn w :
  let w' := snd (calculateTax taxReturn w) in
  db w' = db w
  /\ (forall other,
        other <> TaxReturn.taxYear taxReturn ->
        configCache w' !! other = configCache w !! other)
  /\ (forall taxLawConfig later,
        fst (getTaxLawConfiguration (TaxReturn.taxYear taxReturn) w) = Some taxLawConfig ->
        configCache later !! TaxReturn.taxYear taxReturn
        = configCache w' !! TaxReturn.taxYear taxReturn ->
        calculateTax taxReturn later = (fst (calculateTax taxReturn w), later)).
Proof.
  cbv zeta. rewrite calculateTax_world.
  destruct (getTaxLawConfiguration_effect (TaxReturn.taxYear taxReturn) w)
    as (Hdb & Hnone & Hsome).
  cbv zeta in Hdb, Hnone, Hsome.
  split; [exact Hdb|]. split.
  - intros other Hother.
    destruct (fst (getTaxLawConfiguration (TaxReturn.taxYear taxReturn) w))
      as [config|] eqn:Hresult.
    + now apply (Hsome config).
    + now rewrite Hnone.
  - intros taxLawConfig later Hlookup Hcache.
    pose proof (getTaxLawConfiguration_served _ w taxLawConfig later Hlookup Hcache)
      as Hlater.
    rewrite calculateTax_response, Hlookup.
    unfold calculateTax, bind, ret. rewrite Hlater.
    now destruct (calculateTax_steps taxReturn taxLawConfig).
Qed.

Lemma reduce_sum_app {A} (f : A -> Q) (l : list A) (x : A) :
  reduce_sum f (l ++ [x]) = reduce_sum f l + f x.
Proof. unfold reduce_sum. now rewrite fold_left_app. Qed.

(** X20. Other income that is not flagged taxable does not count: adding such
    an entry to a return leaves the whole calculation as it was; adding a
    taxable entry raises the gross income by its amount. *)
Theorem other_income_counts_when_taxable taxReturn entry taxLawConfig :
  (OtherIncome.taxable entry = false ->
   calculateTax_steps (with_otherIncome taxReturn entry) taxLawConfig
   = calculateTax_steps taxReturn taxLawConfig)
  /\ (OtherIncome.taxable entry = true ->
      calculateGrossIncome (TaxReturn.income (with_otherIncome taxReturn entry))
      == calculateGrossIncome (TaxReturn.income taxReturn) + OtherIncome.amount entry).
Proof.
  split; intros Htaxable.
  - assert (Hgross : calculateGrossIncome (TaxReturn.income (with_otherIncome taxReturn entry))
                     = calculateGrossIncome (TaxReturn.income taxReturn)).
    { unfold calculateGrossIncome, with_otherIncome.
      cbn [TaxReturn.income IncomeData.wages IncomeData.selfEmployment IncomeData.investment
           IncomeData.retirement IncomeData.other].
      rewrite List.filter_app. cbn [List.filter]. rewrite Htaxable, app_nil_r.
      reflexivity. }
    unfold calculateTax_steps. rewrite Hgross. reflexivity.
  - unfold calculateGrossIncome, with_otherIncome.
    cbn [TaxReturn.income IncomeData.wages IncomeData.selfEmployment IncomeData.investment
         IncomeData.retirement IncomeData.other].
    rewrite List.filter_app. cbn [List.filter]. rewrite Htaxable, reduce_sum_app. lra.
Qed.

Lemma other_income_counts_when_taxable_witness :
  calculateTax_steps
    (with_otherIncome single_filer_wages_60000 (OtherIncome.mk 5000 false))
    getTaxYear2024Configuration
  = calculateTax_steps single_filer_wages_60000 getTaxYear2024Configuration.
Proof.
  apply (other_income_counts_when_taxable single_filer_wages_60000
           (OtherIncome.mk 5000 false) getTaxYear2024Configuration).
  reflexivity.
Defined.
